(** * QUANTAID Lite front end: live event simulator and its collaborators

  A shallow embedding of the React components of the front end
  (RealTimeDashboard, ChampionshipDashboard, WorldMap, CrisisPredictor,
  Dashboard, AdvancedAIPredictor, DataExplorer, QuantumOptimizer) and
  the properties the specification states about them.

  Conventions of the embedding.
  - A JavaScript number is an exact rational ([Q]); a decimal literal
    of the source denotes the rational it spells.  Numeric comparison
    ([>], [===]) is comparison of rationals.  The rounding of the
    program's binary floating point is not part of the model; where
    it could matter, a property is stated so that it holds of the
    rounded results as well: a bound that rounding can reach is
    closed, and an order that rounding can merge is weak.
  - [Math.random()] and [Date.now()] read an explicit [World]: an
    infinite stream of draws with a cursor, and a clock.  Code that
    calls them lives in the monad [M], which also carries thrown
    exceptions.
  - A [useState] cell is a record field; [setX(prev => e)] is the
    record update with [e] applied to the old field, at the call.
  - A [Date] and the string [toLocaleTimeString()] makes of it are
    the clock reading they come from.
  - An [await] is the settled promise it waits for; what the network
    answers is a parameter of the handler.
  - [setInterval]/[clearInterval] act on a table of registered
    intervals held by the runtime; the event loop only ever runs the
    callback of a registered interval. *)

From Stdlib Require Import List String ZArith QArith Qround Qminmax Lia Lqa Bool.
Import ListNotations.

Set Implicit Arguments.

(* ================================================================= *)
(** ** The JavaScript primitives the components use *)

Module JS.

Local Open Scope Q_scope.

(** [a > b] on numbers. *)
Definition gt (a b : Q) : bool := negb (Qle_bool a b).

(** [a === b] on numbers. *)
Definition strict_eq (a b : Q) : bool := Qeq_bool a b.

Definition Math_max (a b : Q) : Q := Qmax a b.
Definition Math_min (a b : Q) : Q := Qmin a b.
Definition Math_floor (x : Q) : Q := inject_Z (Qfloor x).

(** [arr.slice(0, n)]. *)
Definition slice_to {A} (n : nat) (arr : list A) : list A := firstn n arr.

(** [arr.slice(-n)]: the last [n] elements, the whole array when it
    is shorter. *)
Definition slice_last {A} (n : nat) (arr : list A) : list A :=
  skipn (List.length arr - n) arr.

(** [arr[i]] for a number [i]: [undefined] ([None]) unless [i] is an
    index of the array. *)
Definition index {A} (arr : list A) (i : Q) : option A :=
  if Qle_bool 0 i && Qeq_bool i (inject_Z (Qfloor i))
  then nth_error arr (Z.to_nat (Qfloor i))
  else None.

(** [arr.length] as a number. *)
Definition length_of {A} (arr : list A) : Q := inject_Z (Z.of_nat (List.length arr)).

(** The part of the environment the components read. *)
Record World := mkWorld {
  rng : nat -> Q;      (* the successive results of Math.random() *)
  cursor : nat;        (* how many draws were consumed *)
  clock : Z            (* Date.now(), milliseconds *)
}.

(** How a computation ends. *)
Inductive Completion (A : Type) : Type :=
| Normal (a : A)
| Throw (e : string).
Arguments Normal {A} a.
Arguments Throw {A} e.

(** Computations over a state [St] that may throw. *)
Definition ME (St A : Type) : Type := St -> Completion A * St.

Definition ret {St A} (a : A) : ME St A := fun w => (Normal a, w).

Definition bind {St A B} (m : ME St A) (k : A -> ME St B) : ME St B :=
  fun w =>
    match m w with
    | (Normal a, w') => k a w'
    | (Throw e, w') => (Throw e, w')
    end.

Definition throw {St A} (e : string) : ME St A := fun w => (Throw e, w).

Definition get {St} : ME St St := fun w => (Normal w, w).

Definition modify {St} (f : St -> St) : ME St unit := fun w => (Normal tt, f w).

(** [try { body } catch (error) { handler }] *)
Definition try_catch {St A} (body : ME St A) (handler : string -> ME St A)
  : ME St A :=
  fun w =>
    match body w with
    | (Normal a, w') => (Normal a, w')
    | (Throw e, w') => handler e w'
    end.

(** [try { body } finally { fin }] *)
Definition try_finally {St A} (body : ME St A) (fin : ME St unit) : ME St A :=
  fun w =>
    match body w with
    | (c, w') =>
        match fin w' with
        | (Normal _, w'') => (c, w'')
        | (Throw e, w'') => (Throw e, w'')
        end
    end.

(** Computations that read the random source and the clock. *)
Definition M (A : Type) : Type := ME World A.

Definition Math_random : M Q :=
  fun w => (Normal (rng w (cursor w)),
            {| rng := rng w; cursor := S (cursor w); clock := clock w |}).

Definition Date_now : M Z := fun w => (Normal (clock w), w).

(** [Array.from({ length: n }, (_, i) => f(i))]. *)
Fixpoint Array_from_aux {A} (f : nat -> M A) (i n : nat) : M (list A) :=
  match n with
  | O => ret []
  | S n' =>
      bind (f i) (fun x =>
      bind (Array_from_aux f (S i) n') (fun xs =>
      ret (x :: xs)))
  end.

Definition Array_from {A} (n : nat) (f : nat -> M A) : M (list A) :=
  Array_from_aux f 0 n.

(** *** Timers

    The runtime's table of pending timers.  [setInterval] and
    [setTimeout] draw their handles from one counter; [clearInterval]
    removes the entry of a handle and does nothing when there is
    none.  When a timer elapses the event loop runs its callback
    only if the handle is still in the table; the callback of a
    timeout is removed before it runs.  A callback is a value of the
    component's closure type [C], interpreted by [run] on the
    component state [S]; an exception thrown by a callback leaves
    the component state as it was. *)

Inductive TimerKind := Interval | Timeout.

Record Timer (C : Type) := mkTimer {
  handle : nat;
  kind : TimerKind;
  callback : C
}.

Record Runtime (S C : Type) := mkRuntime {
  state : S;
  world : World;
  timers : list (Timer C);
  nextHandle : nat
}.

Section Timers.

Variables S C : Type.
Variable run : C -> S -> M S.

Definition register (k : TimerKind) (cb : C) (rt : Runtime S C)
  : nat * Runtime S C :=
  (nextHandle rt,
   {| state := state rt; world := world rt;
      timers := timers rt ++ [ {| handle := nextHandle rt; kind := k; callback := cb |} ];
      nextHandle := Datatypes.S (nextHandle rt) |}).

Definition setInterval (cb : C) (rt : Runtime S C) : nat * Runtime S C :=
  register Interval cb rt.

Definition setTimeout (cb : C) (rt : Runtime S C) : nat * Runtime S C :=
  register Timeout cb rt.

Definition clearInterval (h : nat) (rt : Runtime S C) : Runtime S C :=
  {| state := state rt; world := world rt;
     timers := filter (fun t => negb (Nat.eqb (handle t) h)) (timers rt);
     nextHandle := nextHandle rt |}.

Definition pending (h : nat) (rt : Runtime S C) : option (Timer C) :=
  find (fun t => Nat.eqb (handle t) h) (timers rt).

(** Run a callback against the component state. *)
Definition invoke (cb : C) (rt : Runtime S C) : Runtime S C :=
  match run cb (state rt) (world rt) with
  | (Normal s', w') =>
      {| state := s'; world := w'; timers := timers rt; nextHandle := nextHandle rt |}
  | (Throw _, w') =>
      {| state := state rt; world := w'; timers := timers rt; nextHandle := nextHandle rt |}
  end.

(** The timer with handle [h] elapses. *)
Definition fire (h : nat) (rt : Runtime S C) : Runtime S C :=
  match pending h rt with
  | None => rt
  | Some t =>
      match kind t with
      | Interval => invoke (callback t) rt
      | Timeout => invoke (callback t) (clearInterval h rt)
      end
  end.

(** Time passes: the clock moves, nothing runs. *)
Definition advance (dt : Z) (rt : Runtime S C) : Runtime S C :=
  {| state := state rt;
     world := {| rng := rng (world rt); cursor := cursor (world rt);
                 clock := (clock (world rt) + dt)%Z |};
     timers := timers rt; nextHandle := nextHandle rt |}.

(** A component-level state update (a click handler). *)
Definition update (f : S -> S) (rt : Runtime S C) : Runtime S C :=
  {| state := f (state rt); world := world rt;
     timers := timers rt; nextHandle := nextHandle rt |}.

End Timers.

(** A draw of [Math.random()] lies in [0, 1). *)
Definition unit_draw (r : Q) : Prop := 0 <= r /\ r < 1.

Definition uniform_source (w : World) : Prop :=
  forall n, unit_draw (rng w n).

(** *** Values and promises *)

(** A JavaScript value as the network hands it over. *)
#[local] Set Warnings "-register-all".
Inductive Value :=
| VUndefined
| VNull
| VBool (b : bool)
| VNum (n : Q)
| VStr (s : string)
| VArr (items : list Value)
| VObj (props : list (string * Value)).

Fixpoint lookup (k : string) (props : list (string * Value)) : Value :=
  match props with
  | [] => VUndefined
  | (k', v) :: rest => if String.eqb k k' then v else lookup k rest
  end.

(** [v.k]: a [TypeError] on [null] and [undefined]. *)
Definition getProp {St} (v : Value) (k : string) : ME St Value :=
  match v with
  | VUndefined | VNull => throw "TypeError"
  | VObj props => ret (lookup k props)
  | _ => ret VUndefined
  end.

(** A settled promise. *)
Inductive Promise (A : Type) : Type :=
| Resolved (a : A)
| Rejected (e : string).
Arguments Resolved {A} a.
Arguments Rejected {A} e.

Definition await {St A} (p : Promise A) : ME St A :=
  match p with
  | Resolved a => ret a
  | Rejected e => throw e
  end.

(** The outcome of running an [async] function to its end: the state
    it leaves and how the promise it returned settles. *)
Definition settle {St} (m : ME St unit) (s : St) : St * Promise unit :=
  match m s with
  | (Normal _, s') => (s', Resolved tt)
  | (Throw e, s') => (s', Rejected e)
  end.

End JS.

Declare Scope js_scope.
Delimit Scope js_scope with js.
Notation "x <- m ;; k" := (JS.bind m (fun x => k))
(at level 61, m at next level, right associativity) : js_scope.

(* ================================================================= *)
(** ** RealTimeDashboard *)

Module RealTimeDashboard.

Import JS.
Local Open Scope Q_scope.
Local Open Scope js_scope.
Local Open Scope string_scope.

Inductive Icon := AlertTriangle | Brain | Atom | Activity.
Inductive Severity := high | medium | low.

Record Alert := mkAlert {
  id : Q;
  type : string;
  icon : Icon;
  color : string;
  message : option string;
  timestamp : Z;
  severity : Severity;
  read : bool
}.

Record SystemMetrics := mkSystemMetrics {
  ai_accuracy : Q;
  quantum_efficiency : Q;
  active_predictions : Q;
  crisis_alerts : Q;
  response_time : Q;
  uptime : Q
}.

Record MetricsData := mkMetricsData {
  data_timestamp : Z;
  ai_predictions : Q;
  quantum_operations : Q;
  crisis_score : Q;
  response_efficiency : Q
}.

(** The [useState] cells of the component. *)
Record State := mkState {
  alerts : list Alert;
  systemMetrics : SystemMetrics;
  liveData : list MetricsData;
  isConnected : bool
}.

Definition initialState : State :=
  {| alerts := [];
     systemMetrics :=
       {| ai_accuracy := 94.2;
          quantum_efficiency := 87.5;
          active_predictions := 156;
          crisis_alerts := 8;
          response_time := 2.3;
          uptime := 99.8 |};
     liveData := [];
     isConnected := true |}.

Definition setAlerts (f : list Alert -> list Alert) (s : State) : State :=
  {| alerts := f (alerts s); systemMetrics := systemMetrics s;
     liveData := liveData s; isConnected := isConnected s |}.

Definition setSystemMetrics (f : SystemMetrics -> SystemMetrics) (s : State) : State :=
  {| alerts := alerts s; systemMetrics := f (systemMetrics s);
     liveData := liveData s; isConnected := isConnected s |}.

Definition setLiveData (f : list MetricsData -> list MetricsData) (s : State) : State :=
  {| alerts := alerts s; systemMetrics := systemMetrics s;
     liveData := f (liveData s); isConnected := isConnected s |}.

Definition setIsConnected (b : bool) (s : State) : State :=
  {| alerts := alerts s; systemMetrics := systemMetrics s;
     liveData := liveData s; isConnected := b |}.

Record AlertType := mkAlertType {
  at_type : string;
  at_icon : Icon;
  at_color : string;
  messages : list string
}.

Definition alertTypes : list AlertType :=
  [ {| at_type := "crisis"; at_icon := AlertTriangle; at_color := "red";
       messages :=
         [ "Drought conditions worsening in Horn of Africa";
           "Flood risk elevated in Bangladesh Delta";
           "Food security declining in Sahel region";
           "Hurricane approaching Central America" ] |};
    {| at_type := "prediction"; at_icon := Brain; at_color := "blue";
       messages :=
         [ "AI model detected yield anomaly in wheat belt";
           "Ensemble prediction confidence increased to 96%";
           "New climate pattern identified affecting corn production";
           "Risk assessment updated for 3 regions" ] |};
    {| at_type := "quantum"; at_icon := Atom; at_color := "purple";
       messages :=
         [ "Quantum optimization completed for resource allocation";
           "QAOA algorithm achieved 18% efficiency gain";
           "Route optimization reduced delivery time by 25%";
           "Quantum circuit depth optimized for faster execution" ] |};
    {| at_type := "system"; at_icon := Activity; at_color := "green";
       messages :=
         [ "Real-time data sync completed successfully";
           "Model training completed with improved accuracy";
           "System performance optimized";
           "New data sources integrated" ] |} ].

(** [Math.random() > 0.7 ? 'high' : Math.random() > 0.4 ? 'medium' : 'low'] *)
Definition drawSeverity : M Severity :=
  r <- Math_random ;;
  if gt r 0.7 then ret high
  else
    r' <- Math_random ;;
    ret (if gt r' 0.4 then medium else low).

Definition generateAlert : M Alert :=
  r1 <- Math_random ;;
  match index alertTypes (Math_floor (r1 * length_of alertTypes)) with
  | None => throw "TypeError"   (* randomType.messages of undefined *)
  | Some randomType =>
      r2 <- Math_random ;;
      let randomMessage :=
        index (messages randomType)
              (Math_floor (r2 * length_of (messages randomType))) in
      now <- Date_now ;;
      r3 <- Math_random ;;
      date <- Date_now ;;
      sev <- drawSeverity ;;
      ret {| id := inject_Z now + r3;
             type := at_type randomType;
             icon := at_icon randomType;
             color := at_color randomType;
             message := randomMessage;
             timestamp := date;
             severity := sev;
             read := false |}
  end.

Definition generateMetricsData : M MetricsData :=
  now <- Date_now ;;
  r1 <- Math_random ;;
  r2 <- Math_random ;;
  r3 <- Math_random ;;
  r4 <- Math_random ;;
  ret {| data_timestamp := now;
         ai_predictions := Math_floor (r1 * 20) + 80;
         quantum_operations := Math_floor (r2 * 15) + 25;
         crisis_score := Math_floor (r3 * 30) + 40;
         response_efficiency := Math_floor (r4 * 20) + 75 |}.

(** [prev => [newAlert, ...prev.slice(0, 9)]] *)
Definition pushAlert (newAlert : Alert) (prev : list Alert) : list Alert :=
  newAlert :: slice_to 9 prev.

(** [prev => [...prev.slice(-9), newData]] *)
Definition pushLiveData (newData : MetricsData) (prev : list MetricsData)
  : list MetricsData :=
  slice_last 9 prev ++ [newData].

(** The updater handed to [setSystemMetrics]. *)
Definition jitterSystemMetrics (prev : SystemMetrics) : M SystemMetrics :=
  r1 <- Math_random ;;
  r2 <- Math_random ;;
  r3 <- Math_random ;;
  r4 <- Math_random ;;
  r5 <- Math_random ;;
  ret {| ai_accuracy :=
           Math_max 90 (Math_min 99 (ai_accuracy prev + (r1 - 0.5) * 2));
         quantum_efficiency :=
           Math_max 80 (Math_min 95 (quantum_efficiency prev + (r2 - 0.5) * 3));
         active_predictions :=
           Math_max 100 (Math_min 200
             (active_predictions prev + Math_floor ((r3 - 0.5) * 10)));
         crisis_alerts :=
           Math_max 0 (Math_min 20
             (crisis_alerts prev + Math_floor ((r4 - 0.5) * 2)));
         response_time :=
           Math_max 1 (Math_min 5 (response_time prev + (r5 - 0.5) * 0.5));
         uptime := uptime prev |}.

(** The three closures handed to [setInterval]. *)
Inductive Callback := alertTick | metricsTick | connectionTick.

Definition alertInterval_callback (s : State) : M State :=
  r <- Math_random ;;
  if gt r 0.7 then
    newAlert <- generateAlert ;;
    ret (setAlerts (pushAlert newAlert) s)
  else ret s.

Definition metricsInterval_callback (s : State) : M State :=
  newData <- generateMetricsData ;;
  let s1 := setLiveData (pushLiveData newData) s in
  m <- jitterSystemMetrics (systemMetrics s1) ;;
  ret (setSystemMetrics (fun _ => m) s1).

Definition connectionInterval_callback (s : State) : M State :=
  r <- Math_random ;;
  ret (setIsConnected (gt r 0.1) s).

Definition run (cb : Callback) : State -> M State :=
  match cb with
  | alertTick => alertInterval_callback
  | metricsTick => metricsInterval_callback
  | connectionTick => connectionInterval_callback
  end.

Definition dismissAlert (alertId : Q) (s : State) : State :=
  setAlerts (filter (fun alert => negb (strict_eq (id alert) alertId))) s.

Definition markAsRead (alertId : Q) (s : State) : State :=
  setAlerts (map (fun alert =>
    if strict_eq (id alert) alertId
    then {| id := id alert; type := type alert; icon := icon alert;
            color := color alert; message := message alert;
            timestamp := timestamp alert; severity := severity alert;
            read := true |}
    else alert)) s.

(** The handles the cleanup closure of the effect captures. *)
Record Cleanup := mkCleanup {
  alertInterval : nat;
  metricsInterval : nat;
  connectionInterval : nat
}.

Definition RT := Runtime State Callback.

(** The seeding part of the effect: three alerts, ten samples stamped
    one minute apart. *)
Definition seed (s : State) : M State :=
  initialAlerts <- Array_from 3 (fun _ => generateAlert) ;;
  let s1 := setAlerts (fun _ => initialAlerts) s in
  initialData <- Array_from 10 (fun i =>
    d <- generateMetricsData ;;
    now <- Date_now ;;
    ret {| data_timestamp := (now - (9 - Z.of_nat i) * 60000)%Z;
           ai_predictions := ai_predictions d;
           quantum_operations := quantum_operations d;
           crisis_score := crisis_score d;
           response_efficiency := response_efficiency d |}) ;;
  ret (setLiveData (fun _ => initialData) s1).

(** The body of [useEffect(..., [])]: seed the state, register the
    three intervals, hand back the cleanup.  An exception in the
    seeding aborts the effect before anything is registered. *)
Definition effect (rt : RT) : RT * option Cleanup :=
  match seed (state rt) (world rt) with
  | (Throw _, w') =>
      ({| state := state rt; world := w'; timers := timers rt;
          nextHandle := nextHandle rt |}, None)
  | (Normal s', w') =>
      let rt0 := {| state := s'; world := w'; timers := timers rt;
                    nextHandle := nextHandle rt |} in
      let (h1, rt1) := setInterval alertTick rt0 in
      let (h2, rt2) := setInterval metricsTick rt1 in
      let (h3, rt3) := setInterval connectionTick rt2 in
      (rt3, Some {| alertInterval := h1; metricsInterval := h2;
                    connectionInterval := h3 |})
  end.

Definition cleanup (c : Cleanup) (rt : RT) : RT :=
  clearInterval (connectionInterval c)
    (clearInterval (metricsInterval c)
      (clearInterval (alertInterval c) rt)).

(** A mounted (or unmounted) instance of the component. *)
Record Instance := mkInstance {
  runtime : RT;
  onUnmount : option Cleanup;
  mounted : bool
}.

Definition mount (w : World) : Instance :=
  let (rt, c) := effect {| state := initialState; world := w;
                           timers := []; nextHandle := 1 |} in
  {| runtime := rt; onUnmount := c; mounted := true |}.

Definition unmount (i : Instance) : Instance :=
  {| runtime :=
       match onUnmount i with
       | Some c => cleanup c (runtime i)
       | None => runtime i
       end;
     onUnmount := onUnmount i;
     mounted := false |}.

Inductive Event :=
| TimerElapses (h : nat)
| ClockAdvances (dt : Z)
| ClickDismiss (alertId : Q)
| ClickMarkAsRead (alertId : Q)
| Unmount.

Definition onRuntime (f : RT -> RT) (i : Instance) : Instance :=
  {| runtime := f (runtime i); onUnmount := onUnmount i; mounted := mounted i |}.

Definition step (e : Event) (i : Instance) : Instance :=
  match e with
  | TimerElapses h => onRuntime (fire run h) i
  | ClockAdvances dt => onRuntime (advance dt) i
  | ClickDismiss a =>
      if mounted i then onRuntime (update (dismissAlert a)) i else i
  | ClickMarkAsRead a =>
      if mounted i then onRuntime (update (markAsRead a)) i else i
  | Unmount => unmount i
  end.

Definition steps (es : list Event) (i : Instance) : Instance :=
  fold_left (fun i e => step e i) es i.

End RealTimeDashboard.

(* ================================================================= *)
(** ** ChampionshipDashboard *)

Module ChampionshipDashboard.

Import JS.
Local Open Scope Q_scope.
Local Open Scope js_scope.
Local Open Scope string_scope.

Record Metrics := mkMetrics {
  predictionsToday : Q;
  quantumOptimizations : Q;
  crisisAlertsActive : Q;
  regionsMonitored : Q;
  systemHealth : Q;
  quantumAdvantage : Q
}.

Record LiveAlert := mkLiveAlert {
  id : Q;
  region : string;
  type : string;
  severity : string;
  time : string
}.

Record State := mkState {
  metrics : Metrics;
  liveAlerts : list LiveAlert;
  isLoading : bool
}.

Definition initialState : State :=
  {| metrics :=
       {| predictionsToday := 0;
          quantumOptimizations := 0;
          crisisAlertsActive := 0;
          regionsMonitored := 12;
          systemHealth := 98.7;
          quantumAdvantage := 23.4 |};
     liveAlerts := [];
     isLoading := true |}.

Definition setMetrics (m : Metrics) (s : State) : State :=
  {| metrics := m; liveAlerts := liveAlerts s; isLoading := isLoading s |}.

Definition setLiveAlerts (l : list LiveAlert) (s : State) : State :=
  {| metrics := metrics s; liveAlerts := l; isLoading := isLoading s |}.

Definition setIsLoading (b : bool) (s : State) : State :=
  {| metrics := metrics s; liveAlerts := liveAlerts s; isLoading := b |}.

(** The [alerts] constant of the alert interval. *)
Definition alerts : list LiveAlert :=
  [ {| id := 1; region := "Maharashtra"; type := "Drought Warning";
       severity := "high"; time := "2 min ago" |};
    {| id := 2; region := "West Bengal"; type := "Flood Alert";
       severity := "critical"; time := "5 min ago" |};
    {| id := 3; region := "Rajasthan"; type := "Heat Wave";
       severity := "warning"; time := "8 min ago" |} ].

Inductive Callback := metricsTick | alertTick | loadingDone.

Definition interval_callback (s : State) : M State :=
  r1 <- Math_random ;;
  r2 <- Math_random ;;
  r3 <- Math_random ;;
  let prev := metrics s in
  ret (setMetrics
         {| predictionsToday := predictionsToday prev + Math_floor (r1 * 3);
            quantumOptimizations := quantumOptimizations prev + Math_floor (r2 * 2);
            crisisAlertsActive := crisisAlertsActive prev;
            regionsMonitored := regionsMonitored prev;
            systemHealth := 98.7 + (r3 - 0.5) * 0.6;
            quantumAdvantage := quantumAdvantage prev |} s).

Definition alertInterval_callback (s : State) : M State :=
  ret (setLiveAlerts alerts s).

Definition run (cb : Callback) : State -> M State :=
  match cb with
  | metricsTick => interval_callback
  | alertTick => alertInterval_callback
  | loadingDone => fun s => ret (setIsLoading false s)
  end.

Record Cleanup := mkCleanup {
  interval : nat;
  alertInterval : nat
}.

Definition RT := Runtime State Callback.

Definition effect (rt : RT) : RT * Cleanup :=
  let (h1, rt1) := setInterval metricsTick rt in
  let (h2, rt2) := setInterval alertTick rt1 in
  let (_, rt3) := setTimeout loadingDone rt2 in
  (rt3, {| interval := h1; alertInterval := h2 |}).

Definition cleanup (c : Cleanup) (rt : RT) : RT :=
  clearInterval (alertInterval c) (clearInterval (interval c) rt).

Record Instance := mkInstance {
  runtime : RT;
  onUnmount : Cleanup
}.

Definition mount (w : World) : Instance :=
  let (rt, c) := effect {| state := initialState; world := w;
                           timers := []; nextHandle := 1 |} in
  {| runtime := rt; onUnmount := c |}.

Definition unmount (i : Instance) : Instance :=
  {| runtime := cleanup (onUnmount i) (runtime i); onUnmount := onUnmount i |}.

Inductive Event :=
| TimerElapses (h : nat)
| ClockAdvances (dt : Z)
| Unmount.

Definition step (e : Event) (i : Instance) : Instance :=
  match e with
  | TimerElapses h =>
      {| runtime := fire run h (runtime i); onUnmount := onUnmount i |}
  | ClockAdvances dt =>
      {| runtime := advance dt (runtime i); onUnmount := onUnmount i |}
  | Unmount => unmount i
  end.

Definition steps (es : list Event) (i : Instance) : Instance :=
  fold_left (fun i e => step e i) es i.

End ChampionshipDashboard.

(* ================================================================= *)
(** ** WorldMap *)

Module WorldMap.

Local Open Scope Q_scope.
Local Open Scope string_scope.

Record Coordinates := mkCoordinates { lat : Q; lng : Q }.

Record Hotspot := mkHotspot {
  id : Q;
  name : string;
  country : string;
  coordinates : Coordinates;
  severity : string;
  type : string;
  affected_population : Q;
  risk_score : Q;
  temperature_anomaly : Q;
  rainfall_deficit : Q;
  food_security_index : Q;
  predicted_yield : Q;
  resources_needed : list (string * string);
  timeline : string;
  description : string
}.

Inductive Layer := temperature | rainfall | population | food_security.

Record MapLayers := mkMapLayers {
  l_temperature : bool;
  l_rainfall : bool;
  l_population : bool;
  l_food_security : bool
}.

Record State := mkState {
  crisisHotspots : list Hotspot;
  selectedCrisis : option Hotspot;
  mapLayers : MapLayers;
  isLoading : bool
}.

Definition initialState : State :=
  {| crisisHotspots := [];
     selectedCrisis := None;
     mapLayers := {| l_temperature := true; l_rainfall := true;
                     l_population := true; l_food_security := true |};
     isLoading := false |}.

Definition setCrisisHotspots (l : list Hotspot) (s : State) : State :=
  {| crisisHotspots := l; selectedCrisis := selectedCrisis s;
     mapLayers := mapLayers s; isLoading := isLoading s |}.

Definition setSelectedCrisis (c : option Hotspot) (s : State) : State :=
  {| crisisHotspots := crisisHotspots s; selectedCrisis := c;
     mapLayers := mapLayers s; isLoading := isLoading s |}.

Definition setMapLayers (f : MapLayers -> MapLayers) (s : State) : State :=
  {| crisisHotspots := crisisHotspots s; selectedCrisis := selectedCrisis s;
     mapLayers := f (mapLayers s); isLoading := isLoading s |}.

Definition setIsLoading (b : bool) (s : State) : State :=
  {| crisisHotspots := crisisHotspots s; selectedCrisis := selectedCrisis s;
     mapLayers := mapLayers s; isLoading := b |}.

(** The [hotspots] constant of [generateCrisisHotspots]. *)
Definition hotspots : list Hotspot :=
  [ {| id := 1;
       name := "Horn of Africa";
       country := "Somalia/Ethiopia";
       coordinates := {| lat := 5.0; lng := 46.0 |};
       severity := "critical";
       type := "drought";
       affected_population := 15000000;
       risk_score := 9.2;
       temperature_anomaly := 3.5;
       rainfall_deficit := -65;
       food_security_index := 2.1;
       predicted_yield := 0.3;
       resources_needed :=
         [ ("food", "50,000 tonnes"); ("water", "2M liters/day");
           ("medical", "500 kits") ];
       timeline := "Immediate action required";
       description :=
         "Severe drought conditions affecting crop yields and livestock" |};
    {| id := 2;
       name := "Bangladesh Delta";
       country := "Bangladesh";
       coordinates := {| lat := 23.7; lng := 90.4 |};
       severity := "high";
       type := "flooding";
       affected_population := 8500000;
       risk_score := 8.1;
       temperature_anomaly := 1.2;
       rainfall_deficit := 180;
       food_security_index := 3.2;
       predicted_yield := 0.6;
       resources_needed :=
         [ ("shelter", "10,000 tents"); ("water_purification", "200 units");
           ("medical", "300 kits") ];
       timeline := "72 hours";
       description :=
         "Monsoon flooding threatening rice production and displacement" |};
    {| id := 3;
       name := "Sahel Region";
       country := "Mali/Niger";
       coordinates := {| lat := 16.0; lng := 0.0 |};
       severity := "high";
       type := "desertification";
       affected_population := 12000000;
       risk_score := 7.8;
       temperature_anomaly := 2.8;
       rainfall_deficit := -45;
       food_security_index := 2.5;
       predicted_yield := 0.4;
       resources_needed :=
         [ ("food", "30,000 tonnes"); ("seeds", "500 tonnes");
           ("water", "1.5M liters/day") ];
       timeline := "1 week";
       description :=
         "Advancing desertification reducing arable land and crop yields" |};
    {| id := 4;
       name := "Central America";
       country := "Guatemala/Honduras";
       coordinates := {| lat := 15.0; lng := -90.0 |};
       severity := "medium";
       type := "hurricane";
       affected_population := 3200000;
       risk_score := 6.5;
       temperature_anomaly := 0.8;
       rainfall_deficit := 220;
       food_security_index := 3.8;
       predicted_yield := 0.7;
       resources_needed :=
         [ ("emergency", "1,000 kits"); ("reconstruction", "500 units");
           ("medical", "150 kits") ];
       timeline := "2 weeks";
       description :=
         "Hurricane season threatening coffee and corn production" |};
    {| id := 5;
       name := "Australian Outback";
       country := "Australia";
       coordinates := {| lat := -25.0; lng := 135.0 |};
       severity := "medium";
       type := "wildfire";
       affected_population := 500000;
       risk_score := 6.2;
       temperature_anomaly := 4.1;
       rainfall_deficit := -80;
       food_security_index := 4.2;
       predicted_yield := 0.5;
       resources_needed :=
         [ ("firefighting", "200 units"); ("evacuation", "50 vehicles");
           ("medical", "100 kits") ];
       timeline := "Immediate";
       description :=
         "Extreme heat and drought conditions increasing wildfire risk" |} ].

Definition generateCrisisHotspots (s : State) : State :=
  setCrisisHotspots hotspots s.

(** [refreshData] up to its [await]. *)
Definition refreshData_begin (s : State) : State := setIsLoading true s.

(** [refreshData] once the 1500 ms promise has resolved. *)
Definition refreshData_resume (s : State) : State :=
  setIsLoading false (generateCrisisHotspots s).

(** A refresh with nothing happening in between. *)
Definition refreshData (s : State) : State :=
  refreshData_resume (refreshData_begin s).

Definition toggleLayer (layer : Layer) (s : State) : State :=
  setMapLayers (fun prev =>
    match layer with
    | temperature =>
        {| l_temperature := negb (l_temperature prev); l_rainfall := l_rainfall prev;
           l_population := l_population prev; l_food_security := l_food_security prev |}
    | rainfall =>
        {| l_temperature := l_temperature prev; l_rainfall := negb (l_rainfall prev);
           l_population := l_population prev; l_food_security := l_food_security prev |}
    | population =>
        {| l_temperature := l_temperature prev; l_rainfall := l_rainfall prev;
           l_population := negb (l_population prev); l_food_security := l_food_security prev |}
    | food_security =>
        {| l_temperature := l_temperature prev; l_rainfall := l_rainfall prev;
           l_population := l_population prev; l_food_security := negb (l_food_security prev) |}
    end) s.

(** The effect of [useEffect(..., [])]. *)
Definition mount : State := generateCrisisHotspots initialState.

Inductive Event :=
| ClickRefresh                (* refreshData runs up to its await *)
| RefreshResumes              (* a pending refreshData continues *)
| ClickLayer (layer : Layer)
| ClickHotspot (n : nat).     (* the marker of the n-th displayed hotspot *)

Definition step (e : Event) (s : State) : State :=
  match e with
  | ClickRefresh => refreshData_begin s
  | RefreshResumes => refreshData_resume s
  | ClickLayer l => toggleLayer l s
  | ClickHotspot n =>
      match nth_error (crisisHotspots s) n with
      | Some crisis => setSelectedCrisis (Some crisis) s
      | None => s
      end
  end.

Definition steps (es : list Event) (s : State) : State :=
  fold_left (fun s e => step e s) es s.

End WorldMap.

(* ================================================================= *)
(** ** CrisisPredictor *)

Module CrisisPredictor.

Import JS.
Local Open Scope Q_scope.
Local Open Scope js_scope.
Local Open Scope string_scope.

Record State := mkState {
  rainfall : list Q;
  temperature : list Q;
  region : string;
  prediction : Value;
  loading : bool
}.

Definition initialState : State :=
  {| rainfall := [750]; temperature := [25]; region := "global";
     prediction := VNull; loading := false |}.

Definition setPrediction (v : Value) : ME State unit :=
  modify (fun s => {| rainfall := rainfall s; temperature := temperature s;
                      region := region s; prediction := v; loading := loading s |}).

Definition setLoading (b : bool) : ME State unit :=
  modify (fun s => {| rainfall := rainfall s; temperature := temperature s;
                      region := region s; prediction := prediction s; loading := b |}).

Definition first (l : list Q) : Value :=
  match l with
  | [] => VUndefined
  | x :: _ => VNum x
  end.

(** The fallback of the [catch] branch. *)
Definition fallbackPrediction : Value :=
  VObj [ ("predicted_yield", VNum 285.4);
         ("confidence_score", VNum 0.87);
         ("risk_level", VStr "medium");
         ("recommendations",
          VArr [ VStr "🌾 Monitor crop conditions closely";
                 VStr "💧 Implement water conservation measures";
                 VStr "📊 Increase regional monitoring frequency" ]) ].

(** [predictYield] stands for [apiService.predictYield]: what the
    request settles to. *)
Definition handlePredict (predictYield : Value -> Promise Value)
  : ME State unit :=
  try_finally
    (try_catch
       (_ <- setLoading true ;;
        s <- get ;;
        result <- await (predictYield
                    (VObj [ ("rainfall_mm", first (rainfall s));
                            ("temperature", first (temperature s));
                            ("region", VStr (region s)) ])) ;;
        setPrediction result)
       (fun error =>
          (* console.error('Prediction failed:', error) *)
          setPrediction fallbackPrediction))
    (setLoading false).

End CrisisPredictor.

(* ================================================================= *)
(** ** Dashboard (the classic one) *)

Module Dashboard.

Import JS.
Local Open Scope Q_scope.
Local Open Scope js_scope.
Local Open Scope string_scope.

Record State := mkState {
  dashboardData : Value;
  loading : bool
}.

Definition initialState : State :=
  {| dashboardData := VNull; loading := true |}.

Definition setDashboardData (v : Value) : ME State unit :=
  modify (fun s => {| dashboardData := v; loading := loading s |}).

Definition setLoading (b : bool) : ME State unit :=
  modify (fun s => {| dashboardData := dashboardData s; loading := b |}).

Definition fallbackData : Value :=
  VObj [ ("summary",
          VObj [ ("avg_temperature", VNum 24.5);
                 ("avg_yield", VNum 285.7);
                 ("total_regions", VNum 12);
                 ("active_predictions", VNum 45);
                 ("quantum_optimizations", VNum 23) ]);
         ("recent_predictions",
          VArr [ VObj [ ("region", VStr "Asia-Pacific"); ("yield", VNum 285.4);
                        ("risk", VStr "medium") ];
                 VObj [ ("region", VStr "Europe"); ("yield", VNum 312.8);
                        ("risk", VStr "low") ];
                 VObj [ ("region", VStr "North America"); ("yield", VNum 298.2);
                        ("risk", VStr "low") ];
                 VObj [ ("region", VStr "Africa"); ("yield", VNum 201.5);
                        ("risk", VStr "high") ] ]) ].

Definition loadDashboardData (getDashboardData : Promise Value)
  : ME State unit :=
  try_finally
    (try_catch
       (_ <- setLoading true ;;
        data <- await getDashboardData ;;
        setDashboardData data)
       (fun error => setDashboardData fallbackData))
    (setLoading false).

End Dashboard.

(* ================================================================= *)
(** ** AdvancedAIPredictor *)

Module AdvancedAIPredictor.

Import JS.
Local Open Scope Q_scope.
Local Open Scope js_scope.
Local Open Scope string_scope.

Record Parameters := mkParameters {
  temperature : Q;
  rainfall : Q;
  humidity : Q;
  soil_ph : Q;
  elevation : Q;
  season : Q
}.

Record HistoryEntry := mkHistoryEntry {
  timestamp : Z;
  yield : Value;
  confidence : Value
}.

Record State := mkState {
  parameters : Parameters;
  prediction : Value;
  isLoading : bool;
  predictionHistory : list HistoryEntry
}.

Definition initialState : State :=
  {| parameters := {| temperature := 25; rainfall := 750; humidity := 65;
                      soil_ph := 6.5; elevation := 100; season := 2 |};
     prediction := VNull;
     isLoading := false;
     predictionHistory := [] |}.

Definition setPrediction (v : Value) : ME State unit :=
  modify (fun s => {| parameters := parameters s; prediction := v;
                      isLoading := isLoading s;
                      predictionHistory := predictionHistory s |}).

Definition setIsLoading (b : bool) : ME State unit :=
  modify (fun s => {| parameters := parameters s; prediction := prediction s;
                      isLoading := b;
                      predictionHistory := predictionHistory s |}).

Definition setPredictionHistory (f : list HistoryEntry -> list HistoryEntry)
  : ME State unit :=
  modify (fun s => {| parameters := parameters s; prediction := prediction s;
                      isLoading := isLoading s;
                      predictionHistory := f (predictionHistory s) |}).

(** [JSON.stringify(parameters)], kept as the object it encodes. *)
Definition body (p : Parameters) : Value :=
  VObj [ ("temperature", VNum (temperature p));
         ("rainfall", VNum (rainfall p));
         ("humidity", VNum (humidity p));
         ("soil_ph", VNum (soil_ph p));
         ("elevation", VNum (elevation p));
         ("season", VNum (season p)) ].

(** A [Response]: all the handler does with it is [response.json()]. *)
Record Response := mkResponse { json : Promise Value }.

(** [fetch] stands for [fetch('/api/predict', ...)], [now] for the
    clock read by [new Date()]. *)
Definition runPrediction (fetch : Value -> Promise Response) (now : Z)
  : ME State unit :=
  _ <- setIsLoading true ;;
  _ <- try_catch
         (s <- get ;;
          response <- await (fetch (body (parameters s))) ;;
          result <- await (json response) ;;
          _ <- setPrediction result ;;
          y <- getProp result "predicted_yield" ;;
          c <- getProp result "confidence_score" ;;
          setPredictionHistory (fun prev =>
            (slice_last 9 prev ++
             [ {| timestamp := now; yield := y; confidence := c |} ])%list))
         (fun error =>
            (* console.error('Prediction failed:', error) *)
            ret tt) ;;
  setIsLoading false.

End AdvancedAIPredictor.

(* ================================================================= *)
(** ** DataExplorer *)

Module DataExplorer.

Import JS.
Local Open Scope Q_scope.
Local Open Scope js_scope.
Local Open Scope string_scope.

Record State := mkState {
  climateData : Value;
  cropData : Value;
  loading : bool
}.

Definition initialState : State :=
  {| climateData := VArr []; cropData := VArr []; loading := true |}.

Definition setClimateData (v : Value) : ME State unit :=
  modify (fun s => {| climateData := v; cropData := cropData s; loading := loading s |}).

Definition setCropData (v : Value) : ME State unit :=
  modify (fun s => {| climateData := climateData s; cropData := v; loading := loading s |}).

Definition setLoading (b : bool) : ME State unit :=
  modify (fun s => {| climateData := climateData s; cropData := cropData s; loading := b |}).

(** Truthiness, for [a || b]. *)
Definition truthy (v : Value) : bool :=
  match v with
  | VUndefined | VNull => false
  | VBool b => b
  | VNum n => negb (Qeq_bool n 0)
  | VStr s => negb (String.eqb s "")
  | VArr _ | VObj _ => true
  end.

Definition or_else (a b : Value) : Value := if truthy a then a else b.

(** [Promise.all([p, q])]: both results, or a rejection. *)
Definition Promise_all (p q : Promise Value) : Promise (Value * Value) :=
  match p, q with
  | Resolved a, Resolved b => Resolved (a, b)
  | Rejected e, _ => Rejected e
  | _, Rejected e => Rejected e
  end.

Definition fallbackClimate : Value :=
  VArr [ VObj [ ("Date", VStr "2023-01"); ("temperature", VNum 22.5); ("rainfall_mm", VNum 85) ];
         VObj [ ("Date", VStr "2023-02"); ("temperature", VNum 24.1); ("rainfall_mm", VNum 92) ];
         VObj [ ("Date", VStr "2023-03"); ("temperature", VNum 26.3); ("rainfall_mm", VNum 78) ];
         VObj [ ("Date", VStr "2023-04"); ("temperature", VNum 28.7); ("rainfall_mm", VNum 65) ];
         VObj [ ("Date", VStr "2023-05"); ("temperature", VNum 31.2); ("rainfall_mm", VNum 45) ];
         VObj [ ("Date", VStr "2023-06"); ("temperature", VNum 33.8); ("rainfall_mm", VNum 32) ] ].

Definition fallbackCrops : Value :=
  VArr [ VObj [ ("region", VStr "Asia-Pacific"); ("yield_tonnes", VNum 285.4); ("year", VNum 2023) ];
         VObj [ ("region", VStr "Europe"); ("yield_tonnes", VNum 312.8); ("year", VNum 2023) ];
         VObj [ ("region", VStr "North America"); ("yield_tonnes", VNum 298.2); ("year", VNum 2023) ];
         VObj [ ("region", VStr "Africa"); ("yield_tonnes", VNum 201.5); ("year", VNum 2023) ];
         VObj [ ("region", VStr "South America"); ("yield_tonnes", VNum 267.9); ("year", VNum 2023) ] ].

Definition loadData (getClimateData getCropData : Promise Value)
  : ME State unit :=
  try_finally
    (try_catch
       (_ <- setLoading true ;;
        both <- await (Promise_all getClimateData getCropData) ;;
        let (climate, crops) := (both : Value * Value) in
        d1 <- getProp climate "data" ;;
        _ <- setClimateData (or_else d1 (VArr [])) ;;
        d2 <- getProp crops "data" ;;
        setCropData (or_else d2 (VArr [])))
       (fun error =>
          _ <- setClimateData fallbackClimate ;;
          setCropData fallbackCrops))
    (setLoading false).

End DataExplorer.

(* ================================================================= *)
(** ** QuantumOptimizer *)

Module QuantumOptimizer.

Import JS.
Local Open Scope Q_scope.
Local Open Scope js_scope.
Local Open Scope string_scope.

Record State := mkState {
  optimization : Value;
  loading : bool;
  selectedScenario : string
}.

Definition initialState : State :=
  {| optimization := VNull; loading := false; selectedScenario := "emergency" |}.

Definition setOptimization (v : Value) : ME State unit :=
  modify (fun s => {| optimization := v; loading := loading s;
                      selectedScenario := selectedScenario s |}).

Definition setLoading (b : bool) : ME State unit :=
  modify (fun s => {| optimization := optimization s; loading := b;
                      selectedScenario := selectedScenario s |}).

Definition location (i : Q) (name type : string) (priority population : Q) : Value :=
  VObj [ ("id", VNum i); ("name", VStr name); ("type", VStr type);
         ("priority", VNum priority); ("population", VNum population) ].

Definition resource (type : string) (quantity : Q) (unit : string) : Value :=
  VObj [ ("type", VStr type); ("quantity", VNum quantity); ("unit", VStr unit) ].

Definition scenarios : Value :=
  VObj [ ("emergency",
          VObj [ ("name", VStr "Emergency Response");
                 ("description", VStr "Rapid deployment of medical supplies and food aid");
                 ("locations",
                  VArr [ location 0 "Distribution Center" "depot" 1 0;
                         location 1 "Refugee Camp Alpha" "crisis" 3 5000;
                         location 2 "Hospital Beta" "medical" 2 1000;
                         location 3 "School Shelter Gamma" "shelter" 2 800 ]);
                 ("resources",
                  VArr [ resource "medical" 500 "kits";
                         resource "food" 10000 "kg";
                         resource "water" 5000 "liters" ]) ]);
         ("disaster",
          VObj [ ("name", VStr "Natural Disaster");
                 ("description", VStr "Post-earthquake resource distribution");
                 ("locations",
                  VArr [ location 0 "Emergency HQ" "depot" 1 0;
                         location 1 "Affected Zone A" "crisis" 3 8000;
                         location 2 "Affected Zone B" "crisis" 3 6500;
                         location 3 "Field Hospital" "medical" 2 500;
                         location 4 "Evacuation Center" "shelter" 2 3000 ]);
                 ("resources",
                  VArr [ resource "emergency" 1000 "kits";
                         resource "blankets" 5000 "pieces";
                         resource "generators" 50 "units" ]) ]) ].

Definition stop (n : Q) (location : string) (lat lng : Q) (type : string)
  (priority estimated_time : Q) (resources : list Value) : Value :=
  VObj [ ("stop", VNum n); ("location", VStr location);
         ("coordinates", VArr [VNum lat; VNum lng]);
         ("type", VStr type); ("priority", VNum priority);
         ("estimated_time", VNum estimated_time);
         ("resources", VArr resources) ].

Definition load (type : string) (amount : Q) (unit : string) : Value :=
  VObj [ ("type", VStr type); ("amount", VNum amount); ("unit", VStr unit) ].

Definition fallbackOptimization : Value :=
  VObj [ ("optimized_routes",
          VArr [ stop 1 "Distribution Center" 40.7128 (-74.0060) "depot" 1 0 [];
                 stop 2 "Refugee Camp Alpha" 40.7589 (-73.9851) "crisis" 3 45
                   [ load "food" 2000 "kg"; load "water" 1000 "liters" ];
                 stop 3 "Hospital Beta" 40.6892 (-74.0445) "medical" 2 75
                   [ load "medical" 100 "kits" ] ]);
         ("total_cost", VNum 245.8);
         ("efficiency_gain", VNum 18.5);
         ("quantum_info",
          VObj [ ("algorithm", VStr "QAOA (Quantum Approximate Optimization Algorithm)");
                 ("quantum_advantage", VStr "18.5% improvement over classical");
                 ("circuit_depth", VNum 4);
                 ("execution_time", VNum 0.8) ]) ].

Definition handleOptimize (optimizeResources : Value -> Promise Value)
  : ME State unit :=
  try_finally
    (try_catch
       (_ <- setLoading true ;;
        s <- get ;;
        scenario <- getProp scenarios (selectedScenario s) ;;
        locations <- getProp scenario "locations" ;;
        resources <- getProp scenario "resources" ;;
        result <- await (optimizeResources
                    (VObj [ ("locations", locations);
                            ("resources", resources);
                            ("constraints",
                             VObj [ ("max_time", VNum 480);
                                    ("max_vehicles", VNum 5) ]) ])) ;;
        setOptimization result)
       (fun error => setOptimization fallbackOptimization))
    (setLoading false).

End QuantumOptimizer.

(* ================================================================= *)
(** * Runs, statements and sample inputs *)

Module Runs.

Import JS RealTimeDashboard.
Local Open Scope Q_scope.
Local Open Scope string_scope.

(** A run of pushes, first element of the list pushed first. *)
Definition pushAlerts (pushed queue : list Alert) : list Alert :=
  fold_left (fun q e => pushAlert e q) pushed queue.

Definition pushLive (pushed queue : list MetricsData) : list MetricsData :=
  fold_left (fun q e => pushLiveData e q) pushed queue.

(** The claim as the specification words it, for both queues. *)
Definition last_ten_in_push_order : Prop :=
  forall (pushedA qA : list Alert) (pushedD qD : list MetricsData),
    (10 < List.length pushedA)%nat ->
    (10 < List.length pushedD)%nat ->
    pushAlerts pushedA qA = slice_last 10 pushedA /\
    pushLive pushedD qD = slice_last 10 pushedD.

(** Eleven alerts, told apart by their ids 1..11. *)
Definition numbered (n : Z) : Alert :=
  {| id := inject_Z n; type := "system"; icon := Activity; color := "green";
     message := None; timestamp := 0; severity := low; read := false |}.

Definition eleven_alerts : list Alert :=
  map numbered [1; 2; 3; 4; 5; 6; 7; 8; 9; 10; 11]%Z.

Definition sample (n : Z) : MetricsData :=
  {| data_timestamp := n; ai_predictions := 80; quantum_operations := 25;
     crisis_score := 40; response_efficiency := 75 |}.

Definition eleven_samples : list MetricsData :=
  map sample [1; 2; 3; 4; 5; 6; 7; 8; 9; 10; 11]%Z.

(** *** Random sources for examples *)

(** The draws of [l], then one half for ever. *)
Definition source (l : list Q) : nat -> Q := fun n => nth n l 0.5.

Definition world_of (l : list Q) (t : Z) : World :=
  {| rng := source l; cursor := 0; clock := t |}.

(** *** Severity *)

(** The rule the specification documents: one draw, two thresholds. *)
Definition single_draw_rule (r : Q) : Severity :=
  if gt r 0.7 then high else if gt r 0.4 then medium else low.

(** The rule of the source: the second threshold is tested on a
    second draw. *)
Definition two_draw_rule (r r' : Q) : Severity :=
  if gt r 0.7 then high else if gt r' 0.4 then medium else low.

(** C2 as stated, read as weakly as it can be: some single draw
    consumed by the invocation gives the severity under the rule. *)
Definition severity_by_single_draw : Prop :=
  forall (w w' : World) (a : Alert),
    uniform_source w ->
    generateAlert w = (Normal a, w') ->
    exists k, (cursor w <= k < cursor w')%nat /\
              severity a = single_draw_rule (rng w k).

(** Type, message and id draws, then 0.2 and 0.9 for the severity. *)
Definition low_then_high : World := world_of [0.1; 0.1; 0.1; 0.2; 0.9] 1000.


(** *** The jittered system metrics *)

Inductive Metric :=
| Accuracy | Efficiency | ActivePredictions | CrisisAlerts | ResponseTime.

Definition value (k : Metric) (m : SystemMetrics) : Q :=
  match k with
  | Accuracy => ai_accuracy m
  | Efficiency => quantum_efficiency m
  | ActivePredictions => active_predictions m
  | CrisisAlerts => crisis_alerts m
  | ResponseTime => response_time m
  end.

(** The clamp range and the jitter width of each metric, as the
    updater spells them. *)
Definition lo (k : Metric) : Q :=
  match k with
  | Accuracy => 90 | Efficiency => 80 | ActivePredictions => 100
  | CrisisAlerts => 0 | ResponseTime => 1
  end.

Definition hi (k : Metric) : Q :=
  match k with
  | Accuracy => 99 | Efficiency => 95 | ActivePredictions => 200
  | CrisisAlerts => 20 | ResponseTime => 5
  end.

Definition delta (k : Metric) : Q :=
  match k with
  | Accuracy => 2 | Efficiency => 3 | ActivePredictions => 10
  | CrisisAlerts => 2 | ResponseTime => 0.5
  end.

Definition clamp (x l h : Q) : Q := Math_max l (Math_min h x).

(** Which of the five draws of a tick belongs to which metric. *)
Definition draw_index (k : Metric) : nat :=
  match k with
  | Accuracy => 0 | Efficiency => 1 | ActivePredictions => 2
  | CrisisAlerts => 3 | ResponseTime => 4
  end.

(** What a tick adds to a metric before clamping, from its draw. *)
Definition jitter (k : Metric) (r : Q) : Q :=
  match k with
  | ActivePredictions | CrisisAlerts => Math_floor ((r - 0.5) * delta k)
  | _ => (r - 0.5) * delta k
  end.

Definition within_clamp_ranges (m : SystemMetrics) : Prop :=
  (90 <= ai_accuracy m /\ ai_accuracy m <= 99) /\
  (80 <= quantum_efficiency m /\ quantum_efficiency m <= 95) /\
  (100 <= active_predictions m /\ active_predictions m <= 200) /\
  (0 <= crisis_alerts m /\ crisis_alerts m <= 20) /\
  (1 <= response_time m /\ response_time m <= 5).

(** C4 as stated, read as weakly as it can be: every metric moves,
    before clamping, by some amount strictly between [-delta/2] and
    [+delta/2]. *)
Definition every_metric_moves_inside_the_interval : Prop :=
  forall (prev m' : SystemMetrics) (w w' : World) (k : Metric),
    uniform_source w ->
    jitterSystemMetrics prev w = (Normal m', w') ->
    exists u, - (delta k / 2) < u /\ u < delta k / 2 /\
              value k m' == clamp (value k prev + u) (lo k) (hi k).

(** A tick whose draw for [crisis_alerts] is 0.25. *)
Definition one_quarter : World := world_of [0.5; 0.5; 0.5; 0.25; 0.5] 0.


(** *** Operations on the alert queue *)

Inductive Op :=
| Push (a : Alert)             (* the alert interval adds [a] *)
| Dismiss (alertId : Q)        (* dismissAlert(alertId) *)
| Acknowledge (alertId : Q).   (* markAsRead(alertId) *)

Definition apply (o : Op) : State -> State :=
  match o with
  | Push a => setAlerts (pushAlert a)
  | Dismiss x => dismissAlert x
  | Acknowledge x => markAsRead x
  end.

Definition run_ops (ops : list Op) (s : State) : State :=
  fold_left (fun s o => apply o s) ops s.

Definition acknowledgeAll (ids : list Q) (s : State) : State :=
  run_ops (map Acknowledge ids) s.

(** The alerts a run pushes, in push order. *)
Definition pushed (ops : list Op) : list Alert :=
  flat_map (fun o => match o with Push a => [a] | _ => [] end) ops.

(** The alert [e] with its flag set. *)
Definition acknowledged (e : Alert) : Alert :=
  {| id := id e; type := type e; icon := icon e; color := color e;
     message := message e; timestamp := timestamp e; severity := severity e;
     read := true |}.

(** [never_reverts e e']: [e'] is [e], or [e] with its flag set. *)
Definition never_reverts (e e' : Alert) : Prop :=
  (e' = e \/ e' = acknowledged e) /\ (read e = true -> read e' = true).

(** [survives before after]: [after] is [before] with some alerts
    removed and some flags set, order kept. *)
Inductive survives : list Alert -> list Alert -> Prop :=
| survives_nil : survives [] []
| survives_drop e l l' : survives l l' -> survives (e :: l) l'
| survives_keep e e' l l' :
    never_reverts e e' -> survives l l' -> survives (e :: l) (e' :: l').

(** *** Ids *)





(** Every draw one half, the clock at 1000. *)
Definition all_halves : World := world_of [] 1000.



(** *** Stopping *)

(** A dashboard that was mounted, saw [before], and was unmounted. *)
Definition stopped (w : World) (before : list Event) : Instance :=
  step Unmount (steps before (mount w)).

Definition championship_stopped (w : World)
  (before : list ChampionshipDashboard.Event) : ChampionshipDashboard.Instance :=
  ChampionshipDashboard.step ChampionshipDashboard.Unmount
    (ChampionshipDashboard.steps before (ChampionshipDashboard.mount w)).

(** Every timer of the table is one the cleanup closure knows. *)
Definition owned (i : Instance) : Prop :=
  forall t, In t (timers (runtime i)) ->
    exists c, onUnmount i = Some c /\
      (handle t = alertInterval c \/ handle t = metricsInterval c \/
       handle t = connectionInterval c).

Definition championship_owned (i : ChampionshipDashboard.Instance) : Prop :=
  forall t, In t (timers (ChampionshipDashboard.runtime i)) ->
    handle t = ChampionshipDashboard.interval (ChampionshipDashboard.onUnmount i) \/
    handle t = ChampionshipDashboard.alertInterval (ChampionshipDashboard.onUnmount i) \/
    callback t = ChampionshipDashboard.loadingDone.


(** Only the one-shot [setTimeout] survives the cleanup. *)
Definition only_loadingDone (i : ChampionshipDashboard.Instance) : Prop :=
  forall t, In t (timers (ChampionshipDashboard.runtime i)) ->
            callback t = ChampionshipDashboard.loadingDone.

End Runs.

(* ================================================================= *)
(** * What the components render from their state *)

(* ================================================================= *)
(** ** RealTimeDashboard: the badge of the alert feed *)

Module RealTimeDashboardView.

Import JS RealTimeDashboard.

(** [alerts.filter(alert => !alert.read).length], the "NEW" badge. *)
Definition unreadCount (s : State) : nat :=
  List.length (filter (fun alert => negb (read alert)) (alerts s)).

(** [alerts.length === 0], the "All systems operating normally" note. *)
Definition feedIsEmpty (s : State) : bool :=
  Nat.eqb (List.length (alerts s)) 0.

End RealTimeDashboardView.

(* ================================================================= *)
(** ** WorldMap: where a hotspot marker is drawn *)

Module WorldMapView.

Import WorldMap.
Local Open Scope Q_scope.

(** [const x = ((crisis.coordinates.lng + 180) / 360) * 800] *)
Definition x (crisis : Hotspot) : Q :=
  ((lng (coordinates crisis) + 180) / 360) * 800.

(** [const y = ((90 - crisis.coordinates.lat) / 180) * 400] *)
Definition y (crisis : Hotspot) : Q :=
  ((90 - lat (coordinates crisis)) / 180) * 400.

(** The [left] and [top] percentages of the marker's style. *)
Definition left (crisis : Hotspot) : Q := (x crisis / 800) * 100.
Definition top (crisis : Hotspot) : Q := (y crisis / 400) * 100.

End WorldMapView.

(* ================================================================= *)
(** ** App: navigation between the views *)

Module App.

Local Open Scope string_scope.

Inductive Icon := Home | Brain | Atom | Globe | Activity.

(** The components a navigation item can mount. *)
Inductive Component :=
| ChampionshipDashboard
| RealTimeDashboard
| AdvancedAIPredictor
| QuantumOptimizer
| WorldMap
| Dashboard.

Record NavigationItem := mkNavigationItem {
  id : string;
  label : string;
  icon : Icon;
  component : Component
}.

Definition navigationItems : list NavigationItem :=
  [ {| id := "championship"; label := "Main Dashboard"; icon := Activity;
       component := ChampionshipDashboard |};
    {| id := "realtime"; label := "Real-Time Command Center"; icon := Activity;
       component := RealTimeDashboard |};
    {| id := "ai"; label := "AI Predictor"; icon := Brain;
       component := AdvancedAIPredictor |};
    {| id := "quantum"; label := "Quantum Optimizer"; icon := Atom;
       component := QuantumOptimizer |};
    {| id := "worldmap"; label := "Global Crisis Map"; icon := Globe;
       component := WorldMap |};
    {| id := "classic"; label := "Classic Dashboard"; icon := Home;
       component := Dashboard |} ].

Record State := mkState {
  activeView : string;
  sidebarOpen : bool;
  isDesktop : bool
}.

Definition initialState : State :=
  {| activeView := "championship"; sidebarOpen := false; isDesktop := false |}.

Definition setActiveView (v : string) (s : State) : State :=
  {| activeView := v; sidebarOpen := sidebarOpen s; isDesktop := isDesktop s |}.

Definition setSidebarOpen (b : bool) (s : State) : State :=
  {| activeView := activeView s; sidebarOpen := b; isDesktop := isDesktop s |}.

Definition setIsDesktop (b : bool) (s : State) : State :=
  {| activeView := activeView s; sidebarOpen := sidebarOpen s; isDesktop := b |}.

(** [setIsDesktop(window.innerWidth >= 1024)] *)
Definition checkScreenSize (innerWidth : Z) (s : State) : State :=
  setIsDesktop (Z.leb 1024 innerWidth) s.

(** [navigationItems.find(item => item.id === activeView)?.component
     || ChampionshipDashboard] *)
Definition ActiveComponent (s : State) : Component :=
  match find (fun item => String.eqb (id item) (activeView s)) navigationItems with
  | Some item => component item
  | None => ChampionshipDashboard
  end.

(** [(sidebarOpen || isDesktop) && ...]: the sidebar, with the
    navigation buttons, is rendered. *)
Definition sidebarShown (s : State) : bool := sidebarOpen s || isDesktop s.

(** The [onClick] of a navigation button. *)
Definition navigate (item : NavigationItem) (s : State) : State :=
  setSidebarOpen false (setActiveView (id item) s).

(** The effect: measure the window once. *)
Definition mount (innerWidth : Z) : State := checkScreenSize innerWidth initialState.

Inductive Event :=
| ClickMenu                 (* setSidebarOpen(!sidebarOpen) *)
| ClickItem (n : nat)       (* the n-th navigation button *)
| ClickOverlay              (* the mobile overlay *)
| Resize (innerWidth : Z).  (* the window's resize listener *)

Definition step (e : Event) (s : State) : State :=
  match e with
  | ClickMenu => setSidebarOpen (negb (sidebarOpen s)) s
  | ClickItem n =>
      if sidebarShown s then
        match nth_error navigationItems n with
        | Some item => navigate item s
        | None => s
        end
      else s
  | ClickOverlay => if sidebarOpen s then setSidebarOpen false s else s
  | Resize innerWidth => checkScreenSize innerWidth s
  end.

Definition steps (es : list Event) (s : State) : State :=
  fold_left (fun s e => step e s) es s.

End App.

(* ================================================================= *)
(** * Invariants and runs for the further properties *)

Module Invariants.

Import JS RealTimeDashboard Runs.
Local Open Scope Q_scope.

(** A whole number. *)
Definition whole (q : Q) : Prop := exists z : Z, q == inject_Z z.

(** The alert is an entry of the catalogue: type, icon and colour of
    one alert type, and one of that type's messages. *)
Definition from_catalogue (a : Alert) : Prop :=
  exists ty, In ty alertTypes /\
    type a = at_type ty /\ icon a = at_icon ty /\ color a = at_color ty /\
    exists m, message a = Some m /\ In m (messages ty).

(** The ranges of the fields of a generated sample. *)
Definition sample_in_range (d : MetricsData) : Prop :=
  (whole (ai_predictions d) /\ 80 <= ai_predictions d /\ ai_predictions d <= 99) /\
  (whole (quantum_operations d) /\
     25 <= quantum_operations d /\ quantum_operations d <= 39) /\
  (whole (crisis_score d) /\ 40 <= crisis_score d /\ crisis_score d <= 69) /\
  (whole (response_efficiency d) /\
     75 <= response_efficiency d /\ response_efficiency d <= 94).

(** The queues as an invariant: ten samples, at most ten alerts, all
    of them what the generators make. *)
Definition queues_in_order (s : State) : Prop :=
  List.length (liveData s) = 10%nat /\
  (List.length (alerts s) <= 10)%nat /\
  Forall sample_in_range (liveData s) /\
  Forall from_catalogue (alerts s).

(** What the metric ticks leave alone: [uptime], and the wholeness of
    the two counters. *)
Definition steady (s : State) : Prop :=
  uptime (systemMetrics s) = uptime (systemMetrics initialState) /\
  whole (active_predictions (systemMetrics s)) /\
  whole (crisis_alerts (systemMetrics s)).

(** What a computation leaves of the world: the draws and the clock
    as they were, the cursor no further back. *)
Definition keeps_source {A} (m : M A) : Prop :=
  forall w, rng (snd (m w)) = rng w /\ clock (snd (m w)) = clock w /\
            (cursor w <= cursor (snd (m w)))%nat.

(** The dashboard after the events [es]. *)
Definition after (w : World) (es : list Event) : Instance := steps es (mount w).

Definition state_after (w : World) (es : list Event) : State :=
  state (runtime (after w es)).

(** ChampionshipDashboard after the events [es]. *)
Definition championship_after (w : World) (es : list ChampionshipDashboard.Event)
  : ChampionshipDashboard.State :=
  state (ChampionshipDashboard.runtime
           (ChampionshipDashboard.steps es (ChampionshipDashboard.mount w))).

(** The metrics of ChampionshipDashboard as the ticks keep them. *)
Definition championship_metrics_sound (m : ChampionshipDashboard.Metrics) : Prop :=
  (whole (ChampionshipDashboard.predictionsToday m) /\
   0 <= ChampionshipDashboard.predictionsToday m) /\
  (whole (ChampionshipDashboard.quantumOptimizations m) /\
   0 <= ChampionshipDashboard.quantumOptimizations m) /\
  (98.4 <= ChampionshipDashboard.systemHealth m /\
   ChampionshipDashboard.systemHealth m <= 99) /\
  ChampionshipDashboard.crisisAlertsActive m = 0 /\
  ChampionshipDashboard.regionsMonitored m = 12 /\
  ChampionshipDashboard.quantumAdvantage m = 23.4.

(** The event is the elapsing of the timer with handle [h]. *)
Definition elapses (h : nat) (e : ChampionshipDashboard.Event) : bool :=
  match e with
  | ChampionshipDashboard.TimerElapses h' => Nat.eqb h' h
  | _ => false
  end.

(** The three timers the effect of ChampionshipDashboard registers. *)
Definition metrics_timer : Timer ChampionshipDashboard.Callback :=
  {| handle := 1; kind := Interval; callback := ChampionshipDashboard.metricsTick |}.
Definition alerts_timer : Timer ChampionshipDashboard.Callback :=
  {| handle := 2; kind := Interval; callback := ChampionshipDashboard.alertTick |}.
Definition loading_timer : Timer ChampionshipDashboard.Callback :=
  {| handle := 3; kind := Timeout; callback := ChampionshipDashboard.loadingDone |}.

(** The loading flag and the one-shot timer go together: the timer is
    pending exactly while the flag is up. *)
Definition loading_pending (i : ChampionshipDashboard.Instance) (fired : bool)
  : Prop :=
  (forall t, In t (timers (ChampionshipDashboard.runtime i)) ->
     t = metrics_timer \/ t = alerts_timer \/ t = loading_timer) /\
  (In loading_timer (timers (ChampionshipDashboard.runtime i)) <-> fired = false) /\
  ChampionshipDashboard.isLoading (state (ChampionshipDashboard.runtime i))
    = negb fired /\
  ChampionshipDashboard.onUnmount i =
    {| ChampionshipDashboard.interval := 1;
       ChampionshipDashboard.alertInterval := 2 |}.

(** A series of calls of [runPrediction], each with what its fetch
    answers and its clock reading, and each made on the component as
    the call before left it: the component is taken to have rendered
    in between, which it does when the prediction it holds is
    displayable ([displayable] below). *)
Definition runPredictions
  (calls : list ((Value -> Promise AdvancedAIPredictor.Response) * Z))
  (s : AdvancedAIPredictor.State) : AdvancedAIPredictor.State :=
  fold_left (fun s c =>
               fst (settle (AdvancedAIPredictor.runPrediction (fst c) (snd c)) s))
            calls s.

(** A sample world whose draws are all 0.3. *)
Definition all_three_tenths : World :=
  {| rng := fun _ => 0.3; cursor := 0; clock := 1000 |}.

(** The coordinates of a hotspot are a latitude and a longitude. *)
Definition in_range (c : WorldMap.Hotspot) : Prop :=
  -180 <= WorldMap.lng (WorldMap.coordinates c) <= 180 /\
  -90 <= WorldMap.lat (WorldMap.coordinates c) <= 90.

(** The marker's percentages lie inside the map's box. *)
Definition on_map (c : WorldMap.Hotspot) : Prop :=
  0 <= WorldMapView.left c <= 100 /\ 0 <= WorldMapView.top c <= 100.

Definition layer_on (l : WorldMap.Layer) (m : WorldMap.MapLayers) : bool :=
  match l with
  | WorldMap.temperature => WorldMap.l_temperature m
  | WorldMap.rainfall => WorldMap.l_rainfall m
  | WorldMap.population => WorldMap.l_population m
  | WorldMap.food_security => WorldMap.l_food_security m
  end.

Definition same_layer (l l' : WorldMap.Layer) : bool :=
  match l, l' with
  | WorldMap.temperature, WorldMap.temperature
  | WorldMap.rainfall, WorldMap.rainfall
  | WorldMap.population, WorldMap.population
  | WorldMap.food_security, WorldMap.food_security => true
  | _, _ => false
  end.

(** How often the button of layer [l] is clicked in a run. *)
Definition clicks (l : WorldMap.Layer) (es : list WorldMap.Event) : nat :=
  List.length
    (filter (fun e => match e with
                      | WorldMap.ClickLayer l' => same_layer l l'
                      | _ => false
                      end) es).

(** The detail panel shows nothing or one of the hotspots. *)
Definition selection_displayed (s : WorldMap.State) : Prop :=
  match WorldMap.selectedCrisis s with
  | None => True
  | Some c => In c WorldMap.hotspots
  end.

(** The scenario buttons offer the keys of [scenarios]. *)
Definition known_scenario (s : QuantumOptimizer.State) : Prop :=
  QuantumOptimizer.selectedScenario s = "emergency"%string \/
  QuantumOptimizer.selectedScenario s = "disaster"%string.

(** The App after a run of events, on a window [innerWidth] wide. *)
Definition app_after (innerWidth : Z) (es : list App.Event) : App.State :=
  App.steps es (App.mount innerWidth).

(** A response whose body parses to [v]. *)
Definition answers (v : Value)
  : Value -> Promise AdvancedAIPredictor.Response :=
  fun _ => Resolved {| AdvancedAIPredictor.json := Resolved v |}.

(** [null] or [undefined]: reading a property of it throws. *)
Definition nullish (v : Value) : bool :=
  match v with
  | VUndefined | VNull => true
  | _ => false
  end.

(** The value of [v.k] when [v] is not nullish. *)
Definition prop (v : Value) (k : string) : Value :=
  match v with
  | VObj props => lookup k props
  | _ => VUndefined
  end.

(** The history entries a call of [runPrediction] stands for, with
    the parameters [p] on the sliders: one when the request and the
    parsing of its body succeed, none otherwise. *)
Definition recorded (p : AdvancedAIPredictor.Parameters)
  (c : (Value -> Promise AdvancedAIPredictor.Response) * Z)
  : list AdvancedAIPredictor.HistoryEntry :=
  match fst c (AdvancedAIPredictor.body p) with
  | Resolved r =>
      match AdvancedAIPredictor.json r with
      | Resolved result =>
          [ {| AdvancedAIPredictor.timestamp := snd c;
               AdvancedAIPredictor.yield := prop result "predicted_yield";
               AdvancedAIPredictor.confidence := prop result "confidence_score" |} ]
      | Rejected _ => []
      end
  | Rejected _ => []
  end.

(** The request [handleOptimize] sends for the selected scenario. *)
Definition request (s : QuantumOptimizer.State) : Value :=
  let scenario :=
    prop QuantumOptimizer.scenarios (QuantumOptimizer.selectedScenario s) in
  VObj [ ("locations"%string, prop scenario "locations");
         ("resources"%string, prop scenario "resources");
         ("constraints"%string,
          VObj [ ("max_time"%string, VNum 480);
                 ("max_vehicles"%string, VNum 5) ]) ].

Local Open Scope string_scope.

Definition is_number (v : Value) : bool :=
  match v with
  | VNum _ => true
  | _ => false
  end.

Definition is_string (v : Value) : bool :=
  match v with
  | VStr _ => true
  | _ => false
  end.

(** A field that is left out, or [null], or as [ok] wants it. *)
Definition optional (ok : Value -> bool) (v : Value) : bool :=
  nullish v || ok v.

(** An object whose values are all numbers. *)
Definition numbers_by_name (v : Value) : bool :=
  match v with
  | VObj props => forallb (fun kv => is_number (snd kv)) props
  | _ => false
  end.

(** An array of strings. *)
Definition strings (v : Value) : bool :=
  match v with
  | VArr items => forallb is_string items
  | _ => false
  end.

(** A prediction that the render of AdvancedAIPredictor displays.
    Once [prediction] is set the render calls
    [prediction.predicted_yield.toFixed(1)],
    [prediction.risk_level.toUpperCase()] and
    [prediction.confidence_interval.lower_95.toFixed(0)] (and
    [upper_95]) unguarded; it multiplies [confidence_score] and the
    values of [feature_importance], calls [toFixed] on every value of
    [individual_models], maps over [risk_factors] and over
    [recommendations.slice(0, 5)], and shows
    [advanced_analytics?.yield_percentile].  A value on which one of
    these fails makes the render throw, and React takes the component
    down.  The fields are held to the types of the service's answer,
    which is more than the render needs in places. *)
Definition displayable (result : Value) : bool :=
  match result with
  | VObj props =>
      is_number (lookup "predicted_yield" props) &&
      optional is_number (lookup "confidence_score" props) &&
      is_string (lookup "risk_level" props) &&
      match lookup "confidence_interval" props with
      | VObj interval =>
          is_number (lookup "lower_95" interval) &&
          is_number (lookup "upper_95" interval)
      | _ => false
      end &&
      optional numbers_by_name (lookup "feature_importance" props) &&
      optional numbers_by_name (lookup "individual_models" props) &&
      optional (fun analytics =>
                  match analytics with
                  | VObj fields =>
                      optional is_string (lookup "yield_percentile" fields)
                  | _ => false
                  end)
               (lookup "advanced_analytics" props) &&
      optional strings (lookup "risk_factors" props) &&
      optional strings (lookup "recommendations" props)
  | _ => false
  end.

(** Whatever the request of the call resolves to has a body that
    either fails to parse or parses to a displayable prediction. *)
Definition displayable_body
  (c : (Value -> Promise AdvancedAIPredictor.Response) * Z) : Prop :=
  forall b r, fst c b = Resolved r ->
    match AdvancedAIPredictor.json r with
    | Resolved result => displayable result = true
    | Rejected _ => True
    end.

(** The component shows no prediction or a displayable one. *)
Definition shows_prediction (s : AdvancedAIPredictor.State) : Prop :=
  AdvancedAIPredictor.prediction s = VNull \/
  displayable (AdvancedAIPredictor.prediction s) = true.

(** A sample answer of the prediction service. *)
Definition sample_result (predicted_yield : Q) : Value :=
  VObj [ ("predicted_yield", VNum predicted_yield);
         ("confidence_score", VNum 0.9);
         ("risk_level", VStr "low");
         ("confidence_interval",
          VObj [ ("lower_95", VNum (predicted_yield - 20));
                 ("upper_95", VNum (predicted_yield + 20)) ]);
         ("recommendations", VArr [ VStr "Maintain current practices" ]) ].

End Invariants.

(* ================================================================= *)
(** * Properties *)

(* ================================================================= *)
(** ** The model at work *)

Section Examples.

Import JS RealTimeDashboard Runs.
Local Open Scope Q_scope.

(** Mounting seeds three alerts and ten samples and registers the
    three intervals under the handles 1, 2, 3; with every draw one half
    this takes 3 * 5 + 10 * 4 draws. *)
Example mount_seeds :
  let i := mount all_halves in
  List.length (alerts (state (runtime i))) = 3%nat /\
  List.length (liveData (state (runtime i))) = 10%nat /\
  map (@handle Callback) (timers (runtime i)) = [1; 2; 3]%nat /\
  map (@callback Callback) (timers (runtime i)) =
    [alertTick; metricsTick; connectionTick] /\
  onUnmount i = Some {| alertInterval := 1; metricsInterval := 2;
                        connectionInterval := 3 |} /\
  cursor (world (runtime i)) = 55%nat.
Proof. vm_compute. repeat split; reflexivity. Qed.

(** While mounted, a tick of the metrics interval runs its callback
    (nine draws, the accuracy unmoved by the draw 0.5); after unmount
    the same tick does nothing. *)
Example ticks_need_a_mounted_dashboard :
  let i := mount all_halves in
  cursor (world (runtime (steps [TimerElapses 2] i))) = 64%nat /\
  ai_accuracy (systemMetrics (state (runtime (steps [TimerElapses 2] i)))) == 94.2 /\
  cursor (world (runtime (steps [Unmount; TimerElapses 2] i))) = 55%nat.
Proof. vm_compute. repeat split; reflexivity. Qed.

(** An alert tick adds an alert only when its first draw exceeds 0.7. *)
Example alert_tick_is_a_gamble :
  List.length (alerts (state (runtime
    (steps [TimerElapses 1] (mount all_halves))))) = 3%nat /\
  List.length (alerts (state (runtime
    (steps [TimerElapses 1] (mount (world_of (repeat 0.8 200) 0)))))) = 4%nat.
Proof. vm_compute. repeat split; reflexivity. Qed.

End Examples.

(* ================================================================= *)
(** ** The bounded queues of RealTimeDashboard *)

Section BoundedQueues.

Import JS RealTimeDashboard Runs.

Lemma slice_last_short {A} (n : nat) (l : list A) :
  (List.length l <= n)%nat -> slice_last n l = l.
Proof.
  intros H. unfold slice_last.
  replace (List.length l - n)%nat with 0%nat by lia. reflexivity.
Qed.

Lemma slice_last_length {A} (n : nat) (l : list A) :
  List.length (slice_last n l) = Nat.min n (List.length l).
Proof. unfold slice_last. rewrite length_skipn. lia. Qed.

Lemma slice_last_app_long {A} (n : nat) (a b : list A) :
  (n <= List.length b)%nat -> slice_last n (a ++ b) = slice_last n b.
Proof.
  intros H. unfold slice_last.
  rewrite length_app, skipn_app.
  rewrite (@skipn_all2 _ (List.length a + List.length b - n) a) by lia.
  simpl. f_equal. lia.
Qed.

Lemma slice_last_absorb {A} (n : nat) (l es : list A) :
  slice_last n (slice_last n l ++ es) = slice_last n (l ++ es).
Proof.
  destruct (Nat.le_gt_cases (List.length l) n) as [Hle | Hgt].
  - rewrite (@slice_last_short _ n l Hle). reflexivity.
  - rewrite <- (firstn_skipn (List.length l - n) l) at 2.
    rewrite <- app_assoc.
    rewrite (@slice_last_app_long _ n (firstn (List.length l - n) l)
               (skipn (List.length l - n) l ++ es));
      [reflexivity |].
    rewrite length_app, length_skipn. lia.
Qed.

Lemma pushLiveData_slice (e : MetricsData) (q : list MetricsData) :
  pushLiveData e q = slice_last 10 (q ++ [e]).
Proof.
  unfold pushLiveData, slice_last.
  rewrite length_app, skipn_app. simpl.
  replace (List.length q + 1 - 10)%nat with (List.length q - 9)%nat by lia.
  replace (List.length q - 9 - List.length q)%nat with 0%nat by lia.
  reflexivity.
Qed.

Lemma pushLive_slice (es q : list MetricsData) :
  es <> [] -> pushLive es q = slice_last 10 (q ++ es).
Proof.
  revert q. induction es as [| e es IH]; intros q Hne; [congruence |].
  unfold pushLive in *. simpl.
  destruct es as [| e' es'].
  - simpl. apply pushLiveData_slice.
  - rewrite IH by discriminate.
    rewrite pushLiveData_slice, slice_last_absorb, <- app_assoc.
    reflexivity.
Qed.

Lemma firstn_absorb {A} (n : nat) (a b : list A) :
  firstn n (a ++ firstn n b) = firstn n (a ++ b).
Proof.
  rewrite !firstn_app, firstn_firstn.
  f_equal. f_equal. lia.
Qed.

Lemma pushAlerts_firstn (es q : list Alert) :
  es <> [] -> pushAlerts es q = firstn 10 (rev es ++ q).
Proof.
  revert q. induction es as [| e es IH]; intros q Hne; [congruence |].
  unfold pushAlerts in *. simpl fold_left.
  destruct es as [| e' es'].
  - reflexivity.
  - rewrite IH by discriminate.
    change (pushAlert e q) with (firstn 10 (e :: q)).
    rewrite firstn_absorb. simpl rev. rewrite <- !app_assoc. reflexivity.
Qed.

(** Full queues and one more push: the live-data queue loses its
    head, the alert queue its last element. *)
Lemma pushLiveData_full (e : MetricsData) (q : list MetricsData) :
  List.length q = 10%nat -> pushLiveData e q = tl q ++ [e].
Proof.
  intros H. unfold pushLiveData, slice_last. rewrite H.
  destruct q; [discriminate | reflexivity].
Qed.

Lemma pushAlert_full (e : Alert) (q : list Alert) :
  List.length q = 10%nat -> pushAlert e q = e :: removelast q.
Proof.
  intros H. unfold pushAlert, slice_to.
  rewrite removelast_firstn_len, H. reflexivity.
Qed.

(** C1, as stated, fails on the alert queue: after eleven pushes into
    the empty queue the ids read 11, 10, ..., 2 (newest first), not
    2, 3, ..., 11. *)
Lemma alerts_are_newest_first :
  map id (pushAlerts eleven_alerts []) =
    map inject_Z [11; 10; 9; 8; 7; 6; 5; 4; 3; 2]%Z /\
  map id (slice_last 10 eleven_alerts) =
    map inject_Z [2; 3; 4; 5; 6; 7; 8; 9; 10; 11]%Z /\
  ~ last_ten_in_push_order.
Proof.
  split; [reflexivity | split; [reflexivity |]].
  intros H.
  destruct (H eleven_alerts [] eleven_samples []) as [HA _];
    [simpl; lia | simpl; lia |].
  discriminate HA.
Qed.

(** C1 (amended): after more than ten pushes, from whatever queue,
    the live-data queue is exactly the last ten pushed samples in push
    order (oldest first), and the alert queue is exactly the last ten
    pushed alerts in reverse push order (newest first); a push into a
    full queue evicts the oldest element: the head of the live-data
    queue, the last element of the alert queue. *)
Theorem queues_keep_last_ten
  (pushedA qA : list Alert) (pushedD qD : list MetricsData) :
  (10 < List.length pushedA)%nat ->
  (10 < List.length pushedD)%nat ->
  pushLive pushedD qD = slice_last 10 pushedD /\
  pushAlerts pushedA qA = rev (slice_last 10 pushedA) /\
  List.length (pushLive pushedD qD) = 10%nat /\
  List.length (pushAlerts pushedA qA) = 10%nat /\
  (forall e q, List.length q = 10%nat -> pushLiveData e q = tl q ++ [e]) /\
  (forall e q, List.length q = 10%nat -> pushAlert e q = e :: removelast q).
Proof.
  intros HA HD.
  assert (HL : pushLive pushedD qD = slice_last 10 pushedD).
  { rewrite pushLive_slice by (intros ->; simpl in HD; lia).
    apply slice_last_app_long. lia. }
  assert (HQ : pushAlerts pushedA qA = rev (slice_last 10 pushedA)).
  { rewrite pushAlerts_firstn by (intros ->; simpl in HA; lia).
    rewrite firstn_app, length_rev.
    replace (10 - List.length pushedA)%nat with 0%nat by lia.
    rewrite firstn_O, app_nil_r. apply firstn_rev. }
  repeat split.
  - exact HL.
  - exact HQ.
  - rewrite HL, slice_last_length. lia.
  - rewrite HQ, length_rev, slice_last_length. lia.
  - apply pushLiveData_full.
  - apply pushAlert_full.
Qed.

(** The scenario of the specification: thirteen pushes into an empty
    queue of capacity ten leave the pushes 4..13, oldest first in the
    live data, newest first in the alerts. *)
Example thirteen_pushes :
  map data_timestamp
      (pushLive (map sample [1; 2; 3; 4; 5; 6; 7; 8; 9; 10; 11; 12; 13]%Z) []) =
    [4; 5; 6; 7; 8; 9; 10; 11; 12; 13]%Z /\
  map id (pushAlerts
            (map numbered [1; 2; 3; 4; 5; 6; 7; 8; 9; 10; 11; 12; 13]%Z) []) =
    map inject_Z [13; 12; 11; 10; 9; 8; 7; 6; 5; 4]%Z.
Proof. split; reflexivity. Qed.

(** The theorem at eleven pushes into empty queues. *)
Lemma queues_keep_last_ten_witness :
  (10 < List.length eleven_alerts)%nat /\
  (10 < List.length eleven_samples)%nat /\
  pushLive eleven_samples [] = slice_last 10 eleven_samples /\
  pushAlerts eleven_alerts [] = rev (slice_last 10 eleven_alerts).
Proof.
  assert (HA : (10 < List.length eleven_alerts)%nat) by (simpl; lia).
  assert (HD : (10 < List.length eleven_samples)%nat) by (simpl; lia).
  destruct (queues_keep_last_ten eleven_alerts [] eleven_samples [] HA HD)
    as (H1 & H2 & _).
  repeat split; assumption.
Defined.

End BoundedQueues.

(* ================================================================= *)
(** ** The alert generator *)

Section Generator.

Import JS RealTimeDashboard Runs.
Local Open Scope Q_scope.

Lemma gt_true (a b : Q) : gt a b = true <-> b < a.
Proof.
  unfold gt. rewrite negb_true_iff.
  split; intros H.
  - apply Qnot_le_lt. intros Hle. apply Qle_bool_iff in Hle. congruence.
  - destruct (Qle_bool a b) eqn:E; [| reflexivity].
    apply Qle_bool_iff in E. exfalso. now apply (Qlt_not_le b a).
Qed.

Lemma gt_false (a b : Q) : gt a b = false <-> a <= b.
Proof.
  unfold gt. rewrite negb_false_iff. apply Qle_bool_iff.
Qed.

Lemma source_uniform (l : list Q) (t : Z) :
  Forall unit_draw l -> uniform_source (world_of l t).
Proof.
  intros H n. simpl. unfold source.
  destruct (nth_in_or_default n l 0.5) as [Hin | ->].
  - rewrite Forall_forall in H. now apply H.
  - split; [discriminate | reflexivity].
Qed.

(** A draw scaled by the length of a non-empty array and floored is
    an index of the array. *)
Lemma index_of_draw {A} (arr : list A) (r : Q) :
  unit_draw r -> arr <> [] ->
  exists x, index arr (Math_floor (r * length_of arr)) = Some x.
Proof.
  intros [H0 H1] Hne.
  set (n := Z.of_nat (List.length arr)).
  assert (Hn : (0 < n)%Z) by (destruct arr; [congruence | subst n; simpl; lia]).
  set (x := r * length_of arr).
  assert (Hx0 : 0 <= x).
  { subst x. unfold length_of. fold n.
    apply Qmult_le_0_compat; [assumption |].
    change 0 with (inject_Z 0). rewrite <- Zle_Qle. lia. }
  assert (Hx1 : x < inject_Z n).
  { subst x. unfold length_of. fold n.
    rewrite <- (Qmult_1_l (inject_Z n)) at 2.
    apply Qmult_lt_compat_r; [| assumption].
    change 0 with (inject_Z 0). rewrite <- Zlt_Qlt. lia. }
  assert (Hz0 : (0 <= Qfloor x)%Z).
  { change 0%Z with (Qfloor 0). now apply Qfloor_resp_le. }
  assert (Hz1 : (Qfloor x < n)%Z).
  { rewrite Zlt_Qlt. eapply Qle_lt_trans; [apply Qfloor_le | exact Hx1]. }
  unfold index, Math_floor. rewrite Qfloor_Z.
  replace (Qle_bool 0 (inject_Z (Qfloor x))) with true.
  2:{ symmetry. apply Qle_bool_iff. change 0 with (inject_Z 0).
      now rewrite <- Zle_Qle. }
  replace (Qeq_bool (inject_Z (Qfloor x)) (inject_Z (Qfloor x))) with true.
  2:{ symmetry. apply Qeq_bool_iff. reflexivity. }
  simpl.
  destruct (nth_error arr (Z.to_nat (Qfloor x))) eqn:E; [eauto |].
  apply nth_error_None in E. subst n. lia.
Qed.

(** Under draws in [0, 1) the generator returns an alert; its fields
    are those of the draws below. *)
Lemma generateAlert_returns (w : World) :
  uniform_source w ->
  exists a w',
    generateAlert w = (Normal a, w') /\
    id a = inject_Z (clock w) + rng w (2 + cursor w) /\
    timestamp a = clock w /\
    read a = false /\
    severity a = two_draw_rule (rng w (3 + cursor w)) (rng w (4 + cursor w)) /\
    cursor w' = ((if gt (rng w (3 + cursor w)) 0.7 then 4 else 5) + cursor w)%nat /\
    rng w' = rng w /\ clock w' = clock w.
Proof.
  intros U.
  destruct (@index_of_draw _ alertTypes (rng w (cursor w)) (U _))
    as [ty Hty]; [discriminate |].
  unfold generateAlert, bind, Math_random at 1. cbn [rng cursor clock].
  rewrite Hty.
  unfold drawSeverity, two_draw_rule, bind, Math_random, Date_now, ret.
  cbn [rng cursor clock].
  destruct (gt (rng w (S (S (S (cursor w))))) 0.7) eqn:E.
  - do 2 eexists. split; [reflexivity |].
    cbn. rewrite E. repeat split; reflexivity.
  - do 2 eexists. split; [reflexivity |].
    cbn. rewrite E. repeat split; reflexivity.
Qed.

(** C2, as stated, fails: with severity draws 0.2 then 0.9 the
    generator answers [medium], while the documented rule gives [low]
    on every draw of the invocation but the last, and [high] on that
    one. *)
Lemma severity_needs_two_draws :
  uniform_source low_then_high /\
  (exists a w', generateAlert low_then_high = (Normal a, w') /\
                severity a = medium /\ cursor w' = 5%nat) /\
  map single_draw_rule (map (rng low_then_high) [0; 1; 2; 3; 4]%nat) =
    [low; low; low; low; high] /\
  ~ severity_by_single_draw.
Proof.
  assert (U : uniform_source low_then_high).
  { apply source_uniform.
    repeat constructor; (discriminate || reflexivity). }
  split; [exact U |].
  destruct (generateAlert_returns U)
    as (a & w' & G & _ & _ & _ & Hs & Hc & Hr & _).
  change (severity a = medium) in Hs.
  change (cursor w' = 5%nat) in Hc.
  split; [exists a, w'; auto |].
  split; [reflexivity |].
  intros H.
  destruct (H _ _ _ U G) as (k & [_ Hk] & Hk').
  rewrite Hs in Hk'. rewrite Hc in Hk.
  do 5 (destruct k as [| k]; [discriminate Hk' |]). lia.
Qed.

(** C2 (amended): the severity of a generated alert is ['high'] when
    the invocation's first severity draw r exceeds 0.7; otherwise a
    second, independent draw r' is taken and the severity is
    ['medium'] when r' exceeds 0.4 and ['low'] when it does not. *)
Theorem severity_two_draws (w : World) :
  uniform_source w ->
  exists a w',
    generateAlert w = (Normal a, w') /\
    let r := rng w (3 + cursor w) in
    let r' := rng w (4 + cursor w) in
    (0.7 < r -> severity a = high /\ cursor w' = (4 + cursor w)%nat) /\
    (r <= 0.7 -> 0.4 < r' ->
       severity a = medium /\ cursor w' = (5 + cursor w)%nat) /\
    (r <= 0.7 -> r' <= 0.4 ->
       severity a = low /\ cursor w' = (5 + cursor w)%nat).
Proof.
  intros U.
  destruct (generateAlert_returns U)
    as (a & w' & G & _ & _ & _ & Hs & Hc & _).
  exists a, w'. split; [exact G |].
  cbv zeta. rewrite Hs, Hc. unfold two_draw_rule.
  repeat split.
  - apply gt_true in H. now rewrite H.
  - apply gt_true in H. now rewrite H.
  - apply gt_false in H. apply gt_true in H0. now rewrite H, H0.
  - apply gt_false in H. now rewrite H.
  - apply gt_false in H. apply gt_false in H0. now rewrite H, H0.
  - apply gt_false in H. now rewrite H.
Qed.

(** The theorem at the severity draws 0.2 and 0.9. *)
Lemma severity_two_draws_witness :
  uniform_source low_then_high /\
  exists a w',
    generateAlert low_then_high = (Normal a, w') /\ severity a = medium.
Proof.
  assert (U : uniform_source low_then_high).
  { apply source_uniform.
    repeat constructor; (discriminate || reflexivity). }
  split; [exact U |].
  destruct (severity_two_draws U) as (a & w' & G & _ & Hm & _).
  exists a, w'. split; [exact G |].
  apply Hm; [discriminate | reflexivity].
Defined.

End Generator.

(* ================================================================= *)
(** ** Timers *)

Section TimerFacts.

Import JS.

Variables S C : Type.
Variable run : C -> S -> M S.

Lemma invoke_timers (cb : C) (rt : Runtime S C) :
  timers (invoke run cb rt) = timers rt.
Proof.
  unfold invoke. destruct (run cb (state rt) (world rt)) as [[s | e] w]; reflexivity.
Qed.

Lemma pending_In (h : nat) (rt : Runtime S C) (t : Timer C) :
  pending h rt = Some t -> In t (timers rt) /\ handle t = h.
Proof.
  unfold pending. intros H. apply find_some in H. destruct H as [Hin Hh].
  split; [exact Hin | now apply Nat.eqb_eq].
Qed.

(** No callback registers a timer: the table only ever shrinks. *)
Lemma fire_timers (h : nat) (rt : Runtime S C) (t : Timer C) :
  In t (timers (fire run h rt)) -> In t (timers rt).
Proof.
  unfold fire. destruct (pending h rt) as [t0 |]; [| auto].
  destruct (kind t0); rewrite invoke_timers; [auto |].
  simpl. intros H. apply filter_In in H. tauto.
Qed.

Lemma clearInterval_timers (h : nat) (rt : Runtime S C) (t : Timer C) :
  In t (timers (clearInterval h rt)) <-> In t (timers rt) /\ handle t <> h.
Proof.
  simpl. rewrite filter_In, negb_true_iff, Nat.eqb_neq. tauto.
Qed.

(** With an empty table nothing runs. *)
Lemma fire_idle (h : nat) (rt : Runtime S C) :
  timers rt = [] -> fire run h rt = rt.
Proof.
  intros H. unfold fire, pending. rewrite H. reflexivity.
Qed.

Lemma clearInterval_idle (h : nat) (rt : Runtime S C) :
  timers rt = [] -> clearInterval h rt = rt.
Proof.
  intros H. destruct rt as [s w ts n]. simpl in H. subst ts. reflexivity.
Qed.

(** What a timer that elapses can do to the component state. *)
Lemma fire_state (P : S -> Prop) (h : nat) (rt : Runtime S C) :
  (forall t s w s' w',
      In t (timers rt) ->
      run (callback t) s w = (Normal s', w') -> P s -> P s') ->
  P (state rt) -> P (state (fire run h rt)).
Proof.
  intros Hrun Hrt. unfold fire.
  destruct (pending h rt) as [t |] eqn:Ep; [| exact Hrt].
  apply pending_In in Ep. destruct Ep as [Hin _].
  assert (Hinv : forall rt', state rt' = state rt ->
                             P (state (invoke run (callback t) rt'))).
  { intros rt' E. unfold invoke.
    destruct (run (callback t) (state rt') (world rt')) as [[s' | e] w'] eqn:Er;
      simpl; [| now rewrite E].
    eapply Hrun; eauto. now rewrite E. }
  destruct (kind t); apply Hinv; reflexivity.
Qed.

End TimerFacts.

(* ================================================================= *)
(** ** Reachable states of RealTimeDashboard *)

Section Reachable.

Import JS RealTimeDashboard Runs.
Local Open Scope Q_scope.

(** The seeding touches the alerts and the live data only. *)
Lemma seed_systemMetrics (s s' : State) (w w' : World) :
  seed s w = (Normal s', w') ->
  systemMetrics s' = systemMetrics s /\ isConnected s' = isConnected s.
Proof.
  unfold seed, bind. intros H.
  destruct (Array_from 3 _ w) as [[l | e] w1]; [| discriminate].
  destruct (Array_from 10 _ w1) as [[d | e] w2]; [| discriminate].
  injection H as <- _. split; reflexivity.
Qed.

Lemma mount_state (w : World) :
  (state (runtime (mount w)) = initialState /\ onUnmount (mount w) = None) \/
  (exists s' w', seed initialState w = (Normal s', w') /\
                 state (runtime (mount w)) = s').
Proof.
  unfold mount, effect. cbn [state world timers nextHandle].
  destruct (seed initialState w) as [[s' | e] w'] eqn:E.
  - right. exists s', w'. split; reflexivity.
  - left. split; reflexivity.
Qed.

(** Induction over the events an instance can see. *)
Lemma steps_invariant (P : State -> Prop) :
  (forall cb s w s' w', run cb s w = (Normal s', w') -> P s -> P s') ->
  (forall a s, P s -> P (dismissAlert a s)) ->
  (forall a s, P s -> P (markAsRead a s)) ->
  forall es i, P (state (runtime i)) -> P (state (runtime (steps es i))).
Proof.
  intros Hrun Hdis Hread.
  induction es as [| e es IH]; intros i Hi; [exact Hi |].
  unfold steps in *. simpl fold_left. apply IH.
  destruct e; simpl.
  - apply fire_state; [| exact Hi]. intros t s w s' w' _. apply Hrun.
  - exact Hi.
  - destruct (mounted i); simpl; [apply Hdis |]; exact Hi.
  - destruct (mounted i); simpl; [apply Hread |]; exact Hi.
  - unfold unmount. simpl. destruct (onUnmount i); exact Hi.
Qed.

End Reachable.

(* ================================================================= *)
(** ** The system metrics *)

Section SystemMetrics.

Import JS RealTimeDashboard Runs.
Local Open Scope Q_scope.

Lemma clamp_within (x l h : Q) : l <= h -> l <= clamp x l h /\ clamp x l h <= h.
Proof.
  intros H. unfold clamp, Math_max, Math_min. split.
  - apply Q.le_max_l.
  - apply Q.max_lub; [exact H | apply Q.le_min_l].
Qed.

(** One run of the updater: five draws, each metric clamped around
    its old value plus its jitter, [uptime] kept. *)
Lemma jitterSystemMetrics_returns (prev : SystemMetrics) (w : World) :
  exists m' w',
    jitterSystemMetrics prev w = (Normal m', w') /\
    (forall k, value k m' =
               clamp (value k prev + jitter k (rng w (draw_index k + cursor w)))
                     (lo k) (hi k)) /\
    uptime m' = uptime prev /\
    cursor w' = (5 + cursor w)%nat /\ rng w' = rng w /\ clock w' = clock w.
Proof.
  do 2 eexists. split; [reflexivity |].
  cbn. repeat split. intros []; reflexivity.
Qed.

Lemma jitterSystemMetrics_within (prev m' : SystemMetrics) (w w' : World) :
  jitterSystemMetrics prev w = (Normal m', w') -> within_clamp_ranges m'.
Proof.
  intros H.
  destruct (jitterSystemMetrics_returns prev w) as (m & w1 & E & Hv & _).
  rewrite E in H. injection H as <- _.
  unfold within_clamp_ranges.
  pose proof (Hv Accuracy) as HA.
  pose proof (Hv Efficiency) as HE.
  pose proof (Hv ActivePredictions) as HP.
  pose proof (Hv CrisisAlerts) as HC.
  pose proof (Hv ResponseTime) as HR.
  cbn [value lo hi] in *.
  rewrite HA, HE, HP, HC, HR.
  repeat split; apply clamp_within; discriminate.
Qed.

Lemma run_within (cb : Callback) (s s' : State) (w w' : World) :
  run cb s w = (Normal s', w') ->
  within_clamp_ranges (systemMetrics s) ->
  within_clamp_ranges (systemMetrics s').
Proof.
  destruct cb; simpl; intros H Hs.
  - unfold alertInterval_callback, bind, Math_random in H.
    destruct (gt _ _).
    + destruct (generateAlert _) as [[a | e] w1]; [| discriminate].
      injection H as <- _. exact Hs.
    + injection H as <- _. exact Hs.
  - unfold metricsInterval_callback, bind in H.
    destruct (generateMetricsData w) as [[d | e] w1]; [| discriminate].
    cbn [systemMetrics setLiveData] in H.
    destruct (jitterSystemMetrics (systemMetrics s) w1) as [[m | e] w2] eqn:E;
      [| discriminate].
    injection H as <- _. simpl.
    eapply jitterSystemMetrics_within; eauto.
  - injection H as <- _. exact Hs.
Qed.

Lemma initial_within : within_clamp_ranges (systemMetrics initialState).
Proof. unfold within_clamp_ranges. simpl. repeat split; discriminate. Qed.

(** C3: whatever the draws and whatever happens to a mounted
    dashboard (timer ticks in any order and number, clicks, unmount),
    ai_accuracy stays in [90,99], quantum_efficiency in [80,95],
    active_predictions in [100,200], crisis_alerts in [0,20] and
    response_time in [1,5]. *)
Theorem metrics_stay_clamped (w : World) (es : list Event) :
  within_clamp_ranges (systemMetrics (state (runtime (steps es (mount w))))).
Proof.
  apply (steps_invariant (fun s => within_clamp_ranges (systemMetrics s))).
  - intros cb s w0 s' w' H. eapply run_within; eauto.
  - intros a s H. exact H.
  - intros a s H. exact H.
  - destruct (mount_state w) as [[-> _] | (s' & w' & Hseed & ->)].
    + apply initial_within.
    + apply seed_systemMetrics in Hseed. destruct Hseed as [-> _].
      apply initial_within.
Qed.

End SystemMetrics.

Section Jitter.

Import JS RealTimeDashboard Runs.
Local Open Scope Q_scope.

Lemma Math_floor_le (x : Q) : Math_floor x <= x.
Proof. apply Qfloor_le. Qed.

Lemma Math_floor_ge (z : Z) (x : Q) : inject_Z z <= x -> inject_Z z <= Math_floor x.
Proof.
  intros H. unfold Math_floor. rewrite <- Zle_Qle.
  rewrite <- (Qfloor_Z z). now apply Qfloor_resp_le.
Qed.

(** The jitter of a draw in [0, 1) lies in [-delta/2, delta/2). *)
Lemma jitter_bounds (k : Metric) (r : Q) :
  unit_draw r ->
  - (delta k / 2) <= jitter k r /\ jitter k r < delta k / 2.
Proof.
  intros [H0 H1]. destruct k; cbn [jitter delta].
  - change (2 / 2) with (2 # 2). split; lra.
  - change (3 / 2) with (3 # 2). split; lra.
  - change (10 / 2) with (10 # 2). split.
    + apply Qle_trans with (inject_Z (-5)); [unfold inject_Z; lra |].
      apply Math_floor_ge. unfold inject_Z. lra.
    + eapply Qle_lt_trans; [apply Math_floor_le | lra].
  - change (2 / 2) with (2 # 2). split.
    + apply Qle_trans with (inject_Z (-1)); [unfold inject_Z; lra |].
      apply Math_floor_ge. unfold inject_Z. lra.
    + eapply Qle_lt_trans; [apply Math_floor_le | lra].
  - change (0.5 / 2) with (5 # 20). split; lra.
Qed.

Lemma clamp_inside (x l h : Q) : l <= x -> x <= h -> clamp x l h == x.
Proof.
  intros Hl Hh. unfold clamp, Math_max, Math_min.
  rewrite (Q.min_r h x Hh). apply Q.max_r. exact Hl.
Qed.

(** C4, as stated, fails on the two counters, whose jitter is floored.
    With the draw 0.25 for [crisis_alerts] the scaled draw is -0.5, its
    floor is -1, and the metric goes from 8 to 7: a step of exactly
    -delta/2, which no amount strictly inside (-1, 1) produces.  (Any
    draw below one half does the same; a draw above it leaves the
    metric where it is.) *)
Lemma counters_floor_the_draw :
  uniform_source one_quarter /\
  (exists m' w',
     jitterSystemMetrics (systemMetrics initialState) one_quarter
       = (Normal m', w') /\
     crisis_alerts m' == 7) /\
  jitter CrisisAlerts 0.25 == -1 /\
  (0.25 - 0.5) * delta CrisisAlerts == -0.5 /\
  ~ every_metric_moves_inside_the_interval.
Proof.
  assert (U : uniform_source one_quarter).
  { apply source_uniform. repeat constructor; (discriminate || reflexivity). }
  split; [exact U |].
  split; [do 2 eexists; split; reflexivity |].
  split; [reflexivity |]. split; [reflexivity |].
  intros H.
  destruct (H (systemMetrics initialState) _ one_quarter _ CrisisAlerts
              U eq_refl) as (u & Hlo & Hhi & Hu).
  cbn [delta lo hi] in Hlo, Hhi, Hu.
  change (2 / 2) with (2 # 2) in Hlo, Hhi.
  cbn [value crisis_alerts systemMetrics initialState] in Hu.
  rewrite clamp_inside in Hu by lra.
  assert (E : Math_max 0 (Math_min 20 (8 + Math_floor ((0.25 - 0.5) * 2))) == 7)
    by reflexivity.
  change (rng one_quarter (3 + cursor one_quarter)) with 0.25 in Hu.
  rewrite E in Hu. lra.
Qed.

(** C4 (amended): on every tick each clamped metric becomes
    clamp(old + u, min, max) with min, max and delta fixed per metric
    (accuracy 90, 99, 2; efficiency 80, 95, 3; active predictions
    100, 200, 10; crisis alerts 0, 20, 2; response time 1, 5, 0.5),
    where for accuracy, efficiency and response time u is the scaled
    draw (r - 0.5) * delta, and for the two counters u is that scaled
    draw floored to an integer; in both cases
    -delta/2 <= u < delta/2 for r in [0, 1).  In particular accuracy
    at 94.2 lies in [93.2, 95.2] and in [90, 99] after one tick. *)
Theorem tick_adds_clamped_jitter (prev : SystemMetrics) (w : World) :
  uniform_source w ->
  exists m' w',
    jitterSystemMetrics prev w = (Normal m', w') /\
    (forall k,
       let r := rng w (draw_index k + cursor w) in
       let u := match k with
                | ActivePredictions | CrisisAlerts =>
                    Math_floor ((r - 0.5) * delta k)
                | _ => (r - 0.5) * delta k
                end in
       value k m' = clamp (value k prev + u) (lo k) (hi k) /\
       - (delta k / 2) <= u /\ u < delta k / 2) /\
    (ai_accuracy prev == 94.2 ->
       (93.2 <= ai_accuracy m' /\ ai_accuracy m' <= 95.2) /\
       (90 <= ai_accuracy m' /\ ai_accuracy m' <= 99)).
Proof.
  intros U.
  destruct (jitterSystemMetrics_returns prev w) as (m' & w' & E & Hv & _).
  exists m', w'. split; [exact E |]. split.
  - intros k. cbv zeta. split.
    + rewrite Hv. destruct k; reflexivity.
    + pose proof (@jitter_bounds k _ (U (draw_index k + cursor w)%nat)) as B.
      destruct k; exact B.
  - intros Hprev.
    pose proof (Hv Accuracy) as HA. cbn [value lo hi] in HA.
    pose proof (@jitter_bounds Accuracy _ (U (draw_index Accuracy + cursor w)%nat))
      as [B1 B2].
    set (u := jitter Accuracy (rng w (draw_index Accuracy + cursor w))) in *.
    cbn [delta] in B1, B2. change (2 / 2) with (2 # 2) in B1, B2.
    assert (Hin : clamp (ai_accuracy prev + u) 90 99 == ai_accuracy prev + u).
    { apply clamp_inside; lra. }
    rewrite HA, Hin. repeat split; lra.
Qed.

(** The theorem at the initial metrics, accuracy 94.2. *)
Lemma tick_adds_clamped_jitter_witness :
  uniform_source one_quarter /\
  exists m' w',
    jitterSystemMetrics (systemMetrics initialState) one_quarter
      = (Normal m', w') /\
    93.2 <= ai_accuracy m' /\ ai_accuracy m' <= 95.2.
Proof.
  assert (U : uniform_source one_quarter).
  { apply source_uniform. repeat constructor; (discriminate || reflexivity). }
  split; [exact U |].
  destruct (tick_adds_clamped_jitter (systemMetrics initialState) U)
    as (m' & w' & E & _ & Hs).
  exists m', w'. split; [exact E |].
  destruct Hs as [[H1 H2] _]; [reflexivity |].
  split; assumption.
Defined.

End Jitter.

(* ================================================================= *)
(** ** Dismissal and acknowledgement *)

Section AlertQueue.

Import JS RealTimeDashboard Runs.
Local Open Scope Q_scope.

Lemma filter_twice {A} (f : A -> bool) (l : list A) :
  filter f (filter f l) = filter f l.
Proof.
  induction l as [| a l IH]; [reflexivity |]. simpl.
  destruct (f a) eqn:E; simpl; [rewrite E, IH |]; auto.
Qed.

Lemma filter_all {A} (f : A -> bool) (l : list A) :
  (forall a, In a l -> f a = true) -> filter f l = l.
Proof.
  induction l as [| a l IH]; intros H; [reflexivity |]. simpl.
  rewrite (H a (or_introl eq_refl)). f_equal. apply IH.
  intros b Hb. apply H. now right.
Qed.

Lemma strict_eq_false (a b : Q) : strict_eq a b = false <-> ~ a == b.
Proof.
  unfold strict_eq. split.
  - intros H E. apply Qeq_bool_iff in E. congruence.
  - intros H. destruct (Qeq_bool a b) eqn:E; [| reflexivity].
    apply Qeq_bool_iff in E. contradiction.
Qed.

(** C5: dismissing an id a second time changes nothing, and
    dismissing an id no queued alert carries leaves the state as it
    is; [dismissAlert] is a total function, so neither case is an
    error. *)
Theorem dismiss_idempotent (alertId : Q) (s : State) :
  dismissAlert alertId (dismissAlert alertId s) = dismissAlert alertId s /\
  ((forall a, In a (alerts s) -> ~ id a == alertId) ->
     dismissAlert alertId s = s) /\
  (forall a, In a (alerts (dismissAlert alertId s)) -> ~ id a == alertId).
Proof.
  unfold dismissAlert, setAlerts. cbn [alerts systemMetrics liveData isConnected].
  split; [| split].
  - now rewrite filter_twice.
  - intros H. rewrite filter_all; [now destruct s |].
    intros a Ha. apply negb_true_iff, strict_eq_false. now apply H.
  - intros a Ha. apply filter_In in Ha. destruct Ha as [_ Ha].
    now apply negb_true_iff, strict_eq_false in Ha.
Qed.

(** The theorem on a queue holding the ids 1..11: dismissing the
    absent id 12, and dismissing the id 3 twice. *)
Lemma dismiss_idempotent_witness :
  let s := setAlerts (fun _ => eleven_alerts) initialState in
  (forall a, In a (alerts s) -> ~ id a == 12) /\
  dismissAlert 12 s = s /\
  dismissAlert 3 (dismissAlert 3 s) = dismissAlert 3 s.
Proof.
  cbv zeta.
  assert (H : forall a,
             In a (alerts (setAlerts (fun _ => eleven_alerts) initialState)) ->
             ~ id a == 12).
  { intros a Ha. simpl in Ha.
    repeat (destruct Ha as [<- | Ha]; [discriminate |]). destruct Ha. }
  split; [exact H |].
  destruct (dismiss_idempotent 12 (setAlerts (fun _ => eleven_alerts) initialState))
    as (_ & Hno & _).
  destruct (dismiss_idempotent 3 (setAlerts (fun _ => eleven_alerts) initialState))
    as (Htwice & _).
  split; [exact (Hno H) | exact Htwice].
Defined.

(** *** Acknowledgement *)

Lemma never_reverts_refl (e : Alert) : never_reverts e e.
Proof. split; auto. Qed.

Lemma never_reverts_trans (a b c : Alert) :
  never_reverts a b -> never_reverts b c -> never_reverts a c.
Proof.
  intros [[-> | ->] H1] [[-> | ->] H2]; split; auto.
Qed.

Lemma mark_never_reverts (alertId : Q) (e : Alert) :
  never_reverts e (if strict_eq (id e) alertId then acknowledged e else e).
Proof.
  destruct (strict_eq (id e) alertId); split; auto.
Qed.

Lemma survives_refl (l : list Alert) : survives l l.
Proof.
  induction l as [| e l IH];
    [apply survives_nil | apply survives_keep; [apply never_reverts_refl | exact IH]].
Qed.

Lemma survives_trans (l1 l2 l3 : list Alert) :
  survives l1 l2 -> survives l2 l3 -> survives l1 l3.
Proof.
  intros H12. revert l3.
  induction H12 as [| e l l' _ IH | e e' l l' He _ IH]; intros l3 H23.
  - exact H23.
  - apply survives_drop. now apply IH.
  - inversion H23 as [| ? ? ? H | ? e'' ? l'' He' H]; subst.
    + apply survives_drop. now apply IH.
    + apply survives_keep; [eapply never_reverts_trans; eauto | now apply IH].
Qed.

Lemma survives_app (a a' b b' : list Alert) :
  survives a a' -> survives b b' -> survives (a ++ b) (a' ++ b').
Proof.
  intros Ha Hb. induction Ha; simpl;
    [exact Hb | apply survives_drop | apply survives_keep]; auto.
Qed.

Lemma survives_firstn (n : nat) (l : list Alert) : survives l (firstn n l).
Proof.
  revert n. induction l as [| e l IH]; intros [| n]; simpl.
  - apply survives_nil.
  - apply survives_nil.
  - apply survives_drop. apply (IH 0%nat).
  - apply survives_keep; [apply never_reverts_refl | apply IH].
Qed.

Lemma survives_filter (f : Alert -> bool) (l : list Alert) :
  survives l (filter f l).
Proof.
  induction l as [| e l IH]; simpl; [apply survives_nil |].
  destruct (f e);
    [apply survives_keep; [apply never_reverts_refl | exact IH]
    | apply survives_drop; exact IH].
Qed.

Lemma survives_mark (alertId : Q) (l : list Alert) :
  survives l (alerts (markAsRead alertId
                (setAlerts (fun _ => l) initialState))).
Proof.
  simpl. induction l as [| e l IH]; simpl;
    [apply survives_nil
    | apply survives_keep; [apply mark_never_reverts | exact IH]].
Qed.

Lemma survives_apply (o : Op) (s : State) :
  survives (pushed [o] ++ alerts s) (alerts (apply o s)).
Proof.
  destruct o as [a | x | x]; simpl.
  - apply survives_keep; [apply never_reverts_refl | apply survives_firstn].
  - apply survives_filter.
  - apply (survives_mark x (alerts s)).
Qed.

Lemma survives_run (ops : list Op) (s : State) :
  survives (rev (pushed ops) ++ alerts s) (alerts (run_ops ops s)).
Proof.
  revert s. induction ops as [| o ops IH]; intros s.
  - apply survives_refl.
  - unfold run_ops in *. simpl fold_left.
    eapply survives_trans; [| apply IH].
    replace (pushed (o :: ops)) with (pushed [o] ++ pushed ops)
      by (destruct o; reflexivity).
    rewrite rev_app_distr, <- app_assoc.
    apply survives_app; [apply survives_refl |].
    replace (rev (pushed [o])) with (pushed [o]) by (destruct o; reflexivity).
    apply survives_apply.
Qed.

Lemma Forall2_after_map {A} (R : A -> A -> Prop) (f : A -> A) (l l' : list A) :
  (forall e e', R (f e) e' -> R e e') ->
  Forall2 R (map f l) l' -> Forall2 R l l'.
Proof.
  intros Hf. revert l'. induction l as [| e l IH]; intros l' H;
    inversion H; subst; constructor; auto.
Qed.

Lemma acknowledgeAll_Forall2 (ids : list Q) (s : State) :
  Forall2 never_reverts (alerts s) (alerts (acknowledgeAll ids s)).
Proof.
  revert s. induction ids as [| x ids IH]; intros s.
  - change (acknowledgeAll [] s) with s.
    induction (alerts s); constructor; auto using never_reverts_refl.
  - change (acknowledgeAll (x :: ids) s)
      with (acknowledgeAll ids (markAsRead x s)).
    specialize (IH (markAsRead x s)).
    eapply Forall2_after_map; [| exact IH].
    intros e e' H.
    eapply never_reverts_trans; [apply mark_never_reverts | exact H].
Qed.

(** C6: the flag of an alert only ever goes from false to true.
    Under any sequence of acknowledgements every alert keeps its
    place and is afterwards either itself or itself with the flag
    set, so a set flag stays set; [markAsRead] sets the flag of every
    alert with the given id; and under any run of pushes, dismissals
    and acknowledgements the queue is the alerts it ever held, in
    order, with some removed and some flags set, never one cleared. *)
Theorem acknowledged_never_reverts (s : State) :
  (forall ids, Forall2 never_reverts (alerts s) (alerts (acknowledgeAll ids s))) /\
  (forall alertId e,
      In e (alerts (markAsRead alertId s)) -> id e == alertId -> read e = true) /\
  (forall ops, survives (rev (pushed ops) ++ alerts s) (alerts (run_ops ops s))) /\
  (forall e e', never_reverts e e' -> read e = true -> read e' = true).
Proof.
  split; [| split; [| split]].
  - intros ids. apply acknowledgeAll_Forall2.
  - intros x e He Hid. simpl in He. apply in_map_iff in He.
    destruct He as (e0 & <- & _).
    destruct (strict_eq (id e0) x) eqn:E; [reflexivity |].
    apply strict_eq_false in E. contradiction.
  - intros ops. apply survives_run.
  - intros e e' [_ H]. exact H.
Qed.

End AlertQueue.

(* ================================================================= *)
(** ** Unmounting stops the ticks *)

Section Stop.

Import JS RealTimeDashboard Runs.

Lemma mount_owned (w : World) : owned (mount w).
Proof.
  unfold owned, mount, effect. cbn [state world timers nextHandle].
  destruct (seed initialState w) as [[s' | e] w']; simpl; intros t Ht.
  - eexists. split; [reflexivity |]. simpl.
    destruct Ht as [<- | [<- | [<- | []]]]; simpl; auto.
  - destruct Ht.
Qed.

Lemma step_owned (e : Event) (i : Instance) : owned i -> owned (step e i).
Proof.
  intros Hi. destruct e; unfold owned in *; simpl.
  - intros t Ht. apply fire_timers in Ht. auto.
  - exact Hi.
  - destruct (mounted i); exact Hi.
  - destruct (mounted i); exact Hi.
  - destruct (onUnmount i) as [c |] eqn:Ec; [| exact Hi].
    intros t Ht. unfold cleanup in Ht.
    repeat (apply clearInterval_timers in Ht; destruct Ht as [Ht _]).
    auto.
Qed.

Lemma steps_owned (es : list Event) (i : Instance) : owned i -> owned (steps es i).
Proof.
  revert i. induction es as [| e es IH]; intros i Hi; [exact Hi |].
  unfold steps in *. simpl. apply IH. now apply step_owned.
Qed.

(** The cleanup clears every timer the effect registered. *)
Lemma unmount_clears (i : Instance) :
  owned i -> timers (runtime (unmount i)) = [] /\ mounted (unmount i) = false.
Proof.
  intros Hi. split; [| reflexivity].
  destruct (timers (runtime (unmount i))) as [| t ts] eqn:E; [reflexivity |].
  exfalso.
  assert (Ht : In t (timers (runtime (unmount i)))) by (rewrite E; now left).
  clear E. unfold unmount in Ht. cbn [runtime] in Ht.
  destruct (onUnmount i) as [c |] eqn:Ec.
  - unfold cleanup in Ht.
    apply clearInterval_timers in Ht. destruct Ht as [Ht H3].
    apply clearInterval_timers in Ht. destruct Ht as [Ht H2].
    apply clearInterval_timers in Ht. destruct Ht as [Ht H1].
    destruct (Hi t Ht) as (c' & Hc' & H).
    rewrite Ec in Hc'. injection Hc' as <-. tauto.
  - destruct (Hi t Ht) as (c' & Hc' & _). congruence.
Qed.

Lemma unmount_idle (i : Instance) :
  timers (runtime i) = [] -> mounted i = false -> unmount i = i.
Proof.
  intros Ht Hm. destruct i as [rt c m]. simpl in *. subst m.
  unfold unmount. simpl. f_equal.
  destruct c as [c |]; [| reflexivity].
  unfold cleanup.
  rewrite (@clearInterval_idle _ _ (alertInterval c) rt Ht).
  rewrite (@clearInterval_idle _ _ (metricsInterval c) rt Ht).
  apply clearInterval_idle. exact Ht.
Qed.

(** Once unmounted with an empty table, an instance is deaf to every
    event but the passing of time. *)
Lemma idle_steps (es : list Event) (i : Instance) :
  timers (runtime i) = [] -> mounted i = false ->
  state (runtime (steps es i)) = state (runtime i) /\
  cursor (world (runtime (steps es i))) = cursor (world (runtime i)) /\
  rng (world (runtime (steps es i))) = rng (world (runtime i)) /\
  timers (runtime (steps es i)) = [] /\
  mounted (steps es i) = false.
Proof.
  revert i. induction es as [| e es IH]; intros i Ht Hm; [auto |].
  unfold steps in *. simpl fold_left.
  assert (H : state (runtime (step e i)) = state (runtime i) /\
              cursor (world (runtime (step e i))) = cursor (world (runtime i)) /\
              rng (world (runtime (step e i))) = rng (world (runtime i)) /\
              timers (runtime (step e i)) = [] /\
              mounted (step e i) = false).
  { destruct e.
    - simpl. rewrite fire_idle by exact Ht. auto.
    - simpl. auto.
    - simpl. rewrite Hm. auto.
    - simpl. rewrite Hm. auto.
    - change (step Unmount i) with (unmount i).
      rewrite unmount_idle by assumption. auto. }
  destruct H as (Hs & Hc & Hr & Ht' & Hm').
  destruct (IH (step e i) Ht' Hm') as (Is & Ic & Ir & It & Im).
  repeat split; congruence.
Qed.

Lemma cleanup_twice (c : Cleanup) (rt : RT) :
  cleanup c (cleanup c rt) = cleanup c rt.
Proof.
  unfold cleanup, clearInterval. simpl. f_equal.
  set (f1 := fun t : Timer Callback => negb (handle t =? alertInterval c)).
  set (f2 := fun t : Timer Callback => negb (handle t =? metricsInterval c)).
  set (f3 := fun t : Timer Callback => negb (handle t =? connectionInterval c)).
  set (L := filter f3 (filter f2 (filter f1 (timers rt)))).
  assert (HL : forall t, In t L -> f1 t = true /\ f2 t = true /\ f3 t = true).
  { intros t Ht. subst L.
    apply filter_In in Ht. destruct Ht as [Ht H3].
    apply filter_In in Ht. destruct Ht as [Ht H2].
    apply filter_In in Ht. destruct Ht as [Ht H1]. auto. }
  rewrite (@filter_all _ f1 L) by (intros t Ht; apply HL; exact Ht).
  rewrite (@filter_all _ f2 L) by (intros t Ht; apply HL; exact Ht).
  apply filter_all. intros t Ht. apply HL. exact Ht.
Qed.

(** *** ChampionshipDashboard *)

Lemma championship_cleanup_twice (c : ChampionshipDashboard.Cleanup)
      (rt : ChampionshipDashboard.RT) :
  ChampionshipDashboard.cleanup c (ChampionshipDashboard.cleanup c rt) =
  ChampionshipDashboard.cleanup c rt.
Proof.
  unfold ChampionshipDashboard.cleanup, clearInterval. simpl. f_equal.
  set (f1 := fun t : Timer ChampionshipDashboard.Callback =>
               negb (handle t =? ChampionshipDashboard.interval c)).
  set (f2 := fun t : Timer ChampionshipDashboard.Callback =>
               negb (handle t =? ChampionshipDashboard.alertInterval c)).
  set (L := filter f2 (filter f1 (timers rt))).
  assert (HL : forall t, In t L -> f1 t = true /\ f2 t = true).
  { intros t Ht. subst L.
    apply filter_In in Ht. destruct Ht as [Ht H2].
    apply filter_In in Ht. destruct Ht as [Ht H1]. auto. }
  rewrite (@filter_all _ f1 L) by (intros t Ht; apply HL; exact Ht).
  apply filter_all. intros t Ht. apply HL. exact Ht.
Qed.

Lemma championship_mount_owned (w : World) :
  championship_owned (ChampionshipDashboard.mount w).
Proof.
  unfold championship_owned. simpl. intros t Ht.
  destruct Ht as [<- | [<- | [<- | []]]]; simpl; auto.
Qed.

Lemma championship_step_owned (e : ChampionshipDashboard.Event)
      (i : ChampionshipDashboard.Instance) :
  championship_owned i -> championship_owned (ChampionshipDashboard.step e i).
Proof.
  intros Hi. destruct e; unfold championship_owned in *; simpl.
  - intros t Ht. apply fire_timers in Ht. auto.
  - exact Hi.
  - intros t Ht.
    apply filter_In in Ht. destruct Ht as [Ht _].
    apply filter_In in Ht. destruct Ht as [Ht _].
    auto.
Qed.

Lemma championship_steps_owned (es : list ChampionshipDashboard.Event)
      (i : ChampionshipDashboard.Instance) :
  championship_owned i -> championship_owned (ChampionshipDashboard.steps es i).
Proof.
  revert i. induction es as [| e es IH]; intros i Hi; [exact Hi |].
  unfold ChampionshipDashboard.steps in *. simpl. apply IH.
  now apply championship_step_owned.
Qed.

Lemma championship_unmount_leaves (i : ChampionshipDashboard.Instance) :
  championship_owned i -> only_loadingDone (ChampionshipDashboard.unmount i).
Proof.
  intros Hi t Ht. unfold ChampionshipDashboard.unmount in Ht.
  cbn [ChampionshipDashboard.runtime] in Ht.
  unfold ChampionshipDashboard.cleanup in Ht.
  apply clearInterval_timers in Ht. destruct Ht as [Ht H2].
  apply clearInterval_timers in Ht. destruct Ht as [Ht H1].
  destruct (Hi t Ht) as [H | [H | H]]; [contradiction | contradiction | exact H].
Qed.

Lemma championship_quiet_step (e : ChampionshipDashboard.Event)
      (i : ChampionshipDashboard.Instance) :
  only_loadingDone i ->
  let i' := ChampionshipDashboard.step e i in
  only_loadingDone i' /\
  ChampionshipDashboard.metrics (state (ChampionshipDashboard.runtime i')) =
    ChampionshipDashboard.metrics (state (ChampionshipDashboard.runtime i)) /\
  ChampionshipDashboard.liveAlerts (state (ChampionshipDashboard.runtime i')) =
    ChampionshipDashboard.liveAlerts (state (ChampionshipDashboard.runtime i)) /\
  world (ChampionshipDashboard.runtime i') =
    match e with
    | ChampionshipDashboard.ClockAdvances dt =>
        world (advance dt (ChampionshipDashboard.runtime i))
    | _ => world (ChampionshipDashboard.runtime i)
    end.
Proof.
  intros Hi. destruct e; cbv zeta; simpl.
  - split; [intros t Ht; apply fire_timers in Ht; auto |].
    unfold fire.
    destruct (pending h (ChampionshipDashboard.runtime i)) as [t |] eqn:Ep;
      [| auto].
    apply pending_In in Ep. destruct Ep as [Hin _].
    rewrite (Hi t Hin).
    destruct (kind t); unfold invoke; simpl; auto.
  - split; [exact Hi | auto].
  - split; [| auto].
    intros t Ht.
    apply filter_In in Ht. destruct Ht as [Ht _].
    apply filter_In in Ht. destruct Ht as [Ht _].
    auto.
Qed.

Lemma championship_quiet_steps (es : list ChampionshipDashboard.Event)
      (i : ChampionshipDashboard.Instance) :
  only_loadingDone i ->
  let i' := ChampionshipDashboard.steps es i in
  ChampionshipDashboard.metrics (state (ChampionshipDashboard.runtime i')) =
    ChampionshipDashboard.metrics (state (ChampionshipDashboard.runtime i)) /\
  ChampionshipDashboard.liveAlerts (state (ChampionshipDashboard.runtime i')) =
    ChampionshipDashboard.liveAlerts (state (ChampionshipDashboard.runtime i)) /\
  cursor (world (ChampionshipDashboard.runtime i')) =
    cursor (world (ChampionshipDashboard.runtime i)).
Proof.
  revert i. induction es as [| e es IH]; intros i Hi; cbv zeta; [auto |].
  unfold ChampionshipDashboard.steps in *. simpl fold_left.
  destruct (championship_quiet_step e Hi) as (Hi' & Hm & Hl & Hw).
  destruct (IH _ Hi') as (Im & Il & Ic).
  rewrite Im, Il, Ic, Hm, Hl, Hw.
  repeat split. destruct e; reflexivity.
Qed.

(** C9: once a dashboard is unmounted, whatever timers elapse, however
    much time passes and whatever else is attempted, no callback runs:
    the component state (alert queue, live data, system metrics) is
    the one at unmount, no draw of [Math.random()] is consumed, and
    unmounting again changes nothing.  For ChampionshipDashboard the
    same holds of its metrics and live alerts; only its one-shot
    loading timeout, which the cleanup does not cancel, may still
    clear [isLoading].  Running either cleanup twice, on any timer
    table, is running it once. *)
Theorem unmount_stops_ticks
  (w : World) (before after : list Event)
  (before' after' : list ChampionshipDashboard.Event) :
  let i := stopped w before in
  let j := championship_stopped w before' in
  (timers (runtime i) = [] /\
   state (runtime (steps after i)) = state (runtime i) /\
   cursor (world (runtime (steps after i))) = cursor (world (runtime i)) /\
   step Unmount i = i) /\
  (ChampionshipDashboard.metrics
     (state (ChampionshipDashboard.runtime (ChampionshipDashboard.steps after' j))) =
   ChampionshipDashboard.metrics (state (ChampionshipDashboard.runtime j)) /\
   ChampionshipDashboard.liveAlerts
     (state (ChampionshipDashboard.runtime (ChampionshipDashboard.steps after' j))) =
   ChampionshipDashboard.liveAlerts (state (ChampionshipDashboard.runtime j)) /\
   cursor (world (ChampionshipDashboard.runtime (ChampionshipDashboard.steps after' j))) =
   cursor (world (ChampionshipDashboard.runtime j)) /\
   ChampionshipDashboard.step ChampionshipDashboard.Unmount j = j) /\
  (forall c rt, cleanup c (cleanup c rt) = cleanup c rt) /\
  (forall c rt, ChampionshipDashboard.cleanup c (ChampionshipDashboard.cleanup c rt) =
                ChampionshipDashboard.cleanup c rt).
Proof.
  cbv zeta. split; [| split; [| split]].
  - unfold stopped.
    destruct (@unmount_clears (steps before (mount w)))
      as [Ht Hm]; [apply steps_owned, mount_owned |].
    change (step Unmount (steps before (mount w)))
      with (unmount (steps before (mount w))).
    destruct (@idle_steps after _ Ht Hm) as (Hs & Hc & _).
    repeat split; try assumption.
    change (step Unmount (unmount (steps before (mount w))))
      with (unmount (unmount (steps before (mount w)))).
    now apply unmount_idle.
  - unfold championship_stopped.
    destruct (@championship_quiet_steps after'
                (ChampionshipDashboard.step ChampionshipDashboard.Unmount
                   (ChampionshipDashboard.steps before'
                      (ChampionshipDashboard.mount w))))
      as (Hm & Hl & Hc).
    { apply championship_unmount_leaves.
      apply championship_steps_owned, championship_mount_owned. }
    repeat split; try assumption.
    simpl. unfold ChampionshipDashboard.unmount. simpl.
    now rewrite championship_cleanup_twice.
  - apply cleanup_twice.
  - apply championship_cleanup_twice.
Qed.

End Stop.

(* ================================================================= *)
(** ** Alert ids *)

Section Ids.

Import JS RealTimeDashboard Runs.
Local Open Scope Q_scope.












End Ids.

(* ================================================================= *)
(** ** The crisis hotspots *)

Section Hotspots.

Import WorldMap.
Local Open Scope Q_scope.
Local Open Scope string_scope.

Lemma step_keeps_hotspots (e : Event) (s : State) :
  crisisHotspots s = hotspots -> crisisHotspots (step e s) = hotspots.
Proof.
  intros H. destruct e; simpl; auto.
  destruct (nth_error (crisisHotspots s) n); simpl; exact H.
Qed.

Lemma steps_keep_hotspots (es : list Event) (s : State) :
  crisisHotspots s = hotspots -> crisisHotspots (steps es s) = hotspots.
Proof.
  revert s. induction es as [| e es IH]; intros s H; [exact H |].
  unfold steps in *. simpl. apply IH. now apply step_keeps_hotspots.
Qed.

(** C10: [generateCrisisHotspots] stores the same five hotspots
    whatever the state it is called in, with ids 1..5 and severities
    critical, high, high, medium, medium; it reads no random draw and
    no earlier state.  From mount on the displayed hotspots are that
    list after any sequence of refreshes, layer toggles and marker
    clicks, and a refresh leaves them as they are. *)
Theorem hotspots_are_constant (s1 s2 : State) (es : list Event) :
  crisisHotspots (generateCrisisHotspots s1) =
    crisisHotspots (generateCrisisHotspots s2) /\
  crisisHotspots (refreshData s1) = crisisHotspots (refreshData s2) /\
  List.length (crisisHotspots (generateCrisisHotspots s1)) = 5%nat /\
  map id (crisisHotspots (generateCrisisHotspots s1)) = [1; 2; 3; 4; 5] /\
  map severity (crisisHotspots (generateCrisisHotspots s1)) =
    ["critical"; "high"; "high"; "medium"; "medium"] /\
  crisisHotspots (steps es mount) = hotspots /\
  crisisHotspots (refreshData (steps es mount)) = crisisHotspots (steps es mount).
Proof.
  assert (H : crisisHotspots (steps es mount) = hotspots)
    by (apply steps_keep_hotspots; reflexivity).
  repeat split; try reflexivity; [exact H |].
  rewrite H. reflexivity.
Qed.

End Hotspots.

(* ================================================================= *)
(** ** Failing network calls *)

Section Fallbacks.

Import JS.
Local Open Scope string_scope.

(** C7: the failing input.  When [fetch] rejects, or the response body
    does not parse, [runPrediction] catches the error and substitutes
    nothing: the prediction is whatever it was before (null on a fresh
    component), only [isLoading] is reset, and the returned promise
    resolves.  The sibling handlers put their fixed fallback payload
    in place on the same failure. *)
Theorem runPrediction_has_no_fallback
  (e : string) (now : Z) (s : AdvancedAIPredictor.State) :
  let unchanged :=
    {| AdvancedAIPredictor.parameters := AdvancedAIPredictor.parameters s;
       AdvancedAIPredictor.prediction := AdvancedAIPredictor.prediction s;
       AdvancedAIPredictor.isLoading := false;
       AdvancedAIPredictor.predictionHistory :=
         AdvancedAIPredictor.predictionHistory s |} in
  settle (AdvancedAIPredictor.runPrediction (fun _ => Rejected e) now) s
    = (unchanged, Resolved tt) /\
  settle (AdvancedAIPredictor.runPrediction
            (fun _ => Resolved {| AdvancedAIPredictor.json := Rejected e |}) now) s
    = (unchanged, Resolved tt) /\
  AdvancedAIPredictor.prediction
    (fst (settle (AdvancedAIPredictor.runPrediction (fun _ => Rejected e) now)
            AdvancedAIPredictor.initialState)) = VNull /\
  (forall c,
      CrisisPredictor.prediction
        (fst (settle (CrisisPredictor.handlePredict (fun _ => Rejected e)) c))
      = CrisisPredictor.fallbackPrediction) /\
  (forall d,
      Dashboard.dashboardData
        (fst (settle (Dashboard.loadDashboardData (Rejected e)) d))
      = Dashboard.fallbackData) /\
  (forall x p,
      let x' := fst (settle (DataExplorer.loadData (Rejected e) p) x) in
      DataExplorer.climateData x' = DataExplorer.fallbackClimate /\
      DataExplorer.cropData x' = DataExplorer.fallbackCrops) /\
  (forall q,
      QuantumOptimizer.optimization
        (fst (settle (QuantumOptimizer.handleOptimize (fun _ => Rejected e)) q))
      = QuantumOptimizer.fallbackOptimization).
Proof.
  cbv zeta. repeat split; try reflexivity.
  intros q. unfold settle, QuantumOptimizer.handleOptimize.
  unfold try_finally, try_catch, bind, get, QuantumOptimizer.setLoading, modify.
  cbn [QuantumOptimizer.selectedScenario getProp QuantumOptimizer.scenarios ret].
  destruct (lookup (QuantumOptimizer.selectedScenario q) _) as [| | b | n | t | l | props];
    reflexivity.
Qed.

End Fallbacks.

(* ================================================================= *)
(** * Further properties *)

(* ================================================================= *)
(** ** What computations leave of the world *)

Section Sources.

Import JS RealTimeDashboard Runs Invariants.
Local Open Scope Q_scope.

Lemma keeps_ret {A} (a : A) : keeps_source (ret a).
Proof. intros w. simpl. auto. Qed.

Lemma keeps_throw {A} (e : string) : keeps_source (@throw World A e).
Proof. intros w. simpl. auto. Qed.

Lemma keeps_Math_random : keeps_source Math_random.
Proof. intros w. simpl. auto. Qed.

Lemma keeps_Date_now : keeps_source Date_now.
Proof. intros w. simpl. auto. Qed.

Lemma keeps_bind {A B} (m : M A) (k : A -> M B) :
  keeps_source m -> (forall a, keeps_source (k a)) -> keeps_source (bind m k).
Proof.
  intros Hm Hk w. unfold bind. specialize (Hm w).
  destruct (m w) as [[a | e] w1]; simpl in *; [| exact Hm].
  destruct Hm as (Hr & Hc & Hn). destruct (Hk a w1) as (Hr' & Hc' & Hn').
  repeat split; [congruence | congruence | lia].
Qed.

Lemma keeps_Array_from_aux {A} (f : nat -> M A) :
  (forall i, keeps_source (f i)) ->
  forall n i, keeps_source (Array_from_aux f i n).
Proof.
  intros Hf. induction n as [| n IH]; intros i; simpl.
  - apply keeps_ret.
  - apply keeps_bind; [apply Hf |]. intros x.
    apply keeps_bind; [apply IH |]. intros xs. apply keeps_ret.
Qed.

Ltac keeps_by known :=
  repeat first
    [ known | apply keeps_ret | apply keeps_throw | apply keeps_Math_random
    | apply keeps_Date_now | (apply keeps_bind; [| intros ?]) ].

Ltac keeps := keeps_by fail.

Lemma keeps_drawSeverity : keeps_source drawSeverity.
Proof.
  unfold drawSeverity. keeps. destruct (gt _ _); keeps.
Qed.

Lemma keeps_generateAlert : keeps_source generateAlert.
Proof.
  unfold generateAlert. keeps.
  destruct (index alertTypes _); keeps.
  destruct (gt _ _); keeps.
Qed.

Lemma keeps_generateMetricsData : keeps_source generateMetricsData.
Proof. unfold generateMetricsData. keeps. Qed.

Lemma keeps_jitterSystemMetrics (prev : SystemMetrics) :
  keeps_source (jitterSystemMetrics prev).
Proof. unfold jitterSystemMetrics. keeps. Qed.

Lemma keeps_run (cb : Callback) (s : State) : keeps_source (run cb s).
Proof.
  destruct cb; simpl.
  - unfold alertInterval_callback. keeps.
    destruct (gt _ _); keeps_by ltac:(exact keeps_generateAlert).
  - unfold metricsInterval_callback.
    keeps_by ltac:(first [ exact keeps_generateMetricsData
                         | exact (keeps_jitterSystemMetrics _) ]).
  - unfold connectionInterval_callback. keeps.
Qed.

Lemma keeps_seed (s : State) : keeps_source (seed s).
Proof.
  unfold seed, Array_from.
  apply keeps_bind;
    [apply keeps_Array_from_aux; intros _; exact keeps_generateAlert |].
  intros initialAlerts.
  apply keeps_bind; [| intros initialData; apply keeps_ret].
  apply keeps_Array_from_aux. intros i.
  keeps_by ltac:(exact keeps_generateMetricsData).
Qed.

Lemma keeps_championship_run (cb : ChampionshipDashboard.Callback)
      (s : ChampionshipDashboard.State) :
  keeps_source (ChampionshipDashboard.run cb s).
Proof.
  destruct cb; simpl.
  - unfold ChampionshipDashboard.interval_callback. keeps.
  - unfold ChampionshipDashboard.alertInterval_callback. keeps.
  - keeps.
Qed.

Lemma uniform_same_rng (w w' : World) :
  rng w' = rng w -> uniform_source w -> uniform_source w'.
Proof. intros E U n. rewrite E. apply U. Qed.

End Sources.

Section FireJoint.

Import JS.

Variables S C : Type.
Variable run : C -> S -> M S.

(** An invariant of state and world together survives a timer. *)
Lemma fire_joint (P : S -> World -> Prop) (h : nat) (rt : Runtime S C) :
  (forall cb s w, P s w ->
     match run cb s w with
     | (Normal s', w') => P s' w'
     | (Throw _, w') => P s w'
     end) ->
  P (state rt) (world rt) ->
  P (state (fire run h rt)) (world (fire run h rt)).
Proof.
  intros Hrun Hrt. unfold fire.
  destruct (pending h rt) as [t |]; [| exact Hrt].
  assert (Hinv : forall rt', state rt' = state rt -> world rt' = world rt ->
            P (state (invoke run (callback t) rt'))
              (world (invoke run (callback t) rt'))).
  { intros rt' Es Ew. unfold invoke.
    specialize (Hrun (callback t) (state rt') (world rt')).
    rewrite Es, Ew in *. specialize (Hrun Hrt).
    destruct (run (callback t) (state rt) (world rt)) as [[s' | e] w'];
      simpl; exact Hrun. }
  destruct (kind t); apply Hinv; reflexivity.
Qed.

End FireJoint.

(* ================================================================= *)
(** ** What the generators produce *)

Section Generators.

Import JS RealTimeDashboard Runs Invariants.
Local Open Scope Q_scope.

Lemma index_In {A} (arr : list A) (i : Q) (x : A) :
  index arr i = Some x -> In x arr.
Proof.
  unfold index. destruct (_ && _); [| discriminate].
  apply nth_error_In.
Qed.

(** A draw scaled by a positive whole number and floored is a whole
    number from 0 to that number less one. *)
Lemma floor_scaled_draw (r : Q) (n : Z) :
  unit_draw r -> (0 < n)%Z ->
  whole (Math_floor (r * inject_Z n)) /\
  0 <= Math_floor (r * inject_Z n) /\
  Math_floor (r * inject_Z n) <= inject_Z (n - 1).
Proof.
  intros [H0 H1] Hn.
  assert (Hx0 : 0 <= r * inject_Z n).
  { apply Qmult_le_0_compat; [assumption |].
    change 0 with (inject_Z 0). rewrite <- Zle_Qle. lia. }
  assert (Hx1 : r * inject_Z n < inject_Z n).
  { rewrite <- (Qmult_1_l (inject_Z n)) at 2.
    apply Qmult_lt_compat_r; [| assumption].
    change 0 with (inject_Z 0). rewrite <- Zlt_Qlt. lia. }
  split; [exists (Qfloor (r * inject_Z n)); reflexivity |].
  split.
  - apply (@Math_floor_ge 0). exact Hx0.
  - unfold Math_floor. rewrite <- Zle_Qle.
    assert (Qfloor (r * inject_Z n) < n)%Z; [| lia].
    rewrite Zlt_Qlt. eapply Qle_lt_trans; [apply Qfloor_le | exact Hx1].
Qed.

Lemma whole_plus (a b : Q) : whole a -> whole b -> whole (a + b).
Proof.
  intros [x Hx] [y Hy]. exists (x + y)%Z.
  rewrite Hx, Hy, inject_Z_plus. reflexivity.
Qed.

Lemma whole_inject (z : Z) : whole (inject_Z z).
Proof. exists z. reflexivity. Qed.

Lemma messages_nonempty (ty : AlertType) :
  In ty alertTypes -> messages ty <> [].
Proof.
  intros H. simpl in H.
  repeat (destruct H as [<- | H]; [discriminate |]). destruct H.
Qed.

Lemma generateAlert_from_catalogue (w : World) :
  uniform_source w ->
  exists a w',
    generateAlert w = (Normal a, w') /\
    from_catalogue a /\ read a = false /\ timestamp a = clock w.
Proof.
  intros U.
  destruct (@index_of_draw _ alertTypes (rng w (cursor w)) (U _))
    as [ty Hty]; [discriminate |].
  pose proof (index_In _ _ Hty) as Hin.
  destruct (@index_of_draw _ (messages ty) (rng w (S (cursor w))) (U _))
    as [m Hm]; [now apply messages_nonempty |].
  pose proof (index_In _ _ Hm) as Hmin.
  unfold generateAlert, bind, Math_random at 1. cbn [rng cursor clock].
  rewrite Hty.
  unfold drawSeverity, bind, Math_random, Date_now, ret.
  cbn [rng cursor clock]. rewrite Hm.
  destruct (gt (rng w (S (S (S (cursor w))))) 0.7);
    do 2 eexists; (split; [reflexivity |]);
    (split; [exists ty; cbn; repeat split; auto; exists m; auto
            | split; reflexivity]).
Qed.

(** X1: under draws in [0, 1) the generator never throws; the alert it
    returns is unread, stamped with the clock, and an entry of the
    catalogue: type, icon and colour of one alert type and one of
    that type's four messages. *)
Theorem generated_alert_from_catalogue (w : World) :
  uniform_source w ->
  exists a w',
    generateAlert w = (Normal a, w') /\
    from_catalogue a /\ message a <> None /\
    read a = false /\ timestamp a = clock w.
Proof.
  intros U.
  destruct (generateAlert_from_catalogue U) as (a & w' & G & Hc & Hr & Ht).
  exists a, w'. repeat split; auto.
  destruct Hc as (ty & _ & _ & _ & _ & m & Hm & _). congruence.
Qed.

(** The theorem at a source whose draws are all 0.3. *)
Lemma generated_alert_from_catalogue_witness :
  uniform_source all_three_tenths /\
  exists a w', generateAlert all_three_tenths = (Normal a, w') /\ read a = false.
Proof.
  assert (U : uniform_source all_three_tenths).
  { intros n. split; [discriminate | reflexivity]. }
  split; [exact U |].
  destruct (generated_alert_from_catalogue U) as (a & w' & G & _ & _ & Hr & _).
  exists a, w'. split; assumption.
Defined.

Lemma generateMetricsData_in_range (w : World) :
  uniform_source w ->
  exists d w',
    generateMetricsData w = (Normal d, w') /\
    sample_in_range d /\ data_timestamp d = clock w.
Proof.
  intros U. do 2 eexists. split; [reflexivity |]. split; [| reflexivity].
  cbn [ai_predictions quantum_operations crisis_score response_efficiency
       rng cursor clock].
  pose proof (@floor_scaled_draw _ 20 (U (cursor w)) eq_refl) as (W1 & L1 & H1).
  pose proof (@floor_scaled_draw _ 15 (U (S (cursor w))) eq_refl) as (W2 & L2 & H2).
  pose proof (@floor_scaled_draw _ 30 (U (S (S (cursor w)))) eq_refl) as (W3 & L3 & H3).
  pose proof (@floor_scaled_draw _ 20 (U (S (S (S (cursor w))))) eq_refl)
    as (W4 & L4 & H4).
  change (inject_Z 20) with 20 in *. change (inject_Z 15) with 15 in *.
  change (inject_Z 30) with 30 in *.
  change (inject_Z (20 - 1)) with 19 in *. change (inject_Z (15 - 1)) with 14 in *.
  change (inject_Z (30 - 1)) with 29 in *.
  repeat split;
    cbn [ai_predictions quantum_operations crisis_score response_efficiency];
    try (apply whole_plus; [assumption | apply (whole_inject _)]); lra.
Qed.

(** X2: under draws in [0, 1) every generated sample has whole-number
    fields within fixed ranges: ai_predictions 80..99,
    quantum_operations 25..39, crisis_score 40..69,
    response_efficiency 75..94; it consumes four draws. *)
Theorem generated_sample_in_range (w : World) :
  uniform_source w ->
  exists d w',
    generateMetricsData w = (Normal d, w') /\
    sample_in_range d /\
    cursor w' = (4 + cursor w)%nat.
Proof.
  intros U.
  destruct (generateMetricsData_in_range U) as (d & w' & G & Hr & _).
  exists d, w'. split; [exact G |]. split; [exact Hr |].
  unfold generateMetricsData, bind, Math_random, Date_now, ret in G.
  injection G as _ <-. reflexivity.
Qed.

(** The theorem at a source whose draws are all 0.3: the sample is
    86, 29, 49, 81. *)
Lemma generated_sample_in_range_witness :
  uniform_source all_three_tenths /\
  exists d w',
    generateMetricsData all_three_tenths = (Normal d, w') /\
    ai_predictions d == 86 /\ quantum_operations d == 29 /\
    crisis_score d == 49 /\ response_efficiency d == 81.
Proof.
  assert (U : uniform_source all_three_tenths).
  { intros n. split; [discriminate | reflexivity]. }
  split; [exact U |].
  destruct (generated_sample_in_range U) as (d & w' & G & _ & _).
  exists d, w'. split; [exact G |].
  vm_compute in G. injection G as <- _.
  repeat split; reflexivity.
Defined.

End Generators.

(* ================================================================= *)
(** ** Every state of a mounted RealTimeDashboard *)

Section Dashboard.

Import JS RealTimeDashboard Runs Invariants.
Local Open Scope Q_scope.

Lemma Array_from_aux_returns {A} (f : nat -> M A) (Good : A -> Prop)
      (Inv : World -> Prop) :
  (forall i w, Inv w -> exists x w', f i w = (Normal x, w') /\ Good x /\ Inv w') ->
  forall n i w, Inv w ->
    exists xs w', Array_from_aux f i n w = (Normal xs, w') /\
                  List.length xs = n /\ Forall Good xs /\ Inv w'.
Proof.
  intros Hf. induction n as [| n IH]; intros i w Hw; simpl.
  - exists [], w. repeat split; auto.
  - destruct (Hf i w Hw) as (x & w1 & Ex & Gx & H1).
    destruct (IH (S i) w1 H1) as (xs & w2 & Exs & Hl & Gxs & H2).
    exists (x :: xs), w2. unfold bind. rewrite Ex, Exs.
    repeat split; simpl; auto.
Qed.

Lemma seed_returns (w : World) (s : State) :
  uniform_source w ->
  exists s' w',
    seed s w = (Normal s', w') /\
    List.length (alerts s') = 3%nat /\
    Forall (fun a => from_catalogue a /\ read a = false) (alerts s') /\
    List.length (liveData s') = 10%nat /\
    Forall sample_in_range (liveData s') /\
    systemMetrics s' = systemMetrics s /\ isConnected s' = isConnected s.
Proof.
  intros U.
  destruct (@Array_from_aux_returns _ (fun _ : nat => generateAlert)
              (fun a => from_catalogue a /\ read a = false)
              (fun w' => rng w' = rng w)) with (n := 3%nat) (i := 0%nat) (w := w)
    as (l & w1 & El & Ll & Gl & H1); [| reflexivity |].
  { intros i v Hv.
    destruct (@generateAlert_from_catalogue v (@uniform_same_rng w v Hv U))
      as (a & v' & G & Hc & Hr & _).
    exists a, v'. repeat split; auto.
    destruct (keeps_generateAlert v) as (Hk & _). rewrite G in Hk. simpl in Hk.
    congruence. }
  set (g := fun i : nat =>
              bind generateMetricsData (fun d =>
              bind Date_now (fun now =>
              ret {| data_timestamp := (now - (9 - Z.of_nat i) * 60000)%Z;
                     ai_predictions := ai_predictions d;
                     quantum_operations := quantum_operations d;
                     crisis_score := crisis_score d;
                     response_efficiency := response_efficiency d |}))).
  destruct (@Array_from_aux_returns _ g sample_in_range
              (fun w' => rng w' = rng w)) with (n := 10%nat) (i := 0%nat) (w := w1)
    as (d & w2 & Ed & Ld & Gd & H2); [| exact H1 |].
  { intros i v Hv.
    destruct (@generateMetricsData_in_range v (@uniform_same_rng w v Hv U))
      as (x & v' & G & Hx & _).
    destruct (keeps_generateMetricsData v) as (Hk & _). rewrite G in Hk.
    simpl in Hk.
    eexists. exists v'. unfold g, bind, Date_now, ret. rewrite G.
    split; [reflexivity |]. split; [exact Hx | congruence]. }
  change (seed s w) with
    (bind (Array_from_aux (fun _ : nat => generateAlert) 0 3)
       (fun initialAlerts =>
          bind (Array_from_aux g 0 10)
            (fun initialData =>
               ret (setLiveData (fun _ => initialData)
                      (setAlerts (fun _ => initialAlerts) s)))) w).
  unfold bind at 1. rewrite El. unfold bind at 1. rewrite Ed.
  do 2 eexists. split; [reflexivity |]. simpl. repeat split; auto.
Qed.

(** Under draws in [0, 1) the effect goes through: the state is the
    seeded one and the cleanup is in place. *)
Lemma mount_seeded (w : World) :
  uniform_source w ->
  onUnmount (mount w) <> None /\
  mounted (mount w) = true /\
  rng (world (runtime (mount w))) = rng w /\
  List.length (alerts (state (runtime (mount w)))) = 3%nat /\
  Forall (fun a => from_catalogue a /\ read a = false)
         (alerts (state (runtime (mount w)))) /\
  List.length (liveData (state (runtime (mount w)))) = 10%nat /\
  Forall sample_in_range (liveData (state (runtime (mount w)))) /\
  systemMetrics (state (runtime (mount w))) = systemMetrics initialState.
Proof.
  intros U.
  destruct (seed_returns initialState U)
    as (s' & w' & E & H1 & H2 & H3 & H4 & H5 & _).
  destruct (keeps_seed initialState w) as (Hk & _). rewrite E in Hk. simpl in Hk.
  unfold mount, effect. cbn [state world timers nextHandle]. rewrite E. simpl.
  repeat split; auto. discriminate.
Qed.

Lemma step_rng (e : Event) (i : Instance) :
  rng (world (runtime (step e i))) = rng (world (runtime i)).
Proof.
  destruct e; simpl.
  - apply (@fire_joint _ _ run
             (fun _ v => rng v = rng (world (runtime i)))); [| reflexivity].
    intros cb s v Hv. destruct (keeps_run cb s v) as (Hk & _).
    destruct (run cb s v) as [[s' | e] v']; simpl in Hk; congruence.
  - reflexivity.
  - destruct (mounted i); reflexivity.
  - destruct (mounted i); reflexivity.
  - destruct (onUnmount i); reflexivity.
Qed.

Lemma after_snoc (w : World) (es : list Event) (e : Event) :
  after w (es ++ [e]) = step e (after w es).
Proof. unfold after, steps. now rewrite fold_left_app. Qed.

Lemma after_rng (w : World) (es : list Event) :
  rng (world (runtime (after w es))) = rng w.
Proof.
  induction es as [| e es IH] using rev_ind.
  - unfold after, steps. simpl.
    destruct (keeps_seed initialState w) as (Hk & _).
    unfold mount, effect. cbn [state world timers nextHandle].
    destruct (seed initialState w) as [[s' | x] w']; simpl in *; exact Hk.
  - rewrite after_snoc, step_rng. exact IH.
Qed.

(** What one event does to an invariant of the component state, when
    the draws are in [0, 1). *)
Lemma step_invariant (P : State -> Prop) (e : Event) (i : Instance) :
  uniform_source (world (runtime i)) ->
  (forall cb s v s' v',
      uniform_source v -> run cb s v = (Normal s', v') -> P s -> P s') ->
  (forall a s, P s -> P (dismissAlert a s)) ->
  (forall a s, P s -> P (markAsRead a s)) ->
  P (state (runtime i)) -> P (state (runtime (step e i))).
Proof.
  intros U Hrun Hdis Hread Hi. destruct e; simpl.
  - apply (@fire_joint _ _ run (fun s v => P s /\ uniform_source v)); [| auto].
    intros cb s v [Hs Hv]. destruct (keeps_run cb s v) as (Hk & _).
    destruct (run cb s v) as [[s' | x] v'] eqn:E; simpl in Hk;
      (split; [| exact (@uniform_same_rng v v' Hk Hv)]); [eapply Hrun; eauto | exact Hs].
  - exact Hi.
  - destruct (mounted i); simpl; auto.
  - destruct (mounted i); simpl; auto.
  - destruct (onUnmount i); exact Hi.
Qed.

Lemma after_invariant (P : State -> Prop) (w : World) :
  uniform_source w ->
  (forall cb s v s' v',
      uniform_source v -> run cb s v = (Normal s', v') -> P s -> P s') ->
  (forall a s, P s -> P (dismissAlert a s)) ->
  (forall a s, P s -> P (markAsRead a s)) ->
  P (state (runtime (mount w))) ->
  forall es, P (state_after w es).
Proof.
  intros U Hrun Hdis Hread H0 es. unfold state_after.
  induction es as [| e es IH] using rev_ind; [exact H0 |].
  rewrite after_snoc. apply step_invariant; auto.
  apply (@uniform_same_rng w _ (after_rng w es) U).
Qed.

(** What each callback does to the state when it returns. *)
Lemma alert_tick_returns (s s' : State) (v v' : World) :
  uniform_source v ->
  alertInterval_callback s v = (Normal s', v') ->
  liveData s' = liveData s /\ systemMetrics s' = systemMetrics s /\
  isConnected s' = isConnected s /\
  ((rng v (cursor v) <= 0.7 /\ alerts s' = alerts s /\
    cursor v' = S (cursor v)) \/
   (0.7 < rng v (cursor v) /\
    exists a, from_catalogue a /\ read a = false /\
              alerts s' = pushAlert a (alerts s))).
Proof.
  intros U H. unfold alertInterval_callback, bind, Math_random in H.
  cbn [rng cursor clock] in H.
  destruct (gt (rng v (cursor v)) 0.7) eqn:E.
  - set (v1 := {| rng := rng v; cursor := S (cursor v); clock := clock v |}) in *.
    destruct (@generateAlert_from_catalogue v1 (@uniform_same_rng v v1 eq_refl U))
      as (a & v2 & G & Hc & Hr & _).
    rewrite G in H. injection H as <- _. simpl.
    repeat split. right. split; [now apply gt_true |]. exists a. auto.
  - injection H as <- <-. repeat split. left.
    split; [now apply gt_false | auto].
Qed.

Lemma metrics_tick_returns (s s' : State) (v v' : World) :
  uniform_source v ->
  metricsInterval_callback s v = (Normal s', v') ->
  alerts s' = alerts s /\ isConnected s' = isConnected s /\
  cursor v' = (9 + cursor v)%nat /\
  (exists d, sample_in_range d /\ liveData s' = pushLiveData d (liveData s)) /\
  (exists w1, rng w1 = rng v /\ cursor w1 = (4 + cursor v)%nat /\
              jitterSystemMetrics (systemMetrics s) w1
                = (Normal (systemMetrics s'), v')).
Proof.
  intros U H. unfold metricsInterval_callback, bind in H.
  destruct (generateMetricsData_in_range U) as (d & v1 & G & Hd & _).
  assert (Hv1 : rng v1 = rng v /\ cursor v1 = (4 + cursor v)%nat).
  { unfold generateMetricsData, bind, Math_random, Date_now, ret in G.
    injection G as _ <-. split; reflexivity. }
  rewrite G in H. cbn [systemMetrics setLiveData] in H.
  destruct (jitterSystemMetrics_returns (systemMetrics s) v1)
    as (m & v2 & J & _ & _ & Hc & _).
  rewrite J in H. injection H as <- <-. simpl.
  destruct Hv1 as [Hr Hc1].
  repeat split; [lia | exists d; auto | exists v1; auto].
Qed.

Lemma connection_tick_returns (s s' : State) (v v' : World) :
  connectionInterval_callback s v = (Normal s', v') ->
  alerts s' = alerts s /\ liveData s' = liveData s /\
  systemMetrics s' = systemMetrics s /\
  isConnected s' = gt (rng v (cursor v)) 0.1 /\
  cursor v' = S (cursor v).
Proof.
  intros H. unfold connectionInterval_callback, bind, Math_random, ret in H.
  injection H as <- <-. repeat split.
Qed.



End Dashboard.

Section DashboardInvariants.

Import JS RealTimeDashboard Runs Invariants.
Local Open Scope Q_scope.

Lemma Forall_take {A} (P : A -> Prop) (n : nat) (l : list A) :
  Forall P l -> Forall P (firstn n l).
Proof.
  intros H. revert n. induction H as [| x l Hx _ IH]; intros [| n]; simpl;
    constructor; auto.
Qed.

Lemma Forall_drop {A} (P : A -> Prop) (n : nat) (l : list A) :
  Forall P l -> Forall P (skipn n l).
Proof.
  intros H. revert n. induction H as [| x l Hx Hl IH]; intros [| n]; simpl;
    auto.
Qed.

Lemma Forall_filter {A} (P : A -> Prop) (f : A -> bool) (l : list A) :
  Forall P l -> Forall P (filter f l).
Proof.
  induction 1 as [| x l Hx _ IH]; simpl; [constructor |].
  destruct (f x); auto.
Qed.

Lemma from_catalogue_acknowledged (e : Alert) :
  from_catalogue e -> from_catalogue (acknowledged e).
Proof. intros (ty & H). exists ty. exact H. Qed.

Lemma run_queues_in_order (cb : Callback) (s s' : State) (v v' : World) :
  uniform_source v -> run cb s v = (Normal s', v') ->
  queues_in_order s -> queues_in_order s'.
Proof.
  intros U H (Hl & Ha & Fl & Fa). unfold queues_in_order.
  destruct cb; simpl in H.
  - destruct (@alert_tick_returns s s' v v' U H)
      as (E1 & _ & _ & [(_ & E2 & _) | (_ & a & Hc & _ & E2)]);
      rewrite E1, E2.
    + repeat split; auto.
    + repeat split; auto.
      * unfold pushAlert, slice_to.
        change (List.length (a :: firstn 9 (alerts s)))
          with (S (List.length (firstn 9 (alerts s)))).
        rewrite length_firstn. lia.
      * constructor; [exact Hc | now apply Forall_take].
  - destruct (@metrics_tick_returns s s' v v' U H)
      as (E1 & _ & _ & (d & Hd & E2) & _).
    rewrite E1, E2. repeat split; auto.
    + rewrite pushLiveData_full by exact Hl.
      rewrite length_app. simpl. destruct (liveData s); simpl in *; lia.
    + unfold pushLiveData, slice_last. apply Forall_app. split.
      * now apply Forall_drop.
      * constructor; [exact Hd | constructor].
  - destruct (@connection_tick_returns s s' v v' H) as (E1 & E2 & _).
    rewrite E1, E2. auto.
Qed.

Lemma reachable_queues (w : World) (es : list Event) :
  uniform_source w -> queues_in_order (state_after w es).
Proof.
  intros U. apply after_invariant; auto.
  - intros cb s v s' v'. apply run_queues_in_order.
  - intros a s (Hl & Ha & Fl & Fa). repeat split; auto; simpl.
    + pose proof (filter_length_le
                    (fun alert => negb (strict_eq (id alert) a)) (alerts s)). lia.
    + now apply Forall_filter.
  - intros a s (Hl & Ha & Fl & Fa). repeat split; auto; simpl.
    + now rewrite length_map.
    + rewrite Forall_map. eapply Forall_impl; [| exact Fa].
      intros e He. destruct (strict_eq (id e) a); [| exact He].
      now apply from_catalogue_acknowledged.
  - destruct (@mount_seeded w U) as (_ & _ & _ & H1 & H2 & H3 & H4 & _).
    repeat split; auto; [lia |].
    eapply Forall_impl; [| exact H2]. intros e [He _]. exact He.
Qed.

(** X4: with draws in [0, 1) the effect always goes through, and from
    then on, whatever happens, the chart holds exactly ten samples and
    the feed at most ten alerts. *)
Theorem queues_stay_bounded (w : World) (es : list Event) :
  uniform_source w ->
  onUnmount (mount w) <> None /\
  List.length (liveData (state_after w es)) = 10%nat /\
  (List.length (alerts (state_after w es)) <= 10)%nat.
Proof.
  intros U. destruct (@reachable_queues w es U) as (H1 & H2 & _).
  destruct (@mount_seeded w U) as (H0 & _). auto.
Qed.

(** The theorem at draws of 0.3. *)
Lemma queues_stay_bounded_witness :
  uniform_source all_three_tenths /\
  List.length (liveData (state_after all_three_tenths
                           [TimerElapses 2; TimerElapses 1; TimerElapses 2]))
    = 10%nat.
Proof.
  assert (U : uniform_source all_three_tenths).
  { intros n. split; [discriminate | reflexivity]. }
  split; [exact U |].
  exact (proj1 (proj2 (@queues_stay_bounded all_three_tenths
           [TimerElapses 2; TimerElapses 1; TimerElapses 2] U))).
Defined.

(** X5: with draws in [0, 1), every sample ever shown in the chart has
    whole-number fields in the generator's ranges, and every alert
    ever shown in the feed is an entry of the catalogue (its message
    belongs to its type, with that type's icon and colour). *)
Theorem queues_hold_generated_data (w : World) (es : list Event) :
  uniform_source w ->
  Forall sample_in_range (liveData (state_after w es)) /\
  Forall from_catalogue (alerts (state_after w es)).
Proof.
  intros U. destruct (@reachable_queues w es U) as (_ & _ & H3 & H4). auto.
Qed.

(** The theorem at draws of 0.3. *)
Lemma queues_hold_generated_data_witness :
  uniform_source all_three_tenths /\
  Forall from_catalogue
    (alerts (state_after all_three_tenths [TimerElapses 1; ClickDismiss 0])).
Proof.
  assert (U : uniform_source all_three_tenths).
  { intros n. split; [discriminate | reflexivity]. }
  split; [exact U |].
  exact (proj2 (@queues_hold_generated_data all_three_tenths
           [TimerElapses 1; ClickDismiss 0] U)).
Defined.

(** *** Metrics the ticks never move, and counters that stay whole *)

Lemma whole_max (a b : Q) : whole a -> whole b -> whole (Math_max a b).
Proof.
  intros [x Hx] [y Hy]. unfold Math_max.
  destruct (Q.max_spec a b) as [[_ E] | [_ E]];
    [exists y | exists x]; now rewrite E.
Qed.

Lemma whole_min (a b : Q) : whole a -> whole b -> whole (Math_min a b).
Proof.
  intros [x Hx] [y Hy]. unfold Math_min.
  destruct (Q.min_spec a b) as [[_ E] | [_ E]];
    [exists x | exists y]; now rewrite E.
Qed.

Lemma jitter_steady (prev m' : SystemMetrics) (v v' : World) :
  jitterSystemMetrics prev v = (Normal m', v') ->
  uptime m' = uptime prev /\
  (whole (active_predictions prev) -> whole (active_predictions m')) /\
  (whole (crisis_alerts prev) -> whole (crisis_alerts m')).
Proof.
  intros H.
  destruct (jitterSystemMetrics_returns prev v) as (m & v1 & E & Hv & Hu & _).
  rewrite E in H. injection H as <- _.
  split; [exact Hu |].
  pose proof (Hv ActivePredictions) as HP. pose proof (Hv CrisisAlerts) as HC.
  cbn [value lo hi jitter delta] in HP, HC. rewrite HP, HC.
  split; intros Hw; unfold clamp;
    (apply whole_max; [apply (whole_inject _) |]);
    (apply whole_min; [apply (whole_inject _) |]);
    (apply whole_plus; [exact Hw | unfold Math_floor; apply (whole_inject _)]).
Qed.

Lemma run_steady (cb : Callback) (s s' : State) (v v' : World) :
  run cb s v = (Normal s', v') -> steady s -> steady s'.
Proof.
  intros H (Hu & Hp & Hc). unfold steady. destruct cb; simpl in H.
  - unfold alertInterval_callback, bind, Math_random in H.
    destruct (gt _ _).
    + destruct (generateAlert _) as [[a | e] v1]; [| discriminate].
      injection H as <- _. auto.
    + injection H as <- _. auto.
  - unfold metricsInterval_callback, bind in H.
    destruct (generateMetricsData v) as [[d | e] v1]; [| discriminate].
    cbn [systemMetrics setLiveData] in H.
    destruct (jitterSystemMetrics (systemMetrics s) v1) as [[m | e] v2] eqn:E;
      [| discriminate].
    injection H as <- _. simpl.
    destruct (@jitter_steady _ _ _ _ E) as (H1 & H2 & H3).
    repeat split; [rewrite H1; exact Hu | auto | auto].
  - injection H as <- _. auto.
Qed.

(** X6: whatever the draws and the events, the ticks never move
    [uptime] (it stays 99.8), and the two counters the dashboard prints
    unrounded, active_predictions and crisis_alerts, stay whole
    numbers. *)
Theorem uptime_fixed_counters_whole (w : World) (es : list Event) :
  uptime (systemMetrics (state_after w es)) = 99.8 /\
  whole (active_predictions (systemMetrics (state_after w es))) /\
  whole (crisis_alerts (systemMetrics (state_after w es))).
Proof.
  change 99.8 with (uptime (systemMetrics initialState)).
  apply (steps_invariant steady).
  - intros cb s v s' v'. apply run_steady.
  - intros a s H. exact H.
  - intros a s H. exact H.
  - assert (H0 : steady initialState).
    { repeat split; [exists 156%Z | exists 8%Z]; reflexivity. }
    destruct (mount_state w) as [[-> _] | (s' & w' & Hseed & ->)]; [exact H0 |].
    apply seed_systemMetrics in Hseed. destruct Hseed as [E _].
    unfold steady. rewrite E. exact H0.
Qed.

(** *** The crisis counter only goes down *)

Lemma reachable_within (w : World) (es : list Event) :
  within_clamp_ranges (systemMetrics (state_after w es)).
Proof.
  apply (steps_invariant (fun s => within_clamp_ranges (systemMetrics s))).
  - intros cb s w0 s' w' H. eapply run_within; eauto.
  - intros a s H. exact H.
  - intros a s H. exact H.
  - destruct (mount_state w) as [[-> _] | (s' & w' & Hseed & ->)].
    + apply initial_within.
    + apply seed_systemMetrics in Hseed. destruct Hseed as [-> _].
      apply initial_within.
Qed.

Lemma crisis_jitter_nonpositive (r : Q) :
  unit_draw r -> jitter CrisisAlerts r <= 0.
Proof.
  intros [H0 H1]. cbn [jitter delta]. unfold Math_floor.
  change 0 with (inject_Z 0). rewrite <- Zle_Qle.
  assert (Qfloor ((r - 0.5) * 2) < 1)%Z; [| lia].
  rewrite Zlt_Qlt. eapply Qle_lt_trans; [apply Qfloor_le |].
  unfold inject_Z. lra.
Qed.

Lemma clamp_not_above (p u l h : Q) :
  l <= p -> u <= 0 -> clamp (p + u) l h <= p.
Proof.
  intros Hp Hu. unfold clamp, Math_max, Math_min.
  apply Q.max_lub; [exact Hp |].
  eapply Qle_trans; [apply Q.le_min_r | lra].
Qed.

Lemma run_crisis_alerts (cb : Callback) (s s' : State) (v v' : World) :
  uniform_source v -> run cb s v = (Normal s', v') ->
  0 <= crisis_alerts (systemMetrics s) ->
  crisis_alerts (systemMetrics s') <= crisis_alerts (systemMetrics s).
Proof.
  intros U H Hp. destruct cb; simpl in H.
  - destruct (@alert_tick_returns s s' v v' U H) as (_ & -> & _). apply Qle_refl.
  - destruct (@metrics_tick_returns s s' v v' U H)
      as (_ & _ & _ & _ & (w1 & Hr & _ & J)).
    destruct (jitterSystemMetrics_returns (systemMetrics s) w1)
      as (m & v1 & E & Hv & _).
    rewrite E in J. injection J as <- _.
    pose proof (Hv CrisisAlerts) as HC. cbn [value lo hi] in HC. rewrite HC.
    apply clamp_not_above; [exact Hp |].
    apply crisis_jitter_nonpositive. rewrite Hr. apply U.
  - destruct (@connection_tick_returns s s' v v' H) as (_ & _ & -> & _). apply Qle_refl.
Qed.

(** X7: with draws in [0, 1) the crisis-alert counter never goes up:
    no event raises it, so it never exceeds its initial 8. *)
Theorem crisis_alerts_never_rise (w : World) (es : list Event) (e : Event) :
  uniform_source w ->
  crisis_alerts (systemMetrics (state_after w (es ++ [e]))) <=
    crisis_alerts (systemMetrics (state_after w es)) /\
  crisis_alerts (systemMetrics (state_after w es)) <= 8.
Proof.
  intros U.
  assert (Hstep : forall es e,
    crisis_alerts (systemMetrics (state_after w (es ++ [e]))) <=
    crisis_alerts (systemMetrics (state_after w es))).
  { clear es e. intros es e. unfold state_after. rewrite after_snoc.
    set (i := after w es).
    assert (Ui : uniform_source (world (runtime i)))
      by (apply (@uniform_same_rng w _ (after_rng w es) U)).
    assert (Hi : 0 <= crisis_alerts (systemMetrics (state (runtime i)))).
    { pose proof (reachable_within w es) as (_ & _ & _ & [H _] & _). exact H. }
    destruct e; simpl; try apply Qle_refl.
    - unfold fire. destruct (pending h (runtime i)) as [t |]; [| apply Qle_refl].
      assert (Hinv : forall rt', state rt' = state (runtime i) ->
                world rt' = world (runtime i) ->
                crisis_alerts (systemMetrics (state (invoke run (callback t) rt'))) <=
                crisis_alerts (systemMetrics (state (runtime i)))).
      { intros rt' Es Ew. unfold invoke. rewrite Es, Ew.
        destruct (run (callback t) (state (runtime i)) (world (runtime i)))
          as [[s' | x] v'] eqn:E; simpl; [| apply Qle_refl].
        eapply run_crisis_alerts; eauto. }
      destruct (kind t); apply Hinv; reflexivity.
    - destruct (mounted i); simpl; apply Qle_refl.
    - destruct (mounted i); simpl; apply Qle_refl.
    - destruct (onUnmount i); apply Qle_refl. }
  split; [apply Hstep |].
  induction es as [| e' es IH] using rev_ind.
  - unfold state_after, after, steps. simpl.
    destruct (mount_state w) as [[-> _] | (s' & w' & Hseed & ->)].
    + apply Qle_refl.
    + apply seed_systemMetrics in Hseed. destruct Hseed as [-> _]. apply Qle_refl.
  - eapply Qle_trans; [apply Hstep | exact IH].
Qed.

(** The theorem at draws of 0.3: a metrics tick takes the counter from
    8 to 7. *)
Lemma crisis_alerts_never_rise_witness :
  uniform_source all_three_tenths /\
  crisis_alerts (systemMetrics (state_after all_three_tenths [TimerElapses 2])) <=
    crisis_alerts (systemMetrics (state_after all_three_tenths [])) /\
  crisis_alerts (systemMetrics (state_after all_three_tenths [TimerElapses 2])) == 7.
Proof.
  assert (U : uniform_source all_three_tenths).
  { intros n. split; [discriminate | reflexivity]. }
  split; [exact U |].
  split.
  - exact (proj1 (@crisis_alerts_never_rise all_three_tenths [] (TimerElapses 2) U)).
  - vm_compute. reflexivity.
Defined.

End DashboardInvariants.

(* ================================================================= *)
(** ** The alert feed: badge and clicks *)

Section Feed.

Import JS RealTimeDashboard RealTimeDashboardView Runs Invariants.
Local Open Scope Q_scope.

Lemma Forall2_In_r {A} (R : A -> A -> Prop) (l l' : list A) (y : A) :
  Forall2 R l l' -> In y l' -> exists x, In x l /\ R x y.
Proof.
  induction 1 as [| a b l l' Hab _ IH]; intros Hy; [destruct Hy |].
  destruct Hy as [<- | Hy].
  - exists a. split; [now left | exact Hab].
  - destruct (IH Hy) as (x & Hx & Hr). exists x. split; [now right | exact Hr].
Qed.

Lemma strict_eq_true (a b : Q) : strict_eq a b = true <-> a == b.
Proof. unfold strict_eq. apply Qeq_bool_iff. Qed.

(** Acknowledging a list of ids leaves every alert carrying one of
    them read. *)
Lemma acknowledgeAll_reads (ids : list Q) (s : State) (e' : Alert) :
  In e' (alerts (acknowledgeAll ids s)) ->
  (exists x, In x ids /\ id e' == x) ->
  read e' = true.
Proof.
  revert s. induction ids as [| y ids IH]; intros s He' (x & Hx & Hid).
  - destruct Hx.
  - change (acknowledgeAll (y :: ids) s)
      with (acknowledgeAll ids (markAsRead y s)) in He'.
    destruct Hx as [<- | Hx]; [| apply (IH (markAsRead y s)); eauto].
    destruct (@Forall2_In_r _ _ _ _ _ (acknowledgeAll_Forall2 ids (markAsRead y s)) He')
      as (e & He & [Hsame Hkeep]).
    apply Hkeep.
    assert (Eid : id e' = id e) by (destruct Hsame as [-> | ->]; reflexivity).
    simpl in He. apply in_map_iff in He. destruct He as (e0 & <- & _).
    destruct (strict_eq (id e0) y) eqn:E; [reflexivity |].
    exfalso. apply strict_eq_false in E. apply E.
    rewrite <- Eid. exact Hid.
Qed.

Lemma filter_length_cons {A} (f : A -> bool) (a : A) (l : list A) :
  (List.length (filter f (a :: l)) <= S (List.length (filter f l)))%nat.
Proof. simpl. destruct (f a); simpl; lia. Qed.

Lemma filter_length_incl {A} (f : A -> bool) (n : nat) (l : list A) :
  (List.length (filter f (firstn n l)) <= List.length (filter f l))%nat.
Proof.
  revert n. induction l as [| a l IH]; intros [| n]; simpl; try lia.
  specialize (IH n). destruct (f a); simpl; lia.
Qed.

Lemma unread_after_filter (g : Alert -> bool) (l : list Alert) :
  (List.length (filter (fun alert => negb (read alert)) (filter g l)) <=
   List.length (filter (fun alert => negb (read alert)) l))%nat.
Proof.
  induction l as [| a l IH]; simpl; [lia |].
  destruct (g a); simpl; destruct (negb (read a)); simpl; lia.
Qed.

Lemma unread_after_mark (x : Q) (l : list Alert) :
  (List.length (filter (fun alert => negb (read alert))
     (map (fun alert => if strict_eq (id alert) x then acknowledged alert
                        else alert) l)) <=
   List.length (filter (fun alert => negb (read alert)) l))%nat.
Proof.
  induction l as [| a l IH]; simpl; [lia |].
  destruct (strict_eq (id a) x); simpl; destruct (negb (read a)); simpl; lia.
Qed.

(** X8: the "NEW" badge counts the unread alerts.  It never exceeds
    the length of the feed; marking an alert as read or dismissing one
    never raises it; a pushed alert raises it by at most one; and once
    every alert of the feed has been clicked the badge is at zero. *)
Theorem unread_badge (s : State) (x : Q) (a : Alert) :
  (unreadCount s <= List.length (alerts s))%nat /\
  (unreadCount (markAsRead x s) <= unreadCount s)%nat /\
  (unreadCount (dismissAlert x s) <= unreadCount s)%nat /\
  (unreadCount (setAlerts (pushAlert a) s) <= S (unreadCount s))%nat /\
  unreadCount (acknowledgeAll (map id (alerts s)) s) = 0%nat.
Proof.
  unfold unreadCount. repeat split.
  - apply filter_length_le.
  - apply unread_after_mark.
  - apply unread_after_filter.
  - simpl alerts. unfold pushAlert, slice_to.
    eapply Nat.le_trans; [apply filter_length_cons |].
    apply le_n_S, filter_length_incl.
  - destruct (filter _ (alerts (acknowledgeAll _ s))) as [| e' l] eqn:E;
      [reflexivity |]. exfalso.
    assert (He' : In e' (filter (fun alert => negb (read alert))
                    (alerts (acknowledgeAll (map id (alerts s)) s))))
      by (rewrite E; now left).
    apply filter_In in He'. destruct He' as [Hin Hunread].
    assert (Hr : read e' = true).
    { apply (@acknowledgeAll_reads _ _ _ Hin).
      destruct (@Forall2_In_r _ _ _ _ _ (acknowledgeAll_Forall2 (map id (alerts s)) s) Hin)
        as (e & He & [Hsame _]).
      exists (id e). split; [now apply in_map |].
      destruct Hsame as [-> | ->]; reflexivity. }
    rewrite Hr in Hunread. discriminate.
Qed.

Lemma mark_twice (x : Q) (e : Alert) :
  let f := fun alert => if strict_eq (id alert) x then acknowledged alert
                        else alert in
  f (f e) = f e.
Proof.
  cbv zeta. destruct (strict_eq (id e) x) eqn:E;
    rewrite ?E; cbv iota; change (id (acknowledged e)) with (id e);
    rewrite ?E; reflexivity.
Qed.

Lemma mark_mark (x y : Q) (e : Alert) :
  let f := fun z alert => if strict_eq (id alert) z then acknowledged alert
                          else alert in
  f x (f y e) = f y (f x e).
Proof.
  cbv zeta.
  destruct (strict_eq (id e) x) eqn:Ex; destruct (strict_eq (id e) y) eqn:Ey;
    rewrite ?Ex, ?Ey; cbv iota; change (id (acknowledged e)) with (id e);
    rewrite ?Ex, ?Ey; reflexivity.
Qed.

Lemma filter_swap {A} (f g : A -> bool) (l : list A) :
  filter f (filter g l) = filter g (filter f l).
Proof.
  induction l as [| a l IH]; [reflexivity |]. simpl.
  destruct (g a) eqn:Eg; destruct (f a) eqn:Ef; simpl;
    rewrite ?Eg, ?Ef, ?IH; reflexivity.
Qed.

Lemma filter_id_map_mark (x y : Q) (l : list Alert) :
  filter (fun alert => negb (strict_eq (id alert) x))
    (map (fun alert => if strict_eq (id alert) y then acknowledged alert
                       else alert) l) =
  map (fun alert => if strict_eq (id alert) y then acknowledged alert
                    else alert)
    (filter (fun alert => negb (strict_eq (id alert) x)) l).
Proof.
  induction l as [| a l IH]; [reflexivity |]. simpl.
  assert (E : id (if strict_eq (id a) y then acknowledged a else a) = id a)
    by (destruct (strict_eq (id a) y); reflexivity).
  rewrite E. destruct (negb (strict_eq (id a) x)); simpl; now rewrite IH.
Qed.

(** X9: the two clicks on the feed compose freely.  Marking the same
    id as read twice is marking it once; marking two ids, or
    dismissing two ids, gives the same feed in either order; and
    dismissing one id commutes with marking another (or the same) as
    read. *)
Theorem feed_clicks_commute (x y : Q) (s : State) :
  markAsRead x (markAsRead x s) = markAsRead x s /\
  markAsRead x (markAsRead y s) = markAsRead y (markAsRead x s) /\
  dismissAlert x (dismissAlert y s) = dismissAlert y (dismissAlert x s) /\
  dismissAlert x (markAsRead y s) = markAsRead y (dismissAlert x s).
Proof.
  unfold markAsRead, dismissAlert, setAlerts.
  cbn [alerts systemMetrics liveData isConnected].
  repeat split; f_equal.
  - rewrite map_map. apply map_ext. intros e. apply (mark_twice x e).
  - rewrite !map_map. apply map_ext. intros e. apply (mark_mark x y e).
  - apply filter_swap.
  - apply filter_id_map_mark.
Qed.

End Feed.

(* ================================================================= *)
(** ** Every state of a mounted ChampionshipDashboard *)

Section OneTimer.

Import JS.

Variables S C : Type.
Variable run : C -> S -> M S.

(** A timer that elapses runs at most one callback, once. *)
Lemma fire_once (R : S -> S -> Prop) (h : nat) (rt : Runtime S C) :
  R (state rt) (state rt) ->
  (forall t s' v',
      In t (timers rt) ->
      run (callback t) (state rt) (world rt) = (Normal s', v') ->
      R (state rt) s') ->
  R (state rt) (state (fire run h rt)).
Proof.
  intros Hrefl Hrun. unfold fire.
  destruct (pending h rt) as [t |] eqn:Ep; [| exact Hrefl].
  apply pending_In in Ep. destruct Ep as [Hin _].
  assert (Hinv : forall rt', state rt' = state rt -> world rt' = world rt ->
                             R (state rt) (state (invoke run (callback t) rt'))).
  { intros rt' Es Ew. unfold invoke. rewrite Es, Ew.
    destruct (run (callback t) (state rt) (world rt)) as [[s' | e] v'] eqn:E;
      simpl; [eapply Hrun; eauto | exact Hrefl]. }
  destruct (kind t); apply Hinv; reflexivity.
Qed.

End OneTimer.

Section Championship.

Import JS Runs Invariants.
Local Open Scope Q_scope.

Lemma championship_tick (s s' : ChampionshipDashboard.State) (v v' : World) :
  uniform_source v ->
  ChampionshipDashboard.interval_callback s v = (Normal s', v') ->
  let m := ChampionshipDashboard.metrics s in
  let m' := ChampionshipDashboard.metrics s' in
  ChampionshipDashboard.liveAlerts s' = ChampionshipDashboard.liveAlerts s /\
  ChampionshipDashboard.isLoading s' = ChampionshipDashboard.isLoading s /\
  (exists u, whole u /\ 0 <= u /\ u <= 2 /\
     ChampionshipDashboard.predictionsToday m' =
       ChampionshipDashboard.predictionsToday m + u) /\
  (exists u, whole u /\ 0 <= u /\ u <= 1 /\
     ChampionshipDashboard.quantumOptimizations m' =
       ChampionshipDashboard.quantumOptimizations m + u) /\
  (98.4 <= ChampionshipDashboard.systemHealth m' /\
   ChampionshipDashboard.systemHealth m' <= 99) /\
  ChampionshipDashboard.crisisAlertsActive m' =
    ChampionshipDashboard.crisisAlertsActive m /\
  ChampionshipDashboard.regionsMonitored m' =
    ChampionshipDashboard.regionsMonitored m /\
  ChampionshipDashboard.quantumAdvantage m' =
    ChampionshipDashboard.quantumAdvantage m.
Proof.
  intros U H. cbv zeta.
  unfold ChampionshipDashboard.interval_callback, bind, Math_random, ret in H.
  cbn [rng cursor clock] in H. injection H as <- _. simpl.
  pose proof (@floor_scaled_draw _ 3 (U (cursor v)) eq_refl) as (W1 & L1 & H1).
  pose proof (@floor_scaled_draw _ 2 (U (S (cursor v))) eq_refl) as (W2 & L2 & H2).
  change (inject_Z 3) with 3 in *. change (inject_Z 2) with 2 in *.
  change (inject_Z (3 - 1)) with 2 in *. change (inject_Z (2 - 1)) with 1 in *.
  destruct (U (S (S (cursor v)))) as [D0 D1].
  repeat split; try (eexists; repeat split; eauto; fail); lra.
Qed.

Lemma championship_run_sound (cb : ChampionshipDashboard.Callback)
      (s s' : ChampionshipDashboard.State) (v v' : World) :
  uniform_source v ->
  ChampionshipDashboard.run cb s v = (Normal s', v') ->
  championship_metrics_sound (ChampionshipDashboard.metrics s) ->
  championship_metrics_sound (ChampionshipDashboard.metrics s').
Proof.
  intros U H Hs. destruct cb; simpl in H.
  - destruct (@championship_tick s s' v v' U H)
      as (_ & _ & (u1 & W1 & L1 & _ & E1) & (u2 & W2 & L2 & _ & E2) &
          Hh & E3 & E4 & E5).
    destruct Hs as ((Wp & Lp) & (Wq & Lq) & _ & C1 & C2 & C3).
    unfold championship_metrics_sound. rewrite E1, E2, E3, E4, E5.
    repeat split; auto; try (now apply whole_plus); lra.
  - injection H as <- _. exact Hs.
  - injection H as <- _. exact Hs.
Qed.

Lemma championship_steps_snoc (es : list ChampionshipDashboard.Event)
      (e : ChampionshipDashboard.Event) (i : ChampionshipDashboard.Instance) :
  ChampionshipDashboard.steps (es ++ [e]) i =
  ChampionshipDashboard.step e (ChampionshipDashboard.steps es i).
Proof. unfold ChampionshipDashboard.steps. now rewrite fold_left_app. Qed.

Lemma championship_rng (w : World) (es : list ChampionshipDashboard.Event) :
  rng (world (ChampionshipDashboard.runtime
                (ChampionshipDashboard.steps es (ChampionshipDashboard.mount w))))
  = rng w.
Proof.
  induction es as [| e es IH] using rev_ind; [reflexivity |].
  rewrite championship_steps_snoc. rewrite <- IH.
  destruct e; simpl; try reflexivity.
  apply (@fire_joint _ _ ChampionshipDashboard.run
           (fun _ v => rng v =
              rng (world (ChampionshipDashboard.runtime
                (ChampionshipDashboard.steps es (ChampionshipDashboard.mount w))))));
    [| reflexivity].
  intros cb s v Hv. destruct (keeps_championship_run cb s v) as (Hk & _).
  destruct (ChampionshipDashboard.run cb s v) as [[s' | x] v']; simpl in Hk;
    congruence.
Qed.

Lemma championship_initial_sound :
  championship_metrics_sound
    (ChampionshipDashboard.metrics ChampionshipDashboard.initialState).
Proof.
  unfold championship_metrics_sound. simpl.
  repeat split; try (exists 0%Z; reflexivity); discriminate.
Qed.

(** X10: with draws in [0, 1), in every state of a mounted
    ChampionshipDashboard the two counters are whole and not negative,
    the system health lies between 98.4 and 99, both included (the
    program's rounded sum reaches 99 at the largest draws), and the
    ticks never touch the other three figures: crisisAlertsActive
    stays 0 (also once three live alerts are listed), regionsMonitored
    12 and quantumAdvantage 23.4. *)
Theorem championship_metrics_stay_sound
  (w : World) (es : list ChampionshipDashboard.Event) :
  uniform_source w ->
  championship_metrics_sound
    (ChampionshipDashboard.metrics (championship_after w es)).
Proof.
  intros U. unfold championship_after.
  induction es as [| e es IH] using rev_ind;
    [apply championship_initial_sound |].
  rewrite championship_steps_snoc.
  set (i := ChampionshipDashboard.steps es (ChampionshipDashboard.mount w)) in *.
  assert (Ui : uniform_source (world (ChampionshipDashboard.runtime i)))
    by (apply (@uniform_same_rng w _ (championship_rng w es) U)).
  destruct e; simpl; try exact IH.
  apply (@fire_once _ _ ChampionshipDashboard.run
           (fun _ s' => championship_metrics_sound
                          (ChampionshipDashboard.metrics s'))
           h (ChampionshipDashboard.runtime i)); [exact IH |].
  intros t s' v' _ Hr. eapply championship_run_sound; eauto.
Qed.

(** The theorem at draws of 0.3: one tick of the metrics interval. *)
Lemma championship_metrics_stay_sound_witness :
  uniform_source all_three_tenths /\
  championship_metrics_sound
    (ChampionshipDashboard.metrics
       (championship_after all_three_tenths [ChampionshipDashboard.TimerElapses 1])).
Proof.
  assert (U : uniform_source all_three_tenths).
  { intros n. split; [discriminate | reflexivity]. }
  split; [exact U |].
  exact (@championship_metrics_stay_sound all_three_tenths
           [ChampionshipDashboard.TimerElapses 1] U).
Defined.

(** X11: with draws in [0, 1) the two counters of
    ChampionshipDashboard never go down: an event adds 0, 1 or 2 to
    predictionsToday and 0 or 1 to quantumOptimizations. *)
Theorem championship_counters_grow
  (w : World) (es : list ChampionshipDashboard.Event)
  (e : ChampionshipDashboard.Event) :
  uniform_source w ->
  let m := ChampionshipDashboard.metrics (championship_after w es) in
  let m' := ChampionshipDashboard.metrics (championship_after w (es ++ [e])) in
  (exists u, whole u /\ 0 <= u /\ u <= 2 /\
     ChampionshipDashboard.predictionsToday m' ==
       ChampionshipDashboard.predictionsToday m + u) /\
  (exists u, whole u /\ 0 <= u /\ u <= 1 /\
     ChampionshipDashboard.quantumOptimizations m' ==
       ChampionshipDashboard.quantumOptimizations m + u).
Proof.
  intros U. cbv zeta. unfold championship_after.
  rewrite championship_steps_snoc.
  set (i := ChampionshipDashboard.steps es (ChampionshipDashboard.mount w)) in *.
  assert (Ui : uniform_source (world (ChampionshipDashboard.runtime i)))
    by (apply (@uniform_same_rng w _ (championship_rng w es) U)).
  assert (Hsame : forall s : ChampionshipDashboard.State,
    (exists u, whole u /\ 0 <= u /\ u <= 2 /\
       ChampionshipDashboard.predictionsToday (ChampionshipDashboard.metrics s) ==
       ChampionshipDashboard.predictionsToday (ChampionshipDashboard.metrics s) + u) /\
    (exists u, whole u /\ 0 <= u /\ u <= 1 /\
       ChampionshipDashboard.quantumOptimizations (ChampionshipDashboard.metrics s) ==
       ChampionshipDashboard.quantumOptimizations (ChampionshipDashboard.metrics s) + u)).
  { intros s. split; exists 0; (split; [exists 0%Z; reflexivity |]);
      repeat split; try discriminate; lra. }
  destruct e; simpl; try apply Hsame.
  apply (@fire_once _ _ ChampionshipDashboard.run
           (fun s s' =>
              (exists u, whole u /\ 0 <= u /\ u <= 2 /\
                 ChampionshipDashboard.predictionsToday (ChampionshipDashboard.metrics s') ==
                 ChampionshipDashboard.predictionsToday (ChampionshipDashboard.metrics s) + u) /\
              (exists u, whole u /\ 0 <= u /\ u <= 1 /\
                 ChampionshipDashboard.quantumOptimizations (ChampionshipDashboard.metrics s') ==
                 ChampionshipDashboard.quantumOptimizations (ChampionshipDashboard.metrics s) + u))
           h (ChampionshipDashboard.runtime i)); [apply Hsame |].
  intros t s' v' _ Hr. destruct (callback t); simpl in Hr.
  - destruct (@championship_tick _ s' _ v' Ui Hr)
      as (_ & _ & (u1 & W1 & L1 & M1 & E1) & (u2 & W2 & L2 & M2 & E2) & _).
    split; [exists u1 | exists u2]; repeat split; auto;
      [rewrite E1 | rewrite E2]; reflexivity.
  - injection Hr as <- _. simpl. apply Hsame.
  - injection Hr as <- _. simpl. apply Hsame.
Qed.

(** The theorem at draws of 0.3: a tick adds floor(0.9) = 0 to both. *)
Lemma championship_counters_grow_witness :
  uniform_source all_three_tenths /\
  exists u, 0 <= u /\ u <= 2 /\
    ChampionshipDashboard.predictionsToday
      (ChampionshipDashboard.metrics
         (championship_after all_three_tenths
            ([] ++ [ChampionshipDashboard.TimerElapses 1]))) ==
    ChampionshipDashboard.predictionsToday
      (ChampionshipDashboard.metrics (championship_after all_three_tenths [])) + u.
Proof.
  assert (U : uniform_source all_three_tenths).
  { intros n. split; [discriminate | reflexivity]. }
  split; [exact U |].
  destruct (@championship_counters_grow all_three_tenths []
              (ChampionshipDashboard.TimerElapses 1) U)
    as ((u & _ & H0 & H1 & E) & _).
  exists u. auto.
Defined.

End Championship.

Section ChampionshipLoading.

Import JS Runs Invariants.

Lemma championship_mount_loading (w : World) :
  loading_pending (ChampionshipDashboard.mount w) false.
Proof.
  unfold loading_pending. simpl. repeat split; auto.
  intros t [<- | [<- | [<- | []]]]; auto.
Qed.

Lemma championship_run_isLoading (cb : ChampionshipDashboard.Callback)
      (s s' : ChampionshipDashboard.State) (v v' : World) :
  ChampionshipDashboard.run cb s v = (Normal s', v') ->
  ChampionshipDashboard.isLoading s' =
    match cb with
    | ChampionshipDashboard.loadingDone => false
    | _ => ChampionshipDashboard.isLoading s
    end.
Proof.
  intros H. destruct cb; simpl in H.
  - unfold ChampionshipDashboard.interval_callback, bind, Math_random, ret in H.
    injection H as <- _. reflexivity.
  - injection H as <- _. reflexivity.
  - injection H as <- _. reflexivity.
Qed.

Lemma invoke_isLoading (cb : ChampionshipDashboard.Callback)
      (rt : ChampionshipDashboard.RT) :
  ChampionshipDashboard.isLoading
    (state (invoke ChampionshipDashboard.run cb rt)) =
  match cb with
  | ChampionshipDashboard.loadingDone => false
  | _ => ChampionshipDashboard.isLoading (state rt)
  end.
Proof.
  unfold invoke.
  destruct (ChampionshipDashboard.run cb (state rt) (world rt))
    as [[s' | e] v'] eqn:E; simpl.
  - now apply (championship_run_isLoading cb (state rt) (world rt) E).
  - destruct cb; simpl in E; discriminate.
Qed.

Lemma championship_step_loading (e : ChampionshipDashboard.Event)
      (i : ChampionshipDashboard.Instance) (fired : bool) :
  loading_pending i fired ->
  loading_pending (ChampionshipDashboard.step e i) (fired || elapses 3 e).
Proof.
  intros (Hall & Hin & Hload & Hc). destruct e as [h | dt |].
  - cbn [ChampionshipDashboard.step ChampionshipDashboard.runtime
         ChampionshipDashboard.onUnmount elapses].
    unfold fire.
    destruct (pending h (ChampionshipDashboard.runtime i)) as [t |] eqn:Ep.
    + destruct (pending_In _ _ Ep) as [Ht Hh].
      destruct (Hall t Ht) as [-> | [-> | ->]]; simpl in Hh; subst h;
        cbn [kind callback metrics_timer alerts_timer loading_timer Nat.eqb].
      * rewrite orb_false_r. unfold loading_pending.
        cbn [ChampionshipDashboard.runtime ChampionshipDashboard.onUnmount].
        rewrite invoke_timers, invoke_isLoading. auto.
      * rewrite orb_false_r. unfold loading_pending.
        cbn [ChampionshipDashboard.runtime ChampionshipDashboard.onUnmount].
        rewrite invoke_timers, invoke_isLoading. auto.
      * rewrite orb_true_r. unfold loading_pending.
        cbn [ChampionshipDashboard.runtime ChampionshipDashboard.onUnmount].
        rewrite invoke_timers, invoke_isLoading.
        repeat split; auto.
        -- intros t Ht'. apply clearInterval_timers in Ht'. apply Hall. tauto.
        -- intros Ht'. apply clearInterval_timers in Ht'.
           destruct Ht' as [_ Hne]. now contradiction Hne.
        -- discriminate.
    + assert (E : fired || (h =? 3)%nat = fired).
      { destruct (Nat.eqb_spec h 3) as [-> | _]; [| apply orb_false_r].
        destruct fired; [reflexivity |]. exfalso.
        assert (Ht : In loading_timer (timers (ChampionshipDashboard.runtime i)))
          by (now apply Hin).
        unfold pending in Ep.
        apply (find_none _ _ Ep) in Ht. discriminate Ht. }
      rewrite E. unfold loading_pending. auto.
  - cbn [elapses]. rewrite orb_false_r. unfold loading_pending. simpl. auto.
  - cbn [elapses]. rewrite orb_false_r. unfold loading_pending.
    cbn [ChampionshipDashboard.step ChampionshipDashboard.unmount
         ChampionshipDashboard.runtime ChampionshipDashboard.onUnmount].
    rewrite Hc. unfold ChampionshipDashboard.cleanup.
    cbn [ChampionshipDashboard.interval ChampionshipDashboard.alertInterval].
    repeat split; auto.
    + intros t Ht.
      apply clearInterval_timers in Ht. destruct Ht as [Ht _].
      apply clearInterval_timers in Ht. destruct Ht as [Ht _]. auto.
    + intros Ht. apply Hin.
      apply clearInterval_timers in Ht. destruct Ht as [Ht _].
      apply clearInterval_timers in Ht. destruct Ht as [Ht _]. exact Ht.
    + intros Hf. apply clearInterval_timers. split; [| discriminate].
      apply clearInterval_timers. split; [| discriminate]. now apply Hin.
Qed.

Lemma championship_steps_loading (es : list ChampionshipDashboard.Event)
      (i : ChampionshipDashboard.Instance) (fired : bool) :
  loading_pending i fired ->
  loading_pending (ChampionshipDashboard.steps es i)
                  (fired || existsb (elapses 3) es).
Proof.
  revert i fired. induction es as [| e es IH]; intros i fired H.
  - simpl. now rewrite orb_false_r.
  - unfold ChampionshipDashboard.steps in *. simpl fold_left. simpl existsb.
    rewrite orb_assoc. apply IH. now apply championship_step_loading.
Qed.

Lemma championship_alerts_latch (es : list ChampionshipDashboard.Event)
      (i : ChampionshipDashboard.Instance) :
  ChampionshipDashboard.liveAlerts (state (ChampionshipDashboard.runtime i))
    = ChampionshipDashboard.alerts ->
  ChampionshipDashboard.liveAlerts
    (state (ChampionshipDashboard.runtime (ChampionshipDashboard.steps es i)))
    = ChampionshipDashboard.alerts.
Proof.
  revert i. induction es as [| e es IH]; intros i Hi; [exact Hi |].
  unfold ChampionshipDashboard.steps in *. simpl fold_left. apply IH.
  destruct e; simpl; [| exact Hi | exact Hi].
  apply (@fire_state _ _ ChampionshipDashboard.run
           (fun s => ChampionshipDashboard.liveAlerts s
                     = ChampionshipDashboard.alerts)); [| exact Hi].
  intros t s v s' v' _ Hr Hs. destruct (callback t); simpl in Hr.
  - unfold ChampionshipDashboard.interval_callback, bind, Math_random, ret in Hr.
    injection Hr as <- _. exact Hs.
  - injection Hr as <- _. reflexivity.
  - injection Hr as <- _. exact Hs.
Qed.

(** X12: the loading screen of ChampionshipDashboard is up exactly
    until the one-shot timer (handle 3) elapses for the first time,
    whatever else happens: the cleanup does not cancel that timer, so
    its callback still calls setIsLoading(false) when it elapses after
    unmount, and nothing raises the flag again.  The live alerts, once
    listed, stay listed. *)
Theorem championship_loading_once
  (w : World) (es es' : list ChampionshipDashboard.Event) :
  ChampionshipDashboard.isLoading (championship_after w es)
    = negb (existsb (elapses 3) es) /\
  (ChampionshipDashboard.liveAlerts (championship_after w es)
     = ChampionshipDashboard.alerts ->
   ChampionshipDashboard.liveAlerts (championship_after w (es ++ es'))
     = ChampionshipDashboard.alerts).
Proof.
  split.
  - destruct (championship_steps_loading es (championship_mount_loading w))
      as (_ & _ & H & _).
    exact H.
  - unfold championship_after, ChampionshipDashboard.steps.
    rewrite fold_left_app. apply championship_alerts_latch.
Qed.

(** The theorem on a run where the alert interval ticks before the
    unmount and the loading timer after it. *)
Lemma championship_loading_once_witness :
  let es := [ChampionshipDashboard.TimerElapses 2; ChampionshipDashboard.Unmount] in
  let es' := [ChampionshipDashboard.TimerElapses 3] in
  ChampionshipDashboard.liveAlerts (championship_after all_three_tenths es)
    = ChampionshipDashboard.alerts /\
  ChampionshipDashboard.liveAlerts (championship_after all_three_tenths (es ++ es'))
    = ChampionshipDashboard.alerts /\
  ChampionshipDashboard.isLoading (championship_after all_three_tenths es) = true /\
  ChampionshipDashboard.isLoading (championship_after all_three_tenths (es ++ es'))
    = false.
Proof.
  cbv zeta.
  assert (H : ChampionshipDashboard.liveAlerts
                (championship_after all_three_tenths
                   [ChampionshipDashboard.TimerElapses 2;
                    ChampionshipDashboard.Unmount])
              = ChampionshipDashboard.alerts) by reflexivity.
  split; [exact H |].
  split.
  - exact (proj2 (championship_loading_once all_three_tenths
             [ChampionshipDashboard.TimerElapses 2; ChampionshipDashboard.Unmount]
             [ChampionshipDashboard.TimerElapses 3]) H).
  - split; reflexivity.
Defined.

End ChampionshipLoading.

(* ================================================================= *)
(** ** WorldMap: markers, layers and the selection *)

Section Markers.

Import Invariants.
Local Open Scope Q_scope.

(** In exact arithmetic the 800 by 400 drawing size cancels. *)
Lemma left_linear (c : WorldMap.Hotspot) :
  WorldMapView.left c == (WorldMap.lng (WorldMap.coordinates c) + 180) * (5 # 18).
Proof.
  unfold WorldMapView.left, WorldMapView.x. field.
Qed.

Lemma top_linear (c : WorldMap.Hotspot) :
  WorldMapView.top c == (90 - WorldMap.lat (WorldMap.coordinates c)) * (5 # 9).
Proof.
  unfold WorldMapView.top, WorldMapView.y. field.
Qed.

Lemma in_range_on_map (c : WorldMap.Hotspot) : in_range c -> on_map c.
Proof.
  unfold in_range, on_map. rewrite left_linear, top_linear. lra.
Qed.

Lemma hotspots_in_range : Forall in_range WorldMap.hotspots.
Proof.
  unfold WorldMap.hotspots.
  repeat (apply Forall_cons; [unfold in_range; simpl; lra |]).
  apply Forall_nil.
Qed.

(** X13: a hotspot with a longitude in [-180, 180] and a latitude in
    [-90, 90] has its marker inside the map's box, with both
    percentages between 0 and 100; a hotspot that is not further west
    is not drawn further left, and one that is not further south is
    not drawn further down.  The order is stated weakly: each step of
    the computation keeps the order but, rounded as the program
    computes it, close coordinates can share a percentage. *)
Theorem marker_projection (c d : WorldMap.Hotspot) :
  in_range c ->
  on_map c /\
  (WorldMap.lng (WorldMap.coordinates c) <= WorldMap.lng (WorldMap.coordinates d) ->
   WorldMapView.left c <= WorldMapView.left d) /\
  (WorldMap.lat (WorldMap.coordinates c) <= WorldMap.lat (WorldMap.coordinates d) ->
   WorldMapView.top d <= WorldMapView.top c).
Proof.
  intros H. split; [now apply in_range_on_map |].
  rewrite !left_linear, !top_linear. split; lra.
Qed.

(** The theorem at the first and the last hotspot of the list. *)
Lemma marker_projection_witness :
  exists c d,
    nth_error WorldMap.hotspots 0 = Some c /\
    nth_error WorldMap.hotspots 4 = Some d /\
    in_range c /\
    on_map c /\
    WorldMapView.left c <= WorldMapView.left d /\
    ~ WorldMap.lat (WorldMap.coordinates c) <= WorldMap.lat (WorldMap.coordinates d).
Proof.
  eexists. eexists.
  split; [reflexivity |]. split; [reflexivity |].
  match goal with
  | |- in_range ?c /\ _ /\ _ <= WorldMapView.left ?d /\ _ =>
      assert (H : in_range c) by (unfold in_range; simpl; lra);
      pose proof (@marker_projection c d H) as P
  end.
  split; [exact H |].
  split; [| split].
  - exact (proj1 P).
  - apply (proj1 (proj2 P)). simpl. lra.
  - simpl. lra.
Defined.

(** X14: every marker the map ever draws lies inside the map's box:
    after any run of refreshes, layer toggles and marker clicks, each
    displayed hotspot is projected to percentages between 0 and 100. *)
Theorem displayed_markers_on_map (es : list WorldMap.Event) (c : WorldMap.Hotspot) :
  In c (WorldMap.crisisHotspots (WorldMap.steps es WorldMap.mount)) ->
  on_map c.
Proof.
  rewrite (@steps_keep_hotspots es WorldMap.mount eq_refl).
  intros H. apply in_range_on_map.
  exact (proj1 (Forall_forall _ _) hotspots_in_range c H).
Qed.

(** The theorem at the third hotspot, after a refresh. *)
Lemma displayed_markers_on_map_witness :
  exists c,
    nth_error (WorldMap.crisisHotspots
                 (WorldMap.steps [WorldMap.ClickRefresh; WorldMap.RefreshResumes]
                                 WorldMap.mount)) 2 = Some c /\
    on_map c.
Proof.
  eexists. split; [reflexivity |].
  apply (@displayed_markers_on_map [WorldMap.ClickRefresh; WorldMap.RefreshResumes]).
  simpl. right. right. left. reflexivity.
Defined.

End Markers.

Section Layers.

Import Invariants.

Lemma layer_on_toggle (l l' : WorldMap.Layer) (s : WorldMap.State) :
  layer_on l (WorldMap.mapLayers (WorldMap.toggleLayer l' s)) =
  xorb (same_layer l l') (layer_on l (WorldMap.mapLayers s)).
Proof.
  destruct l, l'; simpl; try reflexivity;
    destruct (WorldMap.mapLayers s); simpl;
    match goal with |- negb ?b = _ => destruct b; reflexivity end.
Qed.

Lemma layer_on_step (l : WorldMap.Layer) (e : WorldMap.Event) (s : WorldMap.State) :
  layer_on l (WorldMap.mapLayers (WorldMap.step e s)) =
  xorb (Nat.odd (clicks l [e])) (layer_on l (WorldMap.mapLayers s)).
Proof.
  destruct e as [| | l' | n]; try reflexivity.
  - unfold clicks. cbn [WorldMap.step filter].
    rewrite layer_on_toggle. now destruct (same_layer l l').
  - cbn [WorldMap.step].
    destruct (nth_error (WorldMap.crisisHotspots s) n); reflexivity.
Qed.

Lemma clicks_cons (l : WorldMap.Layer) (e : WorldMap.Event) (es : list WorldMap.Event) :
  clicks l (e :: es) = (clicks l [e] + clicks l es)%nat.
Proof.
  unfold clicks. cbn [filter].
  destruct e as [| | l' | n]; try reflexivity.
  destruct (same_layer l l'); reflexivity.
Qed.

Lemma layer_on_steps (l : WorldMap.Layer) (es : list WorldMap.Event) (s : WorldMap.State) :
  layer_on l (WorldMap.mapLayers (WorldMap.steps es s)) =
  xorb (Nat.odd (clicks l es)) (layer_on l (WorldMap.mapLayers s)).
Proof.
  revert s. induction es as [| e es IH]; intros s.
  - reflexivity.
  - unfold WorldMap.steps in *. cbn [fold_left].
    rewrite IH, layer_on_step, (clicks_cons l e es), Nat.odd_add.
    destruct (Nat.odd (clicks l [e])), (Nat.odd (clicks l es)),
             (layer_on l (WorldMap.mapLayers s)); reflexivity.
Qed.

(** X15: a map layer is switched on exactly when its button has been
    clicked an even number of times since mount, whatever else was
    clicked in between; toggling the same layer twice restores the
    state, and toggles of two layers commute. *)
Theorem layers_follow_click_parity
  (l l' : WorldMap.Layer) (es : list WorldMap.Event) (s : WorldMap.State) :
  layer_on l (WorldMap.mapLayers (WorldMap.steps es WorldMap.mount))
    = Nat.even (clicks l es) /\
  WorldMap.toggleLayer l (WorldMap.toggleLayer l s) = s /\
  WorldMap.toggleLayer l (WorldMap.toggleLayer l' s)
    = WorldMap.toggleLayer l' (WorldMap.toggleLayer l s).
Proof.
  split; [| split].
  - rewrite layer_on_steps, <- Nat.negb_odd.
    destruct l; simpl; now destruct (Nat.odd _).
  - destruct s as [h c [a b p f] ld].
    destruct l; unfold WorldMap.toggleLayer, WorldMap.setMapLayers; simpl;
      rewrite negb_involutive; reflexivity.
  - destruct l, l'; reflexivity.
Qed.

End Layers.

Section Selection.

Import Invariants.

Lemma step_selection (e : WorldMap.Event) (s : WorldMap.State) :
  WorldMap.crisisHotspots s = WorldMap.hotspots ->
  selection_displayed s ->
  selection_displayed (WorldMap.step e s).
Proof.
  intros Hh Hs. destruct e as [| | l | n]; try exact Hs.
  cbn [WorldMap.step].
  destruct (nth_error (WorldMap.crisisHotspots s) n) as [c |] eqn:E; [| exact Hs].
  unfold selection_displayed, WorldMap.setSelectedCrisis.
  cbn [WorldMap.selectedCrisis]. rewrite <- Hh.
  exact (nth_error_In _ _ E).
Qed.

Lemma steps_selection (es : list WorldMap.Event) (s : WorldMap.State) :
  WorldMap.crisisHotspots s = WorldMap.hotspots ->
  selection_displayed s ->
  selection_displayed (WorldMap.steps es s).
Proof.
  revert s. induction es as [| e es IH]; intros s Hh Hs; [exact Hs |].
  unfold WorldMap.steps in *. cbn [fold_left]. apply IH.
  - now apply step_keeps_hotspots.
  - now apply step_selection.
Qed.

(** X16: the detail panel of WorldMap shows nothing or one of the
    five hotspots, after any run of refreshes, layer toggles and marker
    clicks; a click on the n-th marker selects the n-th hotspot of the
    list, and a refresh keeps the selection. *)
Theorem selection_is_displayed (es : list WorldMap.Event) (n : nat) :
  let s := WorldMap.steps es WorldMap.mount in
  selection_displayed s /\
  WorldMap.selectedCrisis (WorldMap.step (WorldMap.ClickHotspot n) s)
    = match nth_error WorldMap.hotspots n with
      | Some c => Some c
      | None => WorldMap.selectedCrisis s
      end /\
  WorldMap.selectedCrisis (WorldMap.refreshData s) = WorldMap.selectedCrisis s.
Proof.
  cbv zeta. split; [| split].
  - apply steps_selection; [reflexivity | exact I].
  - cbn [WorldMap.step].
    rewrite (@steps_keep_hotspots es WorldMap.mount eq_refl).
    destruct (nth_error WorldMap.hotspots n); reflexivity.
  - reflexivity.
Qed.

End Selection.

(* ================================================================= *)
(** ** The request handlers *)

Section Handlers.

Import JS Invariants.
Local Open Scope string_scope.

(** X17: whatever the network does, the handlers of CrisisPredictor,
    Dashboard and DataExplorer end with their loading flag down and
    never reject: each stores what its request resolved to, and its
    fallback exactly when the request was rejected; the sliders of
    CrisisPredictor are left as they were. *)
Theorem handlers_always_settle
  (predictYield : Value -> Promise Value) (getDashboardData : Promise Value)
  (getClimateData getCropData : Promise Value)
  (c : CrisisPredictor.State) (d : Dashboard.State) (x : DataExplorer.State) :
  let c' := settle (CrisisPredictor.handlePredict predictYield) c in
  let d' := settle (Dashboard.loadDashboardData getDashboardData) d in
  let x' := settle (DataExplorer.loadData getClimateData getCropData) x in
  (snd c' = Resolved tt /\
   CrisisPredictor.loading (fst c') = false /\
   CrisisPredictor.rainfall (fst c') = CrisisPredictor.rainfall c /\
   CrisisPredictor.temperature (fst c') = CrisisPredictor.temperature c /\
   CrisisPredictor.region (fst c') = CrisisPredictor.region c /\
   CrisisPredictor.prediction (fst c') =
     match predictYield
             (VObj [ ("rainfall_mm", CrisisPredictor.first (CrisisPredictor.rainfall c));
                     ("temperature", CrisisPredictor.first (CrisisPredictor.temperature c));
                     ("region", VStr (CrisisPredictor.region c)) ]) with
     | Resolved result => result
     | Rejected _ => CrisisPredictor.fallbackPrediction
     end) /\
  (snd d' = Resolved tt /\
   Dashboard.loading (fst d') = false /\
   Dashboard.dashboardData (fst d') =
     match getDashboardData with
     | Resolved data => data
     | Rejected _ => Dashboard.fallbackData
     end) /\
  (snd x' = Resolved tt /\ DataExplorer.loading (fst x') = false).
Proof.
  cbv zeta. split; [| split].
  - unfold settle, CrisisPredictor.handlePredict, try_finally, try_catch, bind,
      get, CrisisPredictor.setLoading, CrisisPredictor.setPrediction, modify.
    cbn [CrisisPredictor.rainfall CrisisPredictor.temperature CrisisPredictor.region].
    destruct (predictYield _) as [result | e]; repeat split; reflexivity.
  - destruct getDashboardData as [data | e]; repeat split; reflexivity.
  - destruct getClimateData as [[| | b | n | t | l | props] | e],
             getCropData as [[| | b' | n' | t' | l' | props'] | e'];
      split; reflexivity.
Qed.

Lemma or_else_truthy (a b : Value) :
  DataExplorer.truthy b = true ->
  DataExplorer.truthy (DataExplorer.or_else a b) = true.
Proof.
  intros H. unfold DataExplorer.or_else.
  destruct (DataExplorer.truthy a) eqn:E; [exact E | exact H].
Qed.

(** X18: [loadData] never mixes real and demo data.  When both
    requests resolve to values whose [data] can be read, the two
    tables are those fields, an empty array standing in for a falsy
    one; in every other case, also when only the second answer is
    unreadable and the first table was already set, both tables are
    the fallbacks.  Either way both tables are truthy. *)
Theorem loadData_never_mixes
  (getClimateData getCropData : Promise Value) (x : DataExplorer.State) :
  let x' := fst (settle (DataExplorer.loadData getClimateData getCropData) x) in
  match getClimateData, getCropData with
  | Resolved climate, Resolved crops =>
      if nullish climate || nullish crops then
        DataExplorer.climateData x' = DataExplorer.fallbackClimate /\
        DataExplorer.cropData x' = DataExplorer.fallbackCrops
      else
        DataExplorer.climateData x'
          = DataExplorer.or_else (prop climate "data") (VArr []) /\
        DataExplorer.cropData x'
          = DataExplorer.or_else (prop crops "data") (VArr [])
  | _, _ =>
      DataExplorer.climateData x' = DataExplorer.fallbackClimate /\
      DataExplorer.cropData x' = DataExplorer.fallbackCrops
  end /\
  DataExplorer.truthy (DataExplorer.climateData x') = true /\
  DataExplorer.truthy (DataExplorer.cropData x') = true.
Proof.
  cbv zeta.
  destruct getClimateData as [[| | b | n | t | l | props] | e],
           getCropData as [[| | b' | n' | t' | l' | props'] | e'];
    (split; [split; reflexivity |]);
    (split; first [reflexivity | apply or_else_truthy; reflexivity]).
Qed.

End Handlers.

Section PredictionHistory.

Import JS Invariants.
Local Open Scope string_scope.

Lemma slice_last_push {A} (e : A) (q : list A) :
  (slice_last 9 q ++ [e])%list = slice_last 10 (q ++ [e]).
Proof.
  unfold slice_last.
  rewrite length_app, skipn_app. simpl.
  replace (List.length q + 1 - 10)%nat with (List.length q - 9)%nat by lia.
  replace (List.length q - 9 - List.length q)%nat with 0%nat by lia.
  reflexivity.
Qed.

Lemma displayable_object (result : Value) :
  displayable result = true -> exists props, result = VObj props.
Proof.
  destruct result; try discriminate. intros _. eexists. reflexivity.
Qed.

(** One call: the flag comes down, the sliders stay, the prediction is
    the parsed body if there is one, and the history takes the entry
    the call stands for. *)
Lemma runPrediction_records
  (c : (Value -> Promise AdvancedAIPredictor.Response) * Z)
  (s : AdvancedAIPredictor.State) :
  displayable_body c ->
  let s' := fst (settle (AdvancedAIPredictor.runPrediction (fst c) (snd c)) s) in
  AdvancedAIPredictor.parameters s' = AdvancedAIPredictor.parameters s /\
  AdvancedAIPredictor.isLoading s' = false /\
  AdvancedAIPredictor.predictionHistory s' =
    match recorded (AdvancedAIPredictor.parameters s) c with
    | [] => AdvancedAIPredictor.predictionHistory s
    | e :: _ =>
        (slice_last 9 (AdvancedAIPredictor.predictionHistory s) ++ [e])%list
    end /\
  (shows_prediction s -> shows_prediction s').
Proof.
  intros Hc. cbv zeta.
  unfold settle, AdvancedAIPredictor.runPrediction, try_catch, bind, get,
    AdvancedAIPredictor.setIsLoading, AdvancedAIPredictor.setPrediction,
    AdvancedAIPredictor.setPredictionHistory, modify, recorded, shows_prediction.
  cbn [AdvancedAIPredictor.parameters].
  destruct (fst c (AdvancedAIPredictor.body (AdvancedAIPredictor.parameters s)))
    as [r | e] eqn:Ef; [| repeat split; auto].
  specialize (Hc _ _ Ef).
  cbn -[slice_last displayable].
  destruct (AdvancedAIPredictor.json r) as [result | e];
    [| repeat split; auto].
  destruct (displayable_object _ Hc) as [props ->].
  cbn -[slice_last displayable]. repeat split. intros _. right. exact Hc.
Qed.

Lemma runPredictions_history
  (calls : list ((Value -> Promise AdvancedAIPredictor.Response) * Z))
  (s : AdvancedAIPredictor.State) (seen : list AdvancedAIPredictor.HistoryEntry) :
  Forall displayable_body calls ->
  AdvancedAIPredictor.predictionHistory s = slice_last 10 seen ->
  shows_prediction s ->
  AdvancedAIPredictor.predictionHistory (runPredictions calls s) =
    slice_last 10
      (seen ++ flat_map (recorded (AdvancedAIPredictor.parameters s)) calls) /\
  (calls <> [] ->
   AdvancedAIPredictor.isLoading (runPredictions calls s) = false) /\
  shows_prediction (runPredictions calls s).
Proof.
  revert s seen. induction calls as [| c calls IH]; intros s seen Hall Hs Hp.
  - simpl. rewrite app_nil_r. split; [exact Hs |]. split; [congruence | exact Hp].
  - inversion Hall as [| ? ? Hc Hrest]; subst.
    destruct (@runPrediction_records c s Hc) as (Hpar & Hl & Hh & Hshow).
    unfold runPredictions in *. cbn [fold_left flat_map].
    set (s' := fst (settle (AdvancedAIPredictor.runPrediction (fst c) (snd c)) s))
      in *.
    destruct (IH s' (seen ++ recorded (AdvancedAIPredictor.parameters s) c)%list
                Hrest) as (IH1 & IH2 & IH3).
    + rewrite Hh.
      destruct (recorded (AdvancedAIPredictor.parameters s) c) as [| e rest] eqn:Er.
      * rewrite app_nil_r. exact Hs.
      * assert (rest = []) as ->.
        { unfold recorded in Er.
          destruct (fst c _) as [r |]; [| discriminate].
          destruct (AdvancedAIPredictor.json r); [| discriminate].
          now injection Er as _ <-. }
        rewrite Hs, slice_last_push, slice_last_absorb. reflexivity.
    + exact (Hshow Hp).
    + rewrite Hpar in IH1. rewrite <- app_assoc in IH1. split; [exact IH1 |].
      split; [| exact IH3].
      intros _. destruct calls as [| c2 calls]; [exact Hl |].
      apply IH2. discriminate.
Qed.

(** X19: as long as the service answers with predictions that the
    render displays, the prediction history of AdvancedAIPredictor is
    the last ten of the entries of the calls that succeeded, in call
    order, each with the clock reading of its call and the yield and
    confidence fields of its result; failed calls leave no trace, the
    loading flag is down after every call, and the component goes on
    showing no prediction or a displayable one.  (On any other body
    the render throws and the component is taken down, so no further
    call follows.) *)
Theorem prediction_history_is_last_ten
  (calls : list ((Value -> Promise AdvancedAIPredictor.Response) * Z)) :
  Forall displayable_body calls ->
  let s := runPredictions calls AdvancedAIPredictor.initialState in
  AdvancedAIPredictor.predictionHistory s =
    slice_last 10
      (flat_map (recorded (AdvancedAIPredictor.parameters
                             AdvancedAIPredictor.initialState)) calls) /\
  (List.length (AdvancedAIPredictor.predictionHistory s) <= 10)%nat /\
  AdvancedAIPredictor.isLoading s = false /\
  shows_prediction s.
Proof.
  intros Hall. cbv zeta.
  destruct (@runPredictions_history calls AdvancedAIPredictor.initialState []
              Hall eq_refl (or_introl eq_refl)) as (H1 & H2 & H3).
  split; [exact H1 |]. split; [| split; [| exact H3]].
  - rewrite H1, slice_last_length. lia.
  - destruct calls as [| c calls]; [reflexivity |]. apply H2. discriminate.
Qed.

(** The theorem on a failed call between two that succeed. *)
Lemma prediction_history_is_last_ten_witness :
  let calls :=
    [ (answers (sample_result 300), 1%Z);
      ((fun _ => Rejected "offline"), 2%Z);
      (answers (sample_result 280), 3%Z) ] in
  Forall displayable_body calls /\
  map AdvancedAIPredictor.timestamp
      (AdvancedAIPredictor.predictionHistory
         (runPredictions calls AdvancedAIPredictor.initialState)) = [1%Z; 3%Z] /\
  (List.length (AdvancedAIPredictor.predictionHistory
                  (runPredictions calls AdvancedAIPredictor.initialState))
   <= 10)%nat.
Proof.
  cbv zeta.
  match goal with
  | |- Forall displayable_body ?calls /\ _ =>
      assert (H : Forall displayable_body calls)
  end.
  { repeat apply Forall_cons; try apply Forall_nil;
      intros b r Hr; simpl in Hr; try discriminate;
      injection Hr as <-; reflexivity. }
  split; [exact H |].
  split; [reflexivity |].
  exact (proj1 (proj2 (prediction_history_is_last_ten H))).
Defined.

(** X20: with one of the offered scenarios selected, [handleOptimize]
    sends that scenario's locations and resources, stores what the
    request resolves to and uses the fallback only when the request is
    rejected; it never rejects itself, and ends with the loading flag
    down and the scenario still selected. *)
Theorem handleOptimize_known_scenario
  (optimizeResources : Value -> Promise Value) (s : QuantumOptimizer.State) :
  known_scenario s ->
  let s' := settle (QuantumOptimizer.handleOptimize optimizeResources) s in
  snd s' = Resolved tt /\
  QuantumOptimizer.loading (fst s') = false /\
  QuantumOptimizer.selectedScenario (fst s') = QuantumOptimizer.selectedScenario s /\
  QuantumOptimizer.optimization (fst s') =
    match optimizeResources (request s) with
    | Resolved result => result
    | Rejected _ => QuantumOptimizer.fallbackOptimization
    end /\
  nullish (prop (request s) "locations") = false /\
  nullish (prop (request s) "resources") = false.
Proof.
  intros Hk. cbv zeta.
  unfold settle, QuantumOptimizer.handleOptimize, try_finally, try_catch, bind,
    get, QuantumOptimizer.setLoading, QuantumOptimizer.setOptimization, modify,
    request.
  cbn [QuantumOptimizer.selectedScenario].
  destruct Hk as [-> | ->]; cbn -[QuantumOptimizer.fallbackOptimization];
    destruct (optimizeResources _) as [result | e]; repeat split; reflexivity.
Qed.

(** The theorem on the fresh component and a service that is down. *)
Lemma handleOptimize_known_scenario_witness :
  known_scenario QuantumOptimizer.initialState /\
  QuantumOptimizer.optimization
    (fst (settle (QuantumOptimizer.handleOptimize (fun _ => Rejected "offline"))
                 QuantumOptimizer.initialState))
  = QuantumOptimizer.fallbackOptimization.
Proof.
  assert (H : known_scenario QuantumOptimizer.initialState) by (left; reflexivity).
  split; [exact H |].
  exact (proj1 (proj2 (proj2 (proj2
    (@handleOptimize_known_scenario (fun _ => Rejected "offline") _ H))))).
Defined.

End PredictionHistory.

(* ================================================================= *)
(** ** App: the navigation *)

Section Navigation.

Import Invariants.
Local Open Scope string_scope.

(** The ids of the navigation items are pairwise distinct, so looking
    an item up by its id finds that item. *)
Lemma find_by_id (item : App.NavigationItem) :
  In item App.navigationItems ->
  find (fun i => String.eqb (App.id i) (App.id item)) App.navigationItems
    = Some item.
Proof.
  intros H. unfold App.navigationItems in H.
  repeat (destruct H as [<- | H]; [reflexivity |]). destruct H.
Qed.

Lemma navigate_shows (item : App.NavigationItem) (s : App.State) :
  In item App.navigationItems ->
  App.ActiveComponent (App.navigate item s) = App.component item.
Proof.
  intros H. unfold App.ActiveComponent, App.navigate.
  cbn [App.activeView App.setSidebarOpen App.setActiveView].
  now rewrite (find_by_id H).
Qed.

Lemma step_active_view (e : App.Event) (s : App.State) :
  (exists item, In item App.navigationItems /\ App.id item = App.activeView s) ->
  exists item, In item App.navigationItems /\
               App.id item = App.activeView (App.step e s).
Proof.
  intros H. destruct e as [| n | | w]; cbn [App.step].
  - exact H.
  - destruct (App.sidebarShown s); [| exact H].
    destruct (nth_error App.navigationItems n) as [item |] eqn:E; [| exact H].
    exists item. split; [exact (nth_error_In _ _ E) | reflexivity].
  - destruct (App.sidebarOpen s); exact H.
  - exact H.
Qed.

Lemma steps_active_view (es : list App.Event) (s : App.State) :
  (exists item, In item App.navigationItems /\ App.id item = App.activeView s) ->
  exists item, In item App.navigationItems /\
               App.id item = App.activeView (App.steps es s).
Proof.
  revert s. induction es as [| e es IH]; intros s H; [exact H |].
  unfold App.steps in *. cbn [fold_left]. apply IH. now apply step_active_view.
Qed.

(** X21: the active view of App is always the id of one of the six
    navigation items, after any run of menu, item and overlay clicks
    and window resizes, so the component shown is that item's and the
    ChampionshipDashboard default of the lookup is never taken for
    want of a match. *)
Theorem active_view_is_an_item (innerWidth : Z) (es : list App.Event) :
  exists item,
    In item App.navigationItems /\
    App.id item = App.activeView (app_after innerWidth es) /\
    find (fun i => String.eqb (App.id i) (App.activeView (app_after innerWidth es)))
         App.navigationItems = Some item /\
    App.ActiveComponent (app_after innerWidth es) = App.component item.
Proof.
  destruct (@steps_active_view es (App.mount innerWidth)) as (item & Hin & Hid).
  { eexists. split; [left; reflexivity | reflexivity]. }
  exists item. fold (app_after innerWidth es) in Hid.
  assert (Hf : find (fun i => String.eqb (App.id i)
                                (App.activeView (app_after innerWidth es)))
                    App.navigationItems = Some item)
    by (rewrite <- Hid; now apply find_by_id).
  repeat split; try assumption.
  unfold App.ActiveComponent. now rewrite Hf.
Qed.

(** X22: a click on the n-th navigation button, which is there only
    while the sidebar is rendered, shows the n-th item's component and
    closes the mobile sidebar; the sidebar then stays exactly on a
    desktop-wide window. *)
Theorem clicked_item_is_shown (n : nat) (item : App.NavigationItem) (s : App.State) :
  App.sidebarShown s = true ->
  nth_error App.navigationItems n = Some item ->
  let s' := App.step (App.ClickItem n) s in
  App.ActiveComponent s' = App.component item /\
  App.activeView s' = App.id item /\
  App.sidebarOpen s' = false /\
  App.sidebarShown s' = App.isDesktop s.
Proof.
  intros Hs Hn. cbv zeta. cbn [App.step]. rewrite Hs, Hn.
  split; [| repeat split].
  apply navigate_shows. exact (nth_error_In _ _ Hn).
Qed.

(** The theorem on a narrow window with the menu opened, at the
    world map's button. *)
Lemma clicked_item_is_shown_witness :
  let s := app_after 800 [App.ClickMenu] in
  App.sidebarShown s = true /\
  App.ActiveComponent (App.step (App.ClickItem 4) s) = App.WorldMap /\
  App.sidebarShown (App.step (App.ClickItem 4) s) = false.
Proof.
  cbv zeta.
  assert (Hs : App.sidebarShown (app_after 800 [App.ClickMenu]) = true)
    by reflexivity.
  split; [exact Hs |].
  destruct (@clicked_item_is_shown 4 _ (app_after 800 [App.ClickMenu]) Hs eq_refl)
    as (H1 & _ & _ & H4).
  split; [exact H1 | exact H4].
Defined.

End Navigation.
